(** * Dual-rail verification, consent and credential issuance of clickbadass

    A shallow embedding of the verification core of the repository:
    - [src/demo/verification-server.js]  (module [Demo]),
    - [src/vc-issuer.ts]                 (module [Issuer]),
    - [src/api/silobridge-api.ts]        (module [Api]),
    - the identity layer [UnyID]         (module [UnyID]),
    over a model of the JavaScript numbers ([JSNumber]) and date strings
    ([JSDate]) they compute with.

    Conventions of the embedding.
    - A reading of the clock ([Date.now()], [new Date()]) is an explicit
      argument, in milliseconds since the epoch; a handler reads it once.
    - The in-memory registries ([mockNFTRegistry], [mockVCRegistry],
      [consentStore], [pofTokenStore]) are finite maps keyed by strings.
      The two registries of the demo server are object literals, which
      also answer to the property names of [Object.prototype]
      ([Demo.inherited]): the token branch of [POST /api/verify] is
      embedded for every name, the credential branch and the dual-rail
      endpoint for the names that are not inherited.
    - A request field that may be missing is an [option]; JavaScript
      truthiness of such a field is [truthy].
    - The provider and the signer of the issuer are embedded where they
      answer: a credential that is issued carries the signature the
      signer returns, and a statement about an issued credential is
      made of a credential that was returned. *)

From Stdlib Require Import ZArith QArith Qpower Lia Bool List Ascii String.
From Stdlib Require Import Floats Uint63.
From stdpp Require Import base option strings list gmap.

Local Open Scope Z_scope.

(** ** JavaScript helpers *)

(** [if (s)] for an optional string field: [undefined] and the empty
    string are falsy. *)
Definition truthy (o : option string) : bool :=
  match o with
  | Some s => negb (String.eqb s "")
  | None => false
  end.

(** [a === b] on two values that are strings or [undefined]. *)
Definition strict_eq (a b : option string) : bool := bool_decide (a = b).

(** An express response: [res.json(body)] or [res.status(c).json({error})]. *)
Inductive response (A : Type) : Type :=
  | Json (body : A)
  | Status (code : Z) (error : string).
Arguments Json {A} body.
Arguments Status {A} code error.

(** ** JavaScript numbers

    A [number] is an IEEE-754 binary64 value.  A finite value is kept as
    [mant * 2 ^ exp]; the sign of zero is dropped, since no comparison of
    the program distinguishes [-0] from [0]. *)
Module JSNumber.

Inductive number : Type :=
  | NaN
  | Infinity (negative : bool)
  | Finite (mant exp : Z).

(** [if (x)] on a number: [NaN] and zero are falsy. *)
Definition truthy (x : number) : bool :=
  match x with
  | NaN => false
  | Infinity _ => true
  | Finite m _ => negb (m =? 0)
  end.

(** [m * 2^e] brought to the smaller of the exponents [e] and [e']. *)
Definition scaled (m e e' : Z) : Z := m * 2 ^ (e - Z.min e e').

(** [a < b]; any comparison with [NaN] is false. *)
Definition lt (a b : number) : bool :=
  match a, b with
  | NaN, _ | _, NaN => false
  | Infinity na, Infinity nb => na && negb nb
  | Infinity na, Finite _ _ => na
  | Finite _ _, Infinity nb => negb nb
  | Finite m1 e1, Finite m2 e2 => scaled m1 e1 e2 <? scaled m2 e2 e1
  end.

(** [a >= b]. *)
Definition ge (a b : number) : bool :=
  match a, b with
  | NaN, _ | _, NaN => false
  | Infinity na, Infinity nb => negb na || nb
  | Infinity na, Finite _ _ => negb na
  | Finite _ _, Infinity nb => nb
  | Finite m1 e1, Finite m2 e2 => scaled m2 e2 e1 <=? scaled m1 e1 e2
  end.

(** [floor (log2 (n / d))] for positive [n] and [d]. *)
Definition floor_log2 (n d : Z) : Z :=
  let e0 := Z.log2 n - Z.log2 d in
  if d * 2 ^ Z.max 0 e0 <=? n * 2 ^ Z.max 0 (- e0) then e0 else e0 - 1.

(** [num / den] rounded to the nearest integer, ties to even. *)
Definition round_half_even (num den : Z) : Z :=
  let q := num / den in
  let r := num mod den in
  if 2 * r <? den then q
  else if den <? 2 * r then q + 1
  else if Z.even q then q else q + 1.

(** The binary64 value nearest to [n / d] (with [0 <= n], [0 < d]),
    negated when [negative]: 53 bits of precision, gradual underflow
    below [2^-1022], overflow to infinity from [2^1024]. *)
Definition of_rational (negative : bool) (n d : Z) : number :=
  if n =? 0 then Finite 0 0
  else
    let ex := Z.max (floor_log2 n d) (-1022) - 52 in
    let m := round_half_even (n * 2 ^ Z.max 0 (- ex)) (d * 2 ^ Z.max 0 ex) in
    if (971 <? ex) || ((ex =? 971) && (m =? 2 ^ 53)) then Infinity negative
    else Finite (if negative then - m else m) ex.

(** The binary64 value nearest to [m * 10^k]. *)
Definition of_decimal (negative : bool) (m k : Z) : number :=
  if 0 <=? k then of_rational negative (m * 10 ^ k) 1
  else of_rational negative m (10 ^ (- k)).

(** Leading white space and line terminators (the ASCII ones). *)
Definition is_white_space (c : ascii) : bool :=
  let n := nat_of_ascii c in
  ((9 <=? n) && (n <=? 13))%nat || (n =? 32)%nat.

Definition digit_of (c : ascii) : option Z :=
  let n := Z.of_nat (nat_of_ascii c) in
  if (48 <=? n) && (n <=? 57) then Some (n - 48) else None.

Fixpoint skip_white_space (s : string) : string :=
  match s with
  | String c t => if is_white_space c then skip_white_space t else s
  | EmptyString => s
  end.

(** The longest run of decimal digits at the head of [s], accumulated
    on [acc]: its value, its length and the rest of the string. *)
Fixpoint digits (acc : Z) (s : string) : Z * nat * string :=
  match s with
  | String c t =>
      match digit_of c with
      | Some d => let '(v, n, r) := digits (acc * 10 + d) t in (v, S n, r)
      | None => (acc, O, s)
      end
  | EmptyString => (acc, O, s)
  end.

Definition signed (s : string) : bool * string :=
  match s with
  | String "-" t => (true, t)
  | String "+" t => (false, t)
  | _ => (false, s)
  end.

(** [ExponentPart]: [e] or [E], an optional sign and at least one
    digit; anything else is not part of the literal. *)
Definition exponent_part (s : string) : Z :=
  match s with
  | String c t =>
      if Ascii.eqb c "e" || Ascii.eqb c "E" then
        let '(neg, u) := signed t in
        let '(v, n, _) := digits 0 u in
        match n with
        | O => 0
        | S _ => if neg then - v else v
        end
      else 0
  | EmptyString => 0
  end.

(** [parseFloat(input)]: the longest prefix of the trimmed input that is
    a [StrDecimalLiteral], as a binary64 value; [NaN] when there is none. *)
Definition parseFloat (input : string) : number :=
  let '(neg, s) := signed (skip_white_space input) in
  if String.prefix "Infinity" s then Infinity neg
  else
    let '(ip, ni, s1) := digits 0 s in
    let '(mant, nf, s2) :=
      match s1 with
      | String "." t => digits ip t
      | _ => (ip, O, s1)
      end in
    match (ni + nf)%nat with
    | O => NaN
    | S _ => of_decimal neg mant (exponent_part s2 - Z.of_nat nf)
    end.

(** The rational number a finite value stands for. *)
Definition value (m e : Z) : Q := inject_Z m * 2 ^ e.

(** The integer written by a string of decimal digits, continuing
    from [acc]; [None] when a character is not a digit. *)
Fixpoint decimal_value (acc : Z) (s : string) : option Z :=
  match s with
  | EmptyString => Some acc
  | String c t =>
      match digit_of c with
      | Some d => decimal_value (acc * 10 + d) t
      | None => None
      end
  end.

(** [s] is an unsigned decimal integer, and its value. *)
Definition decimal_integer (s : string) : option Z :=
  match s with
  | EmptyString => None
  | String _ _ => decimal_value 0 s
  end.

(** The number of an integer, rounded when it has more than 53 bits. *)
Definition of_Z (z : Z) : number := of_rational (z <? 0) (Z.abs z) 1.

(** [s.slice(n)] *)
Fixpoint string_drop (n : nat) (s : string) : string :=
  match n, s with
  | S k, String _ t => string_drop k t
  | _, _ => s
  end.

(** What follows an [ExponentPart] at the head of [s], or [s] itself
    when there is none. *)
Definition after_exponent (s : string) : string :=
  match s with
  | String c t =>
      if Ascii.eqb c "e" || Ascii.eqb c "E" then
        let '(_, u) := signed t in
        let '(_, n, r) := digits 0 u in
        match n with
        | O => s
        | S _ => r
        end
      else s
  | EmptyString => s
  end.

(** What follows the longest [StrDecimalLiteral] at the head of [s];
    [None] when there is none.  [parseFloat] is the value of that
    literal. *)
Definition after_literal (s : string) : option string :=
  let '(_, u) := signed s in
  if String.prefix "Infinity" u then Some (string_drop 8 u)
  else
    let '(_, ni, s1) := digits 0 u in
    let '(nf, s2) :=
      match s1 with
      | String "." t => let '(_, n, r) := digits 0 t in (n, r)
      | _ => (O, s1)
      end in
    match (ni + nf)%nat with
    | O => None
    | S _ => Some (after_exponent s2)
    end.

(** The digits of the bases 2, 8 and 16. *)
Definition radix_digit_of (base : Z) (c : ascii) : option Z :=
  let n := Z.of_nat (nat_of_ascii c) in
  let d :=
    if (48 <=? n) && (n <=? 57) then n - 48
    else if (97 <=? n) && (n <=? 102) then n - 87
    else if (65 <=? n) && (n <=? 70) then n - 55
    else 16 in
  if d <? base then Some d else None.

Fixpoint radix_digits (base acc : Z) (s : string) : Z * nat * string :=
  match s with
  | String c t =>
      match radix_digit_of base c with
      | Some d =>
          let '(v, n, r) := radix_digits base (acc * base + d) t in (v, S n, r)
      | None => (acc, O, s)
      end
  | EmptyString => (acc, O, s)
  end.

(** The base that a prefix [0x], [0o] or [0b] announces, and the rest. *)
Definition radix_prefix (s : string) : option (Z * string) :=
  match s with
  | String "0" (String c t) =>
      if Ascii.eqb c "x" || Ascii.eqb c "X" then Some (16, t)
      else if Ascii.eqb c "o" || Ascii.eqb c "O" then Some (8, t)
      else if Ascii.eqb c "b" || Ascii.eqb c "B" then Some (2, t)
      else None
  | _ => None
  end.

(** Only white space. *)
Definition blank (s : string) : bool :=
  match skip_white_space s with
  | EmptyString => true
  | String _ _ => false
  end.

(** [Number(input)] of a string: the trimmed input is empty (zero), an
    integer literal of base 2, 8 or 16, or a [StrDecimalLiteral] that
    leaves nothing over; anything else is [NaN]. *)
Definition to_number (input : string) : number :=
  let s := skip_white_space input in
  if blank s then Finite 0 0
  else
    match radix_prefix s with
    | Some (base, t) =>
        let '(v, n, r) := radix_digits base 0 t in
        match n with
        | O => NaN
        | S _ => if blank r then of_rational false v 1 else NaN
        end
    | None =>
        match after_literal s with
        | Some r => if blank r then parseFloat s else NaN
        | None => NaN
        end
    end.

(** The decimal digits of a positive integer, before [acc]; [fuel]
    bounds their number. *)
Fixpoint decimal_digits (fuel : nat) (n : Z) (acc : string) : string :=
  match fuel with
  | O => acc
  | S f =>
      let acc := String (ascii_of_nat (48 + Z.to_nat (n mod 10))) acc in
      if n <? 10 then acc else decimal_digits f (n / 10) acc
  end.

(** [String(z)] of an integer below [10^21] in magnitude, which is
    printed in full. *)
Definition to_string (z : Z) : string :=
  let digits n := decimal_digits (S (Z.to_nat (Z.log2 n))) n "" in
  if z <? 0 then String "-" (digits (- z)) else digits z.

(** The same value as a machine float, for values with a mantissa
    below [2^63]; used to compare the rounding above with the
    arithmetic of the machine. *)
Definition to_float (x : number) : float :=
  match x with
  | NaN => PrimFloat.nan
  | Infinity negative =>
      if negative then PrimFloat.neg_infinity else PrimFloat.infinity
  | Finite m e =>
      let f := Z.ldexp (PrimFloat.of_uint63 (Uint63.of_Z (Z.abs m))) e in
      if m <? 0 then PrimFloat.opp f else f
  end.

End JSNumber.

(** ** JavaScript dates

    [Date.prototype.toISOString] and [new Date(text)] are inverse to each
    other on the valid instants, so a date string in ISO-8601 form is
    represented by the instant it denotes (milliseconds since the epoch).
    Any other text is kept as it is; [new Date] of it is an Invalid Date,
    whose time value is [NaN]. *)
Module JSDate.

Inductive DateString : Type :=
  | ISO (ms : Z)
  | Text (s : string).

(** The largest time value of a [Date]. *)
Definition max_time : Z := 8640000000000000.

(** [new Date(t).toISOString()]; [None] is the [RangeError] thrown for a
    time value outside the range of [Date]. *)
Definition toISOString (t : Z) : option DateString :=
  if Z.abs t <=? max_time then Some (ISO t) else None.

(** [new Date(d).getTime()]; [None] is [NaN]. *)
Definition getTime (d : DateString) : option Z :=
  match d with
  | ISO t => Some t
  | Text _ => None
  end.

(** [new Date(d) < new Date()] with the clock at [now]. *)
Definition before (d : DateString) (now : Z) : bool :=
  match getTime d with
  | Some t => t <? now
  | None => false
  end.

(** Truthiness of a date string: only the empty string is falsy. *)
Definition nonempty (d : DateString) : bool :=
  match d with
  | ISO _ => true
  | Text s => negb (String.eqb s "")
  end.

End JSDate.

(** ** The demo server: [src/demo/verification-server.js] *)
Module Demo.

(** An entry of [mockNFTRegistry]. *)
Record NFTData := {
  nft_tokenId : string;
  nft_amount : string;
  nft_asset : string;
  nft_holderAddress : string;
  nft_expiry : Z;                      (* unix seconds *)
  nft_kycCompliant : bool;
  nft_sanctionsCleared : bool;
  nft_custodian : string;
  nft_auditHash : string;
  nft_valid : bool
}.

(** The [metadata] object of a rail result. *)
Record Metadata := {
  amount : string;
  currency : string;
  tokenId : string;
  holderDID : option string
}.

(** An entry of [mockVCRegistry]. *)
Record VCData := {
  vc_vcURI : string;
  vc_valid : bool;
  vc_claims : list string;
  vc_issuedBy : string;
  vc_expiresAt : JSDate.DateString;
  vc_verifiedAt : Z;
  vc_metadata : Metadata
}.

(** One rail's result inside [Promise.all]. *)
Record RailResult := {
  valid : bool;
  method : string;
  claims : option (list string);
  metadata : option Metadata;
  reason : option string
}.

Record CrossValidation := {
  bothValid : bool;
  amountMatch : bool;
  currencyMatch : bool;
  tokenIdMatch : bool
}.

Record DualResult := {
  dual_valid : bool;
  verificationMethods : list string;
  crossValidation : CrossValidation;
  results_vc : RailResult;
  results_nft : RailResult;
  dual_verifiedAt : Z;
  dual_reason : string
}.

(** A JSON value used where a number is expected: [minAmount] reaches
    the handler as a number or as a string. *)
Inductive numeric : Type :=
  | Num (n : JSNumber.number)
  | Str (s : string).

(** Truthiness of [minAmount]. *)
Definition numeric_truthy (o : option numeric) : bool :=
  match o with
  | Some (Num n) => JSNumber.truthy n
  | Some (Str s) => truthy (Some s)
  | None => false
  end.

(** [parseFloat(v)]: a number is first printed, and printing a binary64
    value then parsing it gives the value back. *)
Definition parseFloat (v : numeric) : JSNumber.number :=
  match v with
  | Num n => n
  | Str s => JSNumber.parseFloat s
  end.

(** The body of [POST /api/verify] and [POST /api/verify/dual]. *)
Record Request := {
  req_vcURI : option string;
  req_tokenId : option string;
  req_requiredAsset : option string;
  req_minAmount : option numeric
}.

(** The [reason] of a single-rail result; the two template literals are
    kept by their parts. *)
Inductive Reason : Type :=
  | Message (text : string)
  | AssetMismatch (required found : string)
  | InsufficientAmount (required : numeric) (found : string).

(** The [metadata] of a single-rail result: [{}], the metadata stored
    with a credential, or the object built from a token. *)
Inductive ResultMetadata : Type :=
  | EmptyMetadata
  | VCMetadata (m : Metadata)
  | NFTMetadata (tokenId amount currency holderAddress custodian : string)
      (kycCompliant sanctionsCleared : bool).

(** The body of the response of [POST /api/verify]. *)
Record Result := {
  res_valid : bool;
  res_reason : Reason;
  res_claims : list string;
  res_issuedBy : option string;
  res_expiresAt : option JSDate.DateString;
  res_verifiedAt : Z;
  res_metadata : ResultMetadata
}.

(** The registries are object literals, so a read of [registry[name]]
    also finds what [Object.prototype] defines under [name]: a function,
    or the prototype itself for [__proto__]. *)
Definition inherited (name : string) : bool :=
  List.existsb (String.eqb name)
    ["constructor"; "__proto__"; "hasOwnProperty"; "isPrototypeOf";
     "propertyIsEnumerable"; "toLocaleString"; "toString"; "valueOf";
     "__defineGetter__"; "__defineSetter__"; "__lookupGetter__";
     "__lookupSetter__"].

(** [result.valid = false; result.reason = r]. *)
Definition fail (r : Reason) (result : Result) : Result :=
  {| res_valid := false; res_reason := r;
     res_claims := res_claims result; res_issuedBy := res_issuedBy result;
     res_expiresAt := res_expiresAt result;
     res_verifiedAt := res_verifiedAt result;
     res_metadata := res_metadata result |}.

(** The two requirement checks that follow the construction of
    [result], on the asset and amount found on the rail. *)
Definition check_requirements (req : Request) (asset amount : string)
    (result : Result) : Result :=
  let result :=
    match req_requiredAsset req with
    | Some requiredAsset =>
        if truthy (Some requiredAsset) && negb (String.eqb asset requiredAsset)
        then fail (AssetMismatch requiredAsset asset) result
        else result
    | None => result
    end in
  match req_minAmount req with
  | Some minAmount =>
      if numeric_truthy (Some minAmount)
         && JSNumber.lt (JSNumber.parseFloat amount) (parseFloat minAmount)
      then fail (InsufficientAmount minAmount amount) result
      else result
  | None => result
  end.

(** [nftData.expiry > (Date.now() / 1000)]: [expiry] is in seconds and
    the clock in milliseconds.  A clock reading is below [2^53], where the
    rounding of the quotient (by less than a thousandth) cannot carry it
    across an integer, so the test is that of the exact quotient. *)
Definition not_expired (now : Z) (expiry : Z) : bool := now <? expiry * 1000.

(** First promise: the credential rail. *)
Definition vc_rail (vcReg : gmap string VCData) (vcURI : string) : RailResult :=
  match vcReg !! vcURI with
  | Some vcData =>
      {| valid := vc_valid vcData; method := "VC";
         claims := Some (vc_claims vcData);
         metadata := Some (vc_metadata vcData); reason := None |}
  | None =>
      {| valid := false; method := "VC"; claims := None;
         metadata := None; reason := Some "VC not found" |}
  end.

(** Second promise: the token rail. *)
Definition nft_rail (nftReg : gmap string NFTData) (now : Z)
    (tokenId : string) : RailResult :=
  match nftReg !! tokenId with
  | Some nftData =>
      {| valid := nft_valid nftData && not_expired now (nft_expiry nftData);
         method := "NFT";
         claims := Some ["ProofOfFunds"];
         metadata := Some {| amount := nft_amount nftData;
                             currency := nft_asset nftData;
                             tokenId := nft_tokenId nftData;
                             holderDID := None |};
         reason := None |}
  | None =>
      {| valid := false; method := "NFT"; claims := None;
         metadata := None; reason := Some "NFT not found" |}
  end.

(** [crossValidation] of two rail results ([a.metadata?.x === b.metadata?.x]). *)
Definition cross_validate (vcResult nftResult : RailResult) : CrossValidation :=
  {| bothValid := valid vcResult && valid nftResult;
     amountMatch := strict_eq (amount <$> metadata vcResult)
                             (amount <$> metadata nftResult);
     currencyMatch := strict_eq (currency <$> metadata vcResult)
                               (currency <$> metadata nftResult);
     tokenIdMatch := strict_eq (tokenId <$> metadata vcResult)
                              (tokenId <$> metadata nftResult) |}.

(** The combined result built from the two rail results. *)
Definition combine (now : Z) (vcResult nftResult : RailResult) : DualResult :=
  let cv := cross_validate vcResult nftResult in
  {| dual_valid := bothValid cv && amountMatch cv && currencyMatch cv;
     verificationMethods := ["VC"; "NFT"];
     crossValidation := cv;
     results_vc := vcResult;
     results_nft := nftResult;
     dual_verifiedAt := now;
     dual_reason :=
       if bothValid cv then
         if amountMatch cv && currencyMatch cv
         then "Dual verification successful with cross-validation"
         else "Methods valid but claims do not match"
       else "One or both verification methods failed" |}.

(** [app.post('/api/verify/dual', ...)].  [requiredAsset] and
    [minAmount] are read from the body and not used. *)
Definition verify_dual (vcReg : gmap string VCData)
    (nftReg : gmap string NFTData) (now : Z) (req : Request)
    : response DualResult :=
  if negb (truthy (req_vcURI req)) || negb (truthy (req_tokenId req))
  then Status 400 "Both vcURI and tokenId required for dual verification"
  else
    let vcURI := default "" (req_vcURI req) in
    let tokenId := default "" (req_tokenId req) in
    Json (combine now (vc_rail vcReg vcURI) (nft_rail nftReg now tokenId)).

(** The credential branch of [POST /api/verify]. *)
Definition verify_vc (vcReg : gmap string VCData) (now : Z) (req : Request)
    (vcURI : string) (result : Result) : Result :=
  match vcReg !! vcURI with
  | Some vcData =>
      check_requirements req
        (currency (vc_metadata vcData)) (amount (vc_metadata vcData))
        {| res_valid := vc_valid vcData;
           res_reason := Message (if vc_valid vcData
                                  then "VC verification successful"
                                  else "Invalid VC signature");
           res_claims := vc_claims vcData;
           res_issuedBy := Some (vc_issuedBy vcData);
           res_expiresAt := Some (vc_expiresAt vcData);
           res_verifiedAt := vc_verifiedAt vcData;
           res_metadata := VCMetadata (vc_metadata vcData) |}
  | None => {| res_valid := res_valid result;
               res_reason := Message "VC not found in registry";
               res_claims := res_claims result;
               res_issuedBy := res_issuedBy result;
               res_expiresAt := res_expiresAt result;
               res_verifiedAt := res_verifiedAt result;
               res_metadata := res_metadata result |}
  end.

(** The token branch of [POST /api/verify]; [None] is the [RangeError]
    of [toISOString], which the handler answers with status 500.  For a
    name that the registry inherits, [nftData] is truthy and has no
    [expiry], so that the date is invalid. *)
Definition verify_nft (nftReg : gmap string NFTData) (now : Z) (req : Request)
    (tokenId : string) (result : Result) : option Result :=
  match nftReg !! tokenId with
  | Some nftData =>
      expiresAt ← JSDate.toISOString (nft_expiry nftData * 1000);
      Some (check_requirements req (nft_asset nftData) (nft_amount nftData)
        {| res_valid := nft_valid nftData && not_expired now (nft_expiry nftData);
           res_reason := Message (if nft_valid nftData
                                  then if not_expired now (nft_expiry nftData)
                                       then "NFT verification successful"
                                       else "Token expired"
                                  else "Invalid token");
           res_claims := ["ProofOfFunds"];
           res_issuedBy := Some "UPoF V2 System";
           res_expiresAt := Some expiresAt;
           res_verifiedAt := now;
           res_metadata :=
             NFTMetadata (nft_tokenId nftData) (nft_amount nftData)
               (nft_asset nftData) (nft_holderAddress nftData)
               (nft_custodian nftData) (nft_kycCompliant nftData)
               (nft_sanctionsCleared nftData) |})
  | None =>
      if inherited tokenId then None
      else Some {| res_valid := res_valid result;
                   res_reason := Message "NFT token not found";
                   res_claims := res_claims result;
                   res_issuedBy := res_issuedBy result;
                   res_expiresAt := res_expiresAt result;
                   res_verifiedAt := res_verifiedAt result;
                   res_metadata := res_metadata result |}
  end.

(** [app.post('/api/verify', ...)]. *)
Definition verify (vcReg : gmap string VCData) (nftReg : gmap string NFTData)
    (now : Z) (req : Request) : response Result :=
  let result :=
    {| res_valid := false;
       res_reason := Message "No verification method provided";
       res_claims := []; res_issuedBy := None; res_expiresAt := None;
       res_verifiedAt := now; res_metadata := EmptyMetadata |} in
  if truthy (req_vcURI req)
  then Json (verify_vc vcReg now req (default "" (req_vcURI req)) result)
  else if truthy (req_tokenId req)
  then match verify_nft nftReg now req (default "" (req_tokenId req)) result with
       | Some r => Json r
       | None => Status 500 "Internal server error"
       end
  else Json result.

(** The registries the server starts with; [start] is the clock when
    the module is loaded. *)
Definition mockNFTRegistry (start : Z) : gmap string NFTData :=
  {[ "42" :=
     {| nft_tokenId := "42";
        nft_amount := "50000.00";
        nft_asset := "USDC";
        nft_holderAddress := "0x742d35Cc6634C0532925a3b8D93C7E8F476C4578";
        nft_expiry := start / 1000 + 30 * 24 * 60 * 60;
        nft_kycCompliant := true;
        nft_sanctionsCleared := true;
        nft_custodian := "Coinbase Custody";
        nft_auditHash :=
          "0x8f3b4e9a7c1d6f2e5b8a9c4d7e1f6a2b5c8e1a4b7c2d5e8f1a4b7c2d5e8f1a4b";
        nft_valid := true |} ]}.

Definition pof42 : string :=
  "did:ethr:0x742d35Cc6634C0532925a3b8D93C7E8F476C4578/vc/pof-42".

Definition mockVCRegistry (start : Z) : gmap string VCData :=
  {[ pof42 :=
     {| vc_vcURI := pof42;
        vc_valid := true;
        vc_claims := ["ProofOfFunds"; "KYCCompliant"; "SanctionsCleared"];
        vc_issuedBy := "UnyKorn Proof of Funds Service";
        vc_expiresAt := JSDate.ISO (start + 30 * 24 * 60 * 60 * 1000);
        vc_verifiedAt := start;
        vc_metadata :=
          {| amount := "50000.00"; currency := "USDC"; tokenId := "42";
             holderDID :=
               Some "did:ethr:0x742d35Cc6634C0532925a3b8D93C7E8F476C4578" |} |} ]}.


End Demo.

(** ** The credential issuer: [src/vc-issuer.ts] *)
Module Issuer.
Import JSDate.

Record POFData := {
  tokenId : string;
  asset : string;
  amount : string;
  expiry : Z;                          (* unix seconds *)
  holderAddress : string;
  kycCompliant : bool;
  sanctionsCleared : bool;
  custodian : option string;
  auditHash : option string
}.

Record VCIssuerConfig := {
  issuerDID : string;
  signingKey : string;
  registryContract : string;
  rpcUrl : string
}.

(** A [VCIssuer]: its configuration and the chain id its provider
    reports from [getNetwork()]. *)
Record VCIssuer := {
  config : VCIssuerConfig;
  network_chainId : Z
}.

Record HasAsset := {
  asset_type : string;
  minimumAmount : string;
  currency : string
}.

Record ProofOfFunds := {
  pof_tokenId : string;
  verifiedAmount : string;
  pof_custodian : string;
  auditTrail : option string
}.

Record Compliance := {
  kycApproved : bool;
  compliance_sanctionsCleared : bool;
  compliance_verifiedAt : DateString
}.

Record KYCStatus := {
  kyc_approved : bool;
  kyc_level : string;
  kyc_provider : string;
  kyc_verifiedAt : DateString
}.

Record Device := {
  device_id : string;
  device_platform : string;
  device_securityLevel : string;
  device_attestations : list string;
  device_verifiedAt : DateString
}.

(** [credentialSubject], by the kind of credential. *)
Inductive CredentialSubject : Type :=
  | ProofOfFundsSubject (id : string) (hasAsset : HasAsset)
      (proofOfFunds : ProofOfFunds) (compliance : Compliance)
  | KYCSubject (id : string) (kycStatus : KYCStatus)
  | DeviceSubject (id : string) (device : Device).

(** [issuer]: a DID, or an object with [id] and [name]. *)
Inductive IssuerField : Type :=
  | IssuerDID (did : string)
  | IssuerObject (id name : string).

Record CredentialStatus := {
  status_id : string;
  status_type : string
}.

Record Proof := {
  proof_type : string;
  created : DateString;
  verificationMethod : string;
  proofPurpose : string;
  proofValue : string
}.

Record VerifiableCredential := {
  vc_context : list string;
  vc_type : list string;
  vc_issuer : IssuerField;
  issuanceDate : DateString;
  expirationDate : option DateString;
  credentialSubject : CredentialSubject;
  credentialStatus : option CredentialStatus;
  proof : option Proof
}.

(** The EIP-712 domain of a credential signature. *)
Record Domain := {
  domain_name : string;
  domain_version : string;
  domain_chainId : Z;
  verifyingContract : string
}.

(** The value that is signed; its type schema is the constant [types]
    of [signVC] and [verifyVCSignature]. *)
Record TypedValue := {
  tv_context : list string;
  tv_type : list string;
  tv_issuer : string;
  tv_issuanceDate : DateString;
  tv_expirationDate : DateString;
  tv_credentialSubject : string
}.

(** The library functions the issuer calls. *)
Class Runtime := {
  (** [new ethers.Wallet(key)._signTypedData(domain, types, value)],
      where the signer returns: it throws for a domain whose
      [verifyingContract] is not an address *)
  signTypedData : string -> Domain -> TypedValue -> string;
  (** [ethers.utils.verifyTypedData(domain, types, value, signature)];
      [None] when it throws. *)
  verifyTypedData : Domain -> TypedValue -> string -> option string;
  (** [new ethers.Wallet(key).address] *)
  walletAddress : string -> string;
  (** [JSON.stringify(credentialSubject)] *)
  JSON_stringify : CredentialSubject -> string
}.

(** What the issuer relies on: the signer of a typed-data signature is
    recovered from it, and a signature is not the empty string. *)
Class RuntimeLaws (R : Runtime) : Prop := {
  verify_sign : forall key d v,
    verifyTypedData d v (signTypedData key d v) = Some (walletAddress key);
  sign_nonempty : forall key d v, signTypedData key d v <> ""
}.

(** A runtime whose signatures show their key; it satisfies the laws
    and stands for the libraries where a concrete run is needed. *)
Definition plain_runtime : Runtime :=
  {| signTypedData key _ _ := String "s" key;
     verifyTypedData _ _ signature :=
       match signature with
       | String _ key => Some key
       | EmptyString => None
       end;
     walletAddress key := key;
     JSON_stringify _ := "{}" |}.

(** [c.toLowerCase()] on a byte: the ASCII capitals are folded. *)
Definition lower (c : ascii) : ascii :=
  let n := nat_of_ascii c in
  if ((65 <=? n) && (n <=? 90))%nat then ascii_of_nat (n + 32) else c.

Fixpoint toLowerCase (s : string) : string :=
  match s with
  | String c t => String (lower c) (toLowerCase t)
  | EmptyString => EmptyString
  end.

(** [s.includes(sub)] *)
Fixpoint includes (s sub : string) : bool :=
  String.prefix sub s ||
  match s with
  | String _ t => includes t sub
  | EmptyString => false
  end.

Definition extractCurrency (asset : string) : string :=
  if includes asset "USDC" then "USDC"
  else if includes asset "USDT" then "USDT"
  else if includes asset "ETH" then "ETH"
  else if includes asset "BTC" then "BTC"
  else "USD".

(** The result of [verifyCredential]. *)
Record Verification := {
  verified : bool;
  error : option string;
  details : option (IssuerField * list string)
}.

Section VCIssuer.
Context `{R : Runtime}.
(** [this] *)
Variable self : VCIssuer.

Definition credential_domain : Domain :=
  {| domain_name := "UnyKorn Verifiable Credentials";
     domain_version := "1";
     domain_chainId := network_chainId self;
     verifyingContract := registryContract (config self) |}.

Definition issuer_id (i : IssuerField) : string :=
  match i with
  | IssuerDID did => did
  | IssuerObject id _ => id
  end.

(** The [value] of [signVC] and of [verifyVCSignature]. *)
Definition typed_value (vc : VerifiableCredential) : TypedValue :=
  {| tv_context := vc_context vc;
     tv_type := vc_type vc;
     tv_issuer := issuer_id (vc_issuer vc);
     tv_issuanceDate := issuanceDate vc;
     tv_expirationDate :=
       match expirationDate vc with
       | Some d => if nonempty d then d else Text ""
       | None => Text ""
       end;
     tv_credentialSubject := JSON_stringify (credentialSubject vc) |}.

(** [signVC(vc)]; [created] is the clock when the proof is attached. *)
Definition signVC (created : Z) (vc : VerifiableCredential)
    : VerifiableCredential :=
  let signature :=
    signTypedData (signingKey (config self)) credential_domain
      (typed_value vc) in
  {| vc_context := vc_context vc;
     vc_type := vc_type vc;
     vc_issuer := vc_issuer vc;
     issuanceDate := issuanceDate vc;
     expirationDate := expirationDate vc;
     credentialSubject := credentialSubject vc;
     credentialStatus := credentialStatus vc;
     proof := Some {| proof_type := "EthereumEip712Signature2021";
                      created := ISO created;
                      verificationMethod := issuerDID (config self) ++ "#key-1";
                      proofPurpose := "assertionMethod";
                      proofValue := signature |} |}.

(** [issueProofOfFunds(holderDID, pofData)] with the clock at [now];
    [None] is the [RangeError] of [expirationDate.toISOString()]. *)
Definition issueProofOfFunds (now created : Z) (holderDID : string)
    (pofData : POFData) : option VerifiableCredential :=
  expiration ← toISOString (expiry pofData * 1000);
  let subject :=
    ProofOfFundsSubject holderDID
      {| asset_type := asset pofData;
         minimumAmount := amount pofData;
         currency := extractCurrency (asset pofData) |}
      {| pof_tokenId := tokenId pofData;
         verifiedAmount := amount pofData;
         pof_custodian :=
           match custodian pofData with
           | Some c => if String.eqb c "" then "self-custody" else c
           | None => "self-custody"
           end;
         auditTrail := auditHash pofData |}
      {| kycApproved := kycCompliant pofData;
         compliance_sanctionsCleared := sanctionsCleared pofData;
         compliance_verifiedAt := ISO now |} in
  Some (signVC created
    {| vc_context := ["https://www.w3.org/2018/credentials/v1";
                      "https://pof.unykorn.com/contexts/v1";
                      "https://schema.org"];
       vc_type := ["VerifiableCredential"; "ProofOfFundsCredential"];
       vc_issuer := IssuerObject (issuerDID (config self))
                      "UnyKorn Proof of Funds Service";
       issuanceDate := ISO now;
       expirationDate := Some expiration;
       credentialSubject := subject;
       credentialStatus :=
         Some {| status_id := registryContract (config self) ++ "#"
                              ++ tokenId pofData;
                 status_type := "EthereumAttestationServiceStatus" |};
       proof := None |}).

(** [verifyVCSignature(vc)] *)
Definition verifyVCSignature (vc : VerifiableCredential) : bool :=
  match proof vc with
  | None => false
  | Some p =>
      if String.eqb (proofValue p) "" then false
      else
        match verifyTypedData credential_domain (typed_value vc)
                (proofValue p) with
        | Some recoveredAddress =>
            String.eqb (toLowerCase recoveredAddress)
              (toLowerCase (walletAddress (signingKey (config self))))
        | None => false
        end
  end.

(** [checkRevocationStatus(vc)]: both branches answer [false]. *)
Definition checkRevocationStatus (vc : VerifiableCredential) : bool :=
  match credentialStatus vc with
  | None => false
  | Some _ => false
  end.

(** [vc.expirationDate && new Date(vc.expirationDate) < new Date()] *)
Definition expired (now : Z) (vc : VerifiableCredential) : bool :=
  match expirationDate vc with
  | Some d => nonempty d && before d now
  | None => false
  end.

(** [verifyCredential(vc)] with the clock at [now]. *)
Definition verifyCredential (now : Z) (vc : VerifiableCredential)
    : Verification :=
  if negb (verifyVCSignature vc)
  then {| verified := false; error := Some "Invalid signature";
          details := None |}
  else if expired now vc
  then {| verified := false; error := Some "Credential expired";
          details := None |}
  else if checkRevocationStatus vc
  then {| verified := false; error := Some "Credential revoked";
          details := None |}
  else {| verified := true; error := None;
          details := Some (vc_issuer vc, vc_type vc) |}.

End VCIssuer.

(** An issuer and a token record for concrete runs: a key of 32 bytes
    and the address of a registry contract. *)
Definition sample_issuer : VCIssuer :=
  {| config := {| issuerDID := "did:ethr:0x123";
                  signingKey :=
                    "0x0123456789012345678901234567890123456789012345678901234567890123";
                  registryContract := "0xa1207f3bba224e2c9c3c6d5af63d0eb1582ce587";
                  rpcUrl := "http://localhost:8545" |};
     network_chainId := 1 |}.

Definition sample_pof (expiry : Z) : POFData :=
  {| tokenId := "42"; asset := "USDC"; amount := "50000.00";
     expiry := expiry;
     holderAddress := "0x742d35Cc6634C0532925a3b8D93C7E8F476C4578";
     kycCompliant := true; sanctionsCleared := true;
     custodian := Some "Coinbase Custody"; auditHash := None |}.

(** A credential that carries no proof. *)
Definition unsigned_credential (expiration : Z) : VerifiableCredential :=
  {| vc_context := ["https://www.w3.org/2018/credentials/v1"];
     vc_type := ["VerifiableCredential"];
     vc_issuer := IssuerDID "did:ethr:0x123";
     issuanceDate := ISO 0;
     expirationDate := Some (ISO expiration);
     credentialSubject :=
       KYCSubject "did:ethr:0xabc"
         {| kyc_approved := true; kyc_level := "standard";
            kyc_provider := "UnyKorn KYC"; kyc_verifiedAt := ISO 0 |};
     credentialStatus := None;
     proof := None |}.

(** The credential issued at the epoch for [sample_pof expiry]. *)
Definition sample_credential (expiry : Z) : VerifiableCredential :=
  default (unsigned_credential 0)
    (issueProofOfFunds (R := plain_runtime) sample_issuer 0 0
       "did:ethr:0xabc" (sample_pof expiry)).

(** The [kycData] argument of [issueKYCCredential]. *)
Record KYCData := {
  kycData_userId : string;
  kycData_provider : string;
  kycData_level : string;
  kycData_approved : bool;
  kycData_verifiedAt : Z                (* unix seconds *)
}.

(** The [deviceData] argument of [issueDeviceAttestation]. *)
Record DeviceData := {
  deviceData_deviceId : string;
  deviceData_platform : string;
  deviceData_securityLevel : string;
  deviceData_attestations : list string;
  deviceData_verifiedAt : Z             (* unix seconds *)
}.

(** The proof block of a presentation; [challenge] and [domain] are set
    only when the argument is truthy, and [proofValue] by [signVP]. *)
Record PresentationProof := {
  vp_proof_type : string;
  vp_created : DateString;
  vp_verificationMethod : string;
  vp_proofPurpose : string;
  vp_challenge : option string;
  vp_domain : option string;
  vp_proofValue : option string
}.

Record VerifiablePresentation := {
  vp_context : list string;
  vp_type : list string;
  verifiableCredential : list VerifiableCredential;
  holder : string;
  vp_proof : PresentationProof
}.

(** The value that [signVP] signs. *)
Record PresentationValue := {
  pv_context : list string;
  pv_type : list string;
  pv_holder : string;
  pv_verifiableCredential : list string
}.

(** The library functions [signVP] calls. *)
Class PresentationRuntime := {
  (** [new ethers.Wallet(key)._signTypedData(domain, types, value)] at
      the type schema of presentations *)
  signPresentationData : string -> Domain -> PresentationValue -> string;
  (** [JSON.stringify(vc)] *)
  JSON_stringify_credential : VerifiableCredential -> string
}.

Section Issuing.
Context `{R : Runtime}.
(** [this] *)
Variable self : VCIssuer.

(** [issueKYCCredential(holderDID, kycData)] with the clock at [now];
    [None] is the [RangeError] of a [toISOString]. *)
Definition issueKYCCredential (now created : Z) (holderDID : string)
    (kycData : KYCData) : option VerifiableCredential :=
  expiration ← toISOString (now + 365 * 24 * 60 * 60 * 1000);
  verifiedAt ← toISOString (kycData_verifiedAt kycData * 1000);
  Some (signVC self created
    {| vc_context := ["https://www.w3.org/2018/credentials/v1";
                      "https://kyc.unykorn.com/contexts/v1"];
       vc_type := ["VerifiableCredential"; "KYCCredential"];
       vc_issuer := IssuerObject (issuerDID (config self))
                      "UnyKorn KYC Verification Service";
       issuanceDate := ISO now;
       expirationDate := Some expiration;
       credentialSubject :=
         KYCSubject holderDID
           {| kyc_approved := kycData_approved kycData;
              kyc_level := kycData_level kycData;
              kyc_provider := kycData_provider kycData;
              kyc_verifiedAt := verifiedAt |};
       credentialStatus := None;
       proof := None |}).

(** [issueDeviceAttestation(holderDID, deviceData)] *)
Definition issueDeviceAttestation (now created : Z) (holderDID : string)
    (deviceData : DeviceData) : option VerifiableCredential :=
  expiration ← toISOString (now + 7 * 24 * 60 * 60 * 1000);
  verifiedAt ← toISOString (deviceData_verifiedAt deviceData * 1000);
  Some (signVC self created
    {| vc_context := ["https://www.w3.org/2018/credentials/v1";
                      "https://device.unykorn.com/contexts/v1"];
       vc_type := ["VerifiableCredential"; "DeviceAttestationCredential"];
       vc_issuer := IssuerObject (issuerDID (config self))
                      "UnyKorn Device Attestation Service";
       issuanceDate := ISO now;
       expirationDate := Some expiration;
       credentialSubject :=
         DeviceSubject holderDID
           {| device_id := deviceData_deviceId deviceData;
              device_platform := deviceData_platform deviceData;
              device_securityLevel := deviceData_securityLevel deviceData;
              device_attestations := deviceData_attestations deviceData;
              device_verifiedAt := verifiedAt |};
       credentialStatus := None;
       proof := None |}).

Context `{P : PresentationRuntime}.

Definition presentation_domain : Domain :=
  {| domain_name := "UnyKorn Verifiable Presentations";
     domain_version := "1";
     domain_chainId := network_chainId self;
     verifyingContract := registryContract (config self) |}.

(** The [value] of [signVP]. *)
Definition presentation_value (vp : VerifiablePresentation)
    : PresentationValue :=
  {| pv_context := vp_context vp;
     pv_type := vp_type vp;
     pv_holder := holder vp;
     pv_verifiableCredential :=
       List.map JSON_stringify_credential (verifiableCredential vp) |}.

(** [signVP(vp)] *)
Definition signVP (vp : VerifiablePresentation) : VerifiablePresentation :=
  let signature :=
    signPresentationData (signingKey (config self)) presentation_domain
      (presentation_value vp) in
  {| vp_context := vp_context vp;
     vp_type := vp_type vp;
     verifiableCredential := verifiableCredential vp;
     holder := holder vp;
     vp_proof :=
       {| vp_proof_type := vp_proof_type (vp_proof vp);
          vp_created := vp_created (vp_proof vp);
          vp_verificationMethod := vp_verificationMethod (vp_proof vp);
          vp_proofPurpose := vp_proofPurpose (vp_proof vp);
          vp_challenge := vp_challenge (vp_proof vp);
          vp_domain := vp_domain (vp_proof vp);
          vp_proofValue := Some signature |} |}.

(** [createPresentation(credentials, holderDID, challenge, domain)] *)
Definition createPresentation (now : Z)
    (credentials : list VerifiableCredential) (holderDID : string)
    (challenge domain : option string) : VerifiablePresentation :=
  signVP
    {| vp_context := ["https://www.w3.org/2018/credentials/v1"];
       vp_type := ["VerifiablePresentation"];
       verifiableCredential := credentials;
       holder := holderDID;
       vp_proof :=
         {| vp_proof_type := "EthereumEip712Signature2021";
            vp_created := ISO now;
            vp_verificationMethod := holderDID ++ "#key-1";
            vp_proofPurpose := "authentication";
            vp_challenge := if truthy challenge then challenge else None;
            vp_domain := if truthy domain then domain else None;
            vp_proofValue := None |} |}.

End Issuing.

(** [new ethers.Wallet(key, provider)] returns for a private key and
    throws for any other string; which strings are private keys is the
    library's to say. *)
Class WalletRuntime := {
  isPrivateKey : string -> bool
}.

(** What [createFromEnv] throws: its own error, or that of the wallet
    in the constructor of [VCIssuer]. *)
Inductive FactoryError : Type :=
  | Thrown (message : string)
  | WalletRejected.

(** [new VCIssuer(config)]: the provider is made of any URL, the wallet
    of a private key only. *)
Definition new_VCIssuer `{W : WalletRuntime} (config : VCIssuerConfig)
    : FactoryError + VCIssuerConfig :=
  if isPrivateKey (signingKey config) then inr config else inl WalletRejected.

(** [process.env], and [VCIssuerFactory.createFromEnv()]: the
    configuration of the issuer it returns, or the error it throws. *)
Definition createFromEnv `{W : WalletRuntime} (env : gmap string string)
    : FactoryError + VCIssuerConfig :=
  let or_default (name fallback : string) : string :=
    match env !! name with
    | Some v => if String.eqb v "" then fallback else v
    | None => fallback
    end in
  let config :=
    {| issuerDID := or_default "VC_ISSUER_DID" "did:ethr:0x123...";
       signingKey := or_default "VC_SIGNING_KEY" "";
       registryContract := or_default "EAS_REGISTRY_CONTRACT" "";
       rpcUrl := or_default "RPC_URL"
                   "https://eth-mainnet.alchemyapi.io/v2/demo" |} in
  if String.eqb (signingKey config) ""
  then inl (Thrown "VC_SIGNING_KEY environment variable required")
  else new_VCIssuer config.

(** A copy of a credential with another status pointer, another issuer
    field of the same [id], and another proof block around the same
    [proofValue]: the parts of a document that the typed value leaves out. *)
Definition redress (status : option CredentialStatus) (name : string)
    (proof_type : string) (created : DateString)
    (verificationMethod proofPurpose : string)
    (vc : VerifiableCredential) : VerifiableCredential :=
  {| vc_context := vc_context vc;
     vc_type := vc_type vc;
     vc_issuer :=
       match vc_issuer vc with
       | IssuerDID did => IssuerObject did name
       | IssuerObject id _ => IssuerObject id name
       end;
     issuanceDate := issuanceDate vc;
     expirationDate := expirationDate vc;
     credentialSubject := credentialSubject vc;
     credentialStatus := status;
     proof :=
       match proof vc with
       | Some p => Some {| proof_type := proof_type;
                           created := created;
                           verificationMethod := verificationMethod;
                           proofPurpose := proofPurpose;
                           proofValue := proofValue p |}
       | None => None
       end |}.

End Issuer.

(** ** The validators of the API

    The routes of the API name their validators with [express-validator],
    which hands the field, printed as a string, to the functions of
    [validator.js]; a field that is absent is printed as the empty
    string. *)
Module Validator.

Definition is_digit (c : ascii) : bool :=
  match JSNumber.digit_of c with
  | Some _ => true
  | None => false
  end.

(** What is left of [s] after its leading decimal digits. *)
Fixpoint skip_digits (s : string) : string :=
  match s with
  | String c t => if is_digit c then skip_digits t else s
  | EmptyString => s
  end.

(** [^[0-9]+$] *)
Definition all_digits (s : string) : bool :=
  negb (String.eqb s "") && String.eqb (skip_digits s) "".

(** [isNumeric(str)]: the regular expression
    [^[+-]?([0-9]*[.])?[0-9]+$]. *)
Definition isNumeric (str : string) : bool :=
  let unsigned :=
    match str with
    | String "+" t => t
    | String "-" t => t
    | _ => str
    end in
  match skip_digits unsigned with
  | EmptyString => negb (String.eqb unsigned "")
  | String "." t => all_digits t
  | String _ _ => false
  end.

(** [isIn(values)] *)
Definition isIn (values : list string) (str : string) : bool :=
  List.existsb (String.eqb str) values.

(** [check(field).v()] on a field that may be absent. *)
Definition required (v : string -> bool) (field : option string) : bool :=
  v (default "" field).

(** [check(field).optional().v()]: an absent field passes. *)
Definition optional (v : string -> bool) (field : option string) : bool :=
  match field with
  | Some value => v value
  | None => true
  end.

End Validator.

(** ** The verification API: [src/api/silobridge-api.ts]

    The body of a request has the declared types, and the handlers are
    embedded after the validation middleware, except where a validator
    decides the answer: the assertion endpoints and the [expiresIn] of
    a grant are embedded with theirs.  The stores are the module-level
    [Map]s. *)
Module Api.
Import JSDate.

(** [VerificationRequest] *)
Record VerificationRequest := {
  vcURI : option string;
  tokenId : option string;
  requiredAsset : option string;
  minAmount : option JSNumber.number
}.

(** The [requirements] object handed to the two verifiers. *)
Record Requirements := {
  req_requiredAsset : option string;
  req_minAmount : option JSNumber.number
}.

(** A value where a number is meant: [isNumeric()] lets through a
    number and a string that writes one, and the handlers compute with
    what they are given. *)
Inductive numeric : Type :=
  | Num (n : Z)
  | Str (s : string).

(** [Date.now() + v]: the sum of two numbers, or the clock printed in
    front of a string. *)
Definition plus (now : Z) (v : numeric) : numeric :=
  match v with
  | Num n => Num (now + n)
  | Str s => Str (JSNumber.to_string now ++ s)
  end.

(** [v > Date.now()]; a string is converted by [Number] before it is
    compared. *)
Definition greater (v : numeric) (now : Z) : bool :=
  match v with
  | Num n => now <? n
  | Str s => JSNumber.lt (JSNumber.of_Z now) (JSNumber.to_number s)
  end.

(** [expiresAt] holds what [Date.now() + expiresIn] gave. *)
Record ConsentGrant := {
  userId : string;
  grantedTo : string;
  scopes : list string;
  expiresAt : numeric
}.

(** [metadata] of a verification result: [{}] for a credential,
    [{amount, currency, tokenId}] for a token. *)
Inductive Metadata : Type :=
  | EmptyMetadata
  | TokenMetadata (amount currency tokenId : string).

Record VerificationResult := {
  valid : bool;
  reason : option string;
  claims : option (list string);
  issuedBy : option string;
  res_expiresAt : option DateString;
  verifiedAt : option Z;
  metadata : option Metadata
}.

(** [{ valid: false, reason }] *)
Definition invalid (reason : string) : VerificationResult :=
  {| valid := false; reason := Some reason; claims := None;
     issuedBy := None; res_expiresAt := None; verifiedAt := None;
     metadata := None |}.

(** [array.includes(x)] on an array of strings. *)
Definition array_includes (l : list string) (x : string) : bool :=
  List.existsb (String.eqb x) l.

(** [scopes.some(scope => consent.scopes.includes(scope))] *)
Definition overlaps (scopes : list string) (consent : ConsentGrant) : bool :=
  List.existsb (fun scope => array_includes (Api.scopes consent) scope) scopes.

(** The test of [find] in [checkConsent]. *)
Definition covers (now : Z) (requesterId scope : string)
    (consent : ConsentGrant) : bool :=
  String.eqb (grantedTo consent) requesterId
  && array_includes (scopes consent) scope
  && greater (expiresAt consent) now.

(** [checkConsent(userId, requesterId, scope)] *)
Definition checkConsent (consentStore : gmap string (list ConsentGrant))
    (now : Z) (userId requesterId scope : string) : bool :=
  let userConsents := default [] (consentStore !! userId) in
  let validConsent := List.find (covers now requesterId scope) userConsents in
  match validConsent with
  | Some _ => true
  | None => false
  end.

(** The store after a clean-up pass at [now]: the grants that have
    expired are deleted.  The program has no such pass; it is the
    yardstick for lazy expiry. *)
Definition drop_expired (now : Z)
    (consentStore : gmap string (list ConsentGrant))
    : gmap string (list ConsentGrant) :=
  List.filter (fun consent => greater (expiresAt consent) now)
    <$> consentStore.

(** The body of [POST /api/consent/grant] as it is sent; [expiresIn]
    is a number or a string, and the other fields have their declared
    types. *)
Record GrantBody := {
  body_userId : string;
  body_grantedTo : string;
  body_scopes : list string;
  body_expiresIn : option numeric
}.

(** [consentId] is the template [userId-grantedTo-now], kept by parts. *)
Record GrantResponse := {
  grant_success : bool;
  consentId : string * string * Z;
  grant_expiresAt : numeric
}.

(** [body('expiresIn').optional().isNumeric()]: an integer is printed
    in digits, which pass. *)
Definition expiresIn_valid (expiresIn : option numeric) : bool :=
  match expiresIn with
  | Some (Str s) => Validator.isNumeric s
  | Some (Num _) => true
  | None => true
  end.

(** [app.post('/api/consent/grant', ...)] with the validator of
    [expiresIn]: the new store and the response. *)
Definition consent_grant (consentStore : gmap string (list ConsentGrant))
    (now : Z) (body : GrantBody)
    : gmap string (list ConsentGrant) * response GrantResponse :=
  if negb (expiresIn_valid (body_expiresIn body))
  then (consentStore, Status 400 "Validation failed")
  else
    let expiresIn :=
      default (Num (30 * 24 * 60 * 60 * 1000)) (body_expiresIn body) in
    let consent :=
      {| userId := body_userId body; grantedTo := body_grantedTo body;
         scopes := body_scopes body; expiresAt := plus now expiresIn |} in
    let userConsents := default [] (consentStore !! body_userId body) in
    let filteredConsents :=
      List.filter (fun c => negb (String.eqb (grantedTo c) (body_grantedTo body)
                                  && overlaps (body_scopes body) c))
                  userConsents in
    (<[body_userId body := filteredConsents ++ [consent]]> consentStore,
     Json {| grant_success := true;
             consentId := (body_userId body, body_grantedTo body, now);
             grant_expiresAt := expiresAt consent |}).

(** A body whose [expiresIn] is a number, as the handler means it. *)
Record GrantRequest := {
  grant_userId : string;
  grant_grantedTo : string;
  grant_scopes : list string;
  grant_expiresIn : option Z
}.

(** The handler on such a body. *)
Definition grant (consentStore : gmap string (list ConsentGrant)) (now : Z)
    (req : GrantRequest)
    : gmap string (list ConsentGrant) * response GrantResponse :=
  consent_grant consentStore now
    {| body_userId := grant_userId req;
       body_grantedTo := grant_grantedTo req;
       body_scopes := grant_scopes req;
       body_expiresIn := Num <$> grant_expiresIn req |}.

(** The body of [POST /api/consent/revoke]. *)
Record RevokeRequest := {
  revoke_userId : string;
  revokeFrom : string;
  revoke_scopes : option (list string)
}.

Record RevokeResponse := {
  revoke_success : bool;
  revokedAt : Z
}.

(** [app.post('/api/consent/revoke', ...)]; an array of scopes is truthy
    even when it is empty. *)
Definition revoke (consentStore : gmap string (list ConsentGrant)) (now : Z)
    (req : RevokeRequest)
    : gmap string (list ConsentGrant) * response RevokeResponse :=
  let userConsents := default [] (consentStore !! revoke_userId req) in
  let filteredConsents :=
    match revoke_scopes req with
    | Some scopes =>
        List.filter (fun consent =>
                       negb (String.eqb (grantedTo consent) (revokeFrom req)
                             && overlaps scopes consent))
                    userConsents
    | None =>
        List.filter (fun consent =>
                       negb (String.eqb (grantedTo consent) (revokeFrom req)))
                    userConsents
    end in
  (<[revoke_userId req := filteredConsents]> consentStore,
   Json {| revoke_success := true; revokedAt := now |}).

(** The requirement test of [verifyPOFToken], by its two conjuncts. *)
Definition asset_ok (pofData : Issuer.POFData) (requirements : Requirements)
    : bool :=
  negb (truthy (req_requiredAsset requirements))
  || strict_eq (Some (Issuer.asset pofData)) (req_requiredAsset requirements).

Definition amount_ok (pofData : Issuer.POFData) (requirements : Requirements)
    : bool :=
  match req_minAmount requirements with
  | Some minAmount =>
      negb (JSNumber.truthy minAmount)
      || JSNumber.ge (JSNumber.parseFloat (Issuer.amount pofData)) minAmount
  | None => true
  end.

Definition meetsRequirements (pofData : Issuer.POFData)
    (requirements : Requirements) : bool :=
  asset_ok pofData requirements && amount_ok pofData requirements.

(** [verifyPOFToken(tokenId, requirements)]; the [RangeError] of
    [toISOString] is caught and answered with its message. *)
Definition verifyPOFToken (pofTokenStore : gmap string Issuer.POFData)
    (now : Z) (tokenId : string) (requirements : Requirements)
    : VerificationResult :=
  match pofTokenStore !! tokenId with
  | None => invalid "PoF token not found"
  | Some pofData =>
      let meets := meetsRequirements pofData requirements in
      match toISOString (Issuer.expiry pofData * 1000) with
      | None => invalid "Invalid time value"
      | Some expires =>
          {| valid := meets && Issuer.kycCompliant pofData
                      && Issuer.sanctionsCleared pofData;
             reason := if meets then None else Some "Requirements not met";
             claims := Some [("Holds " ++ Issuer.amount pofData ++ " "
                                ++ Issuer.asset pofData)%string;
                             "KYC Compliant"; "Sanctions Cleared"];
             issuedBy := Some "UnyKorn PoF Service";
             res_expiresAt := Some expires;
             verifiedAt := Some now;
             metadata := Some (TokenMetadata (Issuer.amount pofData)
                                 (Issuer.asset pofData) tokenId) |}
      end
  end.

(** [fetchCredentialFromURI(uri)]: the empty object [{}] for an [ipfs://]
    URI ([inr None]), an error otherwise. *)
Definition fetchCredentialFromURI (uri : string)
    : string + option Issuer.VerifiableCredential :=
  if String.prefix "ipfs://" uri then inr None
  else inl "Unsupported credential URI scheme".

(** [checkCredentialRequirements(vc, requirements)] *)
Definition checkCredentialRequirements (vc : Issuer.VerifiableCredential)
    (requirements : Requirements) : bool * Metadata :=
  (true, EmptyMetadata).

(** [extractCredentialClaims(vc)] *)
Definition extractCredentialClaims (vc : Issuer.VerifiableCredential)
    : list string :=
  (if array_includes (Issuer.vc_type vc) "ProofOfFundsCredential"
   then [match Issuer.credentialSubject vc with
         | Issuer.ProofOfFundsSubject _ hasAsset _ _ =>
             ("Verified funds: " ++ Issuer.minimumAmount hasAsset ++ " "
              ++ Issuer.currency hasAsset)%string
         | _ => "Verified funds: undefined undefined"
         end]
   else [])
  ++ (if array_includes (Issuer.vc_type vc) "KYCCredential"
      then ["KYC Approved"] else [])
  ++ (if array_includes (Issuer.vc_type vc) "DeviceAttestationCredential"
      then ["Device Verified"] else []).

Section Server.
Context `{R : Issuer.Runtime}.
(** The issuer created from the environment when the module loads. *)
Variable vcIssuer : Issuer.VCIssuer.

(** [vcIssuer.verifyCredential(vc)] on a fetched object; the empty
    object has no [proof], so its signature check fails. *)
Definition verifyFetched (now : Z)
    (vc : option Issuer.VerifiableCredential) : Issuer.Verification :=
  match vc with
  | Some vc => Issuer.verifyCredential vcIssuer now vc
  | None => {| Issuer.verified := false;
               Issuer.error := Some "Invalid signature";
               Issuer.details := None |}
  end.

(** [verifyVC(vcURI, requirements)] *)
Definition verifyVC (now : Z) (vcURI : string) (requirements : Requirements)
    : VerificationResult :=
  match fetchCredentialFromURI vcURI with
  | inl message => invalid message
  | inr fetched =>
      let verification := verifyFetched now fetched in
      if negb (Issuer.verified verification)
      then invalid (match Issuer.error verification with
                    | Some e => if String.eqb e "" then "Invalid credential" else e
                    | None => "Invalid credential"
                    end)
      else
        match fetched with
        | Some vc =>
            let requirementCheck := checkCredentialRequirements vc requirements in
            {| valid := fst requirementCheck;
               reason := None;
               claims := Some (extractCredentialClaims vc);
               issuedBy := Some (match Issuer.vc_issuer vc with
                                 | Issuer.IssuerDID did => did
                                 | Issuer.IssuerObject _ name => name
                                 end);
               res_expiresAt := Issuer.expirationDate vc;
               verifiedAt := Some now;
               metadata := Some (snd requirementCheck) |}
        | None => invalid "Verification failed"
        end
  end.

(** [app.post('/api/verify', ...)] *)
Definition verify (pofTokenStore : gmap string Issuer.POFData) (now : Z)
    (req : VerificationRequest) : response VerificationResult :=
  let requirements :=
    {| req_requiredAsset := requiredAsset req;
       req_minAmount := minAmount req |} in
  if truthy (vcURI req)
  then Json (verifyVC now (default "" (vcURI req)) requirements)
  else if truthy (tokenId req)
  then Json (verifyPOFToken pofTokenStore now (default "" (tokenId req))
               requirements)
  else Status 400 "Either vcURI or tokenId must be provided".

End Server.

(** The outcome of a middleware: the request goes on ([Next]) or is
    answered at once. *)
Inductive middleware (A : Type) : Type :=
  | Next (partnerId : A)
  | Reply (code : Z) (error : string).
Arguments Next {A} partnerId.
Arguments Reply {A} code error.

(** [authenticate]: [apiKey] is the [x-api-key] header and [envKey] is
    [process.env.SILOBRIDGE_API_KEY]; on success the key becomes the
    request's [partnerId]. *)
Definition authenticate (envKey apiKey : option string) : middleware string :=
  if negb (truthy apiKey) then Reply 401 "API key required"
  else if negb (strict_eq apiKey envKey)
          && negb (strict_eq apiKey (Some "demo-key-123"))
  then Reply 403 "Invalid API key"
  else Next (default "" apiKey).

(** The [metadata] of an assertion, by endpoint. *)
Inductive AssertionMetadata : Type :=
  | KYCMetadata (kycLevel provider : string) (verifiedAt : Z)
  | BalanceMetadata (asset minimumAmount : string) (verifiedAt : Z)
  | DeviceMetadata (requiredLevel actualLevel : string)
      (attestations : list string) (verifiedAt : Z).

Record Assertion := {
  assertion : string;
  result : bool;
  assertion_proof : string;
  assertion_metadata : AssertionMetadata;
  issuedAt : Z;
  validUntil : Z
}.

(** The answer of an assertion endpoint. *)
Inductive assertion_response : Type :=
  | Asserted (a : Assertion)
  | ConsentRequired (consentUrl : string)       (* status 403 *)
  | Refused (code : Z) (error : string).

(** [/consent/grant?scope=...&requester=...] *)
Definition consentUrl (scope requesterId : string) : string :=
  "/consent/grant?scope=" ++ scope ++ "&requester=" ++ requesterId.

(** [GET /api/assertions/hasKYC/:userId]; [checkUserKYC] is the mock of
    the source. *)
Definition hasKYC (consentStore : gmap string (list ConsentGrant))
    (envKey : option string) (now : Z) (apiKey : option string)
    (userId : string) : assertion_response :=
  match authenticate envKey apiKey with
  | Reply code error => Refused code error
  | Next requesterId =>
      if negb (checkConsent consentStore now userId requesterId "kyc_status")
      then ConsentRequired (consentUrl "kyc_status" requesterId)
      else Asserted
             {| assertion := "has_kyc";
                result := true;
                assertion_proof := "ipfs://QmKYC...";
                assertion_metadata := KYCMetadata "standard" "UnyKorn KYC" now;
                issuedAt := now;
                validUntil := now + 24 * 60 * 60 * 1000 |}
  end.

(** [validateRequest]: the answer when a validator has failed. *)
Definition validation_failed : assertion_response :=
  Refused 400 "Validation failed".

(** [GET /api/assertions/hasBalance/:userId?minAmount=&asset=], with the
    validators of the route; a query parameter is a string or is absent,
    and [checkUserBalance] is the mock of the source. *)
Definition hasBalance (consentStore : gmap string (list ConsentGrant))
    (envKey : option string) (now : Z) (apiKey : option string)
    (userId : string) (minAmount asset : option string)
    : assertion_response :=
  match authenticate envKey apiKey with
  | Reply code error => Refused code error
  | Next requesterId =>
      if negb (Validator.required Validator.isNumeric minAmount)
      then validation_failed
      else if negb (checkConsent consentStore now userId requesterId
                      "balance_verification")
      then ConsentRequired (consentUrl "balance_verification" requesterId)
      else Asserted
             {| assertion := "has_minimum_balance";
                result := true;
                assertion_proof := "ipfs://QmBalance...";
                assertion_metadata :=
                  BalanceMetadata (default "USDC" asset)
                    (default "" minAmount) now;
                issuedAt := now;
                validUntil := now + 60 * 60 * 1000 |}
  end.

(** [GET /api/assertions/isDeviceCompliant/:userId?requiredLevel=], with
    the validator of the route; [checkDeviceCompliance] is the mock of
    the source. *)
Definition isDeviceCompliant (consentStore : gmap string (list ConsentGrant))
    (envKey : option string) (now : Z) (apiKey : option string)
    (userId : string) (requiredLevel : option string) : assertion_response :=
  match authenticate envKey apiKey with
  | Reply code error => Refused code error
  | Next requesterId =>
      if negb (Validator.optional
                 (Validator.isIn ["basic"; "enhanced"; "hardware"])
                 requiredLevel)
      then validation_failed
      else if negb (checkConsent consentStore now userId requesterId
                      "device_attestation")
      then ConsentRequired (consentUrl "device_attestation" requesterId)
      else Asserted
             {| assertion := "device_compliant";
                result := true;
                assertion_proof := "ipfs://QmDevice...";
                assertion_metadata :=
                  DeviceMetadata (default "basic" requiredLevel) "enhanced"
                    ["bootloader_locked"; "no_root"; "biometric_enabled"] now;
                issuedAt := now;
                validUntil := now + 7 * 24 * 60 * 60 * 1000 |}
  end.


Section IssuanceEndpoints.
Context `{R : Issuer.Runtime}.
Variable vcIssuer : Issuer.VCIssuer.


End IssuanceEndpoints.

End Api.

(** ** The identity layer: [UnyID]

    The class keeps its profiles in a [Map] from strings to profile
    objects, and enters every profile under two keys, so that one object
    is reached by both.  The embedding keeps the objects in a heap and
    the [Map] as its list of entries, in insertion order, from keys to
    heap references. *)
Module UnyID.

Record Verifications := {
  email : bool;
  phone : bool;
  identity : bool;
  address_verified : bool;
  income : bool;
  employment : bool
}.

Record DeviceMetadata := {
  os : string;
  browser : option string;
  isJailbroken : bool;
  hasScreenLock : bool;
  biometricsEnabled : bool
}.

Record DeviceAttestation := {
  deviceId : string;
  platform : string;
  securityLevel : string;
  attestedAt : Z;
  expiresAt : Z;
  metadata : DeviceMetadata
}.

Record UnyIDProfile := {
  did : string;
  address : string;
  username : string;
  displayName : string;
  avatar : option string;
  trustScore : Z;
  verifications : Verifications;
  credentials : list Issuer.VerifiableCredential;
  devices : list DeviceAttestation;
  createdAt : Z;
  lastActive : Z
}.

(** [this.profiles] as heap and entries. *)
Record Profiles := {
  heap : list UnyIDProfile;
  entries : list (string * nat)
}.

(** [Map.prototype.get] on the entries. *)
Definition map_get (m : list (string * nat)) (key : string) : option nat :=
  snd <$> List.find (fun e => String.eqb (fst e) key) m.

(** [Map.prototype.set]: an existing key keeps its place. *)
Fixpoint map_set (m : list (string * nat)) (key : string) (ref : nat)
    : list (string * nat) :=
  match m with
  | [] => [(key, ref)]
  | (k, r) :: rest =>
      if String.eqb k key then (key, ref) :: rest
      else (k, r) :: map_set rest key ref
  end.

(** [this.profiles.get(key)]: the reference and the object it holds. *)
Definition get_ref (st : Profiles) (key : string)
    : option (nat * UnyIDProfile) :=
  ref ← map_get (entries st) key;
  profile ← heap st !! ref;
  Some (ref, profile).

(** [getProfile(identifier)] *)
Definition getProfile (st : Profiles) (identifier : string)
    : option UnyIDProfile :=
  snd <$> get_ref st identifier.

(** [isUsernameTaken(username)] *)
Definition isUsernameTaken (st : Profiles) (username : string) : bool :=
  match getProfile st username with
  | Some existing => String.eqb (UnyID.username existing) username
  | None => false
  end.

(** [Math.round(x)] of a finite number, as an integer: [floor (x + 1/2)].
    Its callers round finite values only. *)
Definition Math_round (x : JSNumber.number) : Z :=
  match x with
  | JSNumber.Finite m e =>
      if 0 <=? e then m * 2 ^ e
      else (2 * m + 2 ^ (- e)) / 2 ^ (1 - e)
  | _ => 0
  end.

(** The score of one security level. *)
Definition levelScore (device : DeviceAttestation) : Z :=
  if String.eqb (securityLevel device) "hardware" then 100
  else if String.eqb (securityLevel device) "enhanced" then 75
  else 50.

(** [calculateDeviceSecurityScore(devices)] with the clock at [now]; the
    average is a division of binary64 numbers. *)
Definition calculateDeviceSecurityScore (now : Z)
    (devices : list DeviceAttestation) : Z :=
  match devices with
  | [] => 0
  | _ =>
      let activeDevices := List.filter (fun d => now <? expiresAt d) devices in
      match activeDevices with
      | [] => 0
      | _ =>
          let sum := fold_left (fun sum device => sum + levelScore device)
                       activeDevices 0 in
          Math_round (JSNumber.of_rational false sum
                        (Z.of_nat (length activeDevices)))
      end
  end.

(** [Object.values(profile.verifications).filter(Boolean).length] *)
Definition verificationCount (v : Verifications) : Z :=
  Z.of_nat (length (List.filter id
    [email v; phone v; identity v; address_verified v; income v; employment v])).

(** [calculateTrustScore(profile)] with the clock at [now].  The account
    age is the floor of a quotient of numbers far below [2^53], and every
    term is an integer. *)
Definition calculateTrustScore (now : Z) (profile : UnyIDProfile) : Z :=
  let accountAge := (now - createdAt profile) / (30 * 24 * 60 * 60 * 1000) in
  let transactionHistory := 0 in
  let communityVouches := 0 in
  let complianceScore := if identity (verifications profile) then 100 else 0 in
  let deviceSecurity := calculateDeviceSecurityScore now (devices profile) in
  Z.min 1000
    (verificationCount (verifications profile) * 10
     + accountAge * 1
     + transactionHistory * 5
     + communityVouches * 15
     + complianceScore * 2
     + deviceSecurity * 1).

(** [createProfile(address, username, displayName)] with the clock at
    [now]: the error it throws, or the new state and the profile. *)
Definition createProfile (st : Profiles) (now : Z)
    (address username displayName : string)
    : string + Profiles * UnyIDProfile :=
  let did := ("did:ethr:" ++ address)%string in
  if isUsernameTaken st username then inl "Username already taken"
  else
    let profile :=
      {| did := did;
         address := Issuer.toLowerCase address;
         username := username;
         displayName := displayName;
         avatar := None;
         trustScore := 0;
         verifications :=
           {| email := false; phone := false; identity := false;
              address_verified := false; income := false;
              employment := false |};
         credentials := [];
         devices := [];
         createdAt := now;
         lastActive := now |} in
    let ref := length (heap st) in
    inr ({| heap := heap st ++ [profile];
            entries := map_set (map_set (entries st) did ref) username ref |},
         profile).

(** The fields of [attestationData] that the class reads, the flags by
    their truthiness. *)
Record AttestationData := {
  hasSecureEnclave : bool;
  hasTouchID : bool;
  hasStrongBox : bool;
  hasFingerprint : bool;
  hasWebAuthn : bool;
  att_os : option string;
  att_browser : option string;
  att_isJailbroken : bool;
  att_hasScreenLock : bool;
  att_biometricsEnabled : bool
}.

(** [verifyDeviceAttestation(platform, attestationData)] *)
Definition verifyDeviceAttestation (platform : string)
    (attestationData : AttestationData) : string :=
  if String.eqb platform "ios" then
    if hasSecureEnclave attestationData then "hardware"
    else if hasTouchID attestationData then "enhanced" else "basic"
  else if String.eqb platform "android" then
    if hasStrongBox attestationData then "hardware"
    else if hasFingerprint attestationData then "enhanced" else "basic"
  else if String.eqb platform "web" then
    if hasWebAuthn attestationData then "enhanced" else "basic"
  else "basic".

(** [extractDeviceMetadata(attestationData)] *)
Definition extractDeviceMetadata (attestationData : AttestationData)
    : DeviceMetadata :=
  {| os := match att_os attestationData with
           | Some o => if String.eqb o "" then "unknown" else o
           | None => "unknown"
           end;
     browser := att_browser attestationData;
     isJailbroken := att_isJailbroken attestationData;
     hasScreenLock := att_hasScreenLock attestationData;
     biometricsEnabled := att_biometricsEnabled attestationData |}.

(** Assignments to fields of a profile object. *)
Definition set_verifications (v : Verifications) (p : UnyIDProfile)
    : UnyIDProfile :=
  {| did := did p; address := address p; username := username p;
     displayName := displayName p; avatar := avatar p;
     trustScore := trustScore p; verifications := v;
     credentials := credentials p; devices := devices p;
     createdAt := createdAt p; lastActive := lastActive p |}.

Definition set_credentials (c : list Issuer.VerifiableCredential)
    (p : UnyIDProfile) : UnyIDProfile :=
  {| did := did p; address := address p; username := username p;
     displayName := displayName p; avatar := avatar p;
     trustScore := trustScore p; verifications := verifications p;
     credentials := c; devices := devices p;
     createdAt := createdAt p; lastActive := lastActive p |}.

Definition set_devices (d : list DeviceAttestation) (p : UnyIDProfile)
    : UnyIDProfile :=
  {| did := did p; address := address p; username := username p;
     displayName := displayName p; avatar := avatar p;
     trustScore := trustScore p; verifications := verifications p;
     credentials := credentials p; devices := d;
     createdAt := createdAt p; lastActive := lastActive p |}.

Definition set_trustScore (s : Z) (p : UnyIDProfile) : UnyIDProfile :=
  {| did := did p; address := address p; username := username p;
     displayName := displayName p; avatar := avatar p;
     trustScore := s; verifications := verifications p;
     credentials := credentials p; devices := devices p;
     createdAt := createdAt p; lastActive := lastActive p |}.

Definition set_lastActive (t : Z) (p : UnyIDProfile) : UnyIDProfile :=
  {| did := did p; address := address p; username := username p;
     displayName := displayName p; avatar := avatar p;
     trustScore := trustScore p; verifications := verifications p;
     credentials := credentials p; devices := devices p;
     createdAt := createdAt p; lastActive := t |}.

Definition set_income (v : Verifications) : Verifications :=
  {| email := email v; phone := phone v; identity := identity v;
     address_verified := address_verified v; income := true;
     employment := employment v |}.

Definition set_identity (b : bool) (v : Verifications) : Verifications :=
  {| email := email v; phone := phone v; identity := b;
     address_verified := address_verified v; income := income v;
     employment := employment v |}.

(** The object behind [ref] is replaced by [p]. *)
Definition store (st : Profiles) (ref : nat) (p : UnyIDProfile) : Profiles :=
  {| heap := <[ref := p]> (heap st); entries := entries st |}.

(** The view of a profile in tokens and their answers. *)
Record ProfileView := {
  view_did : string;
  view_username : string;
  view_displayName : string;
  view_avatar : option string;
  view_trustScore : Z;
  view_verifications : Verifications
}.

(** [tokenData] of [generateAuthToken]. *)
Record TokenData := {
  td_did : string;
  td_username : string;
  td_trustScore : Z;
  td_verifications : Verifications;
  td_domain : string;
  iat : Z;
  exp : Z
}.

(** What [verifyAuthToken] reads of a parsed token; a field that the
    parsed value lacks is [None]. *)
Record TokenFields := {
  tf_exp : option Z;
  tf_did : option string
}.

(** The encoding of tokens and of attestations. *)
Class Codec := {
  (** [Buffer.from(JSON.stringify(tokenData)).toString('base64')] *)
  encode : TokenData -> string;
  (** [JSON.parse(Buffer.from(token, 'base64').toString())]; [None] when
      it throws or the value has no fields to read *)
  decode : string -> option TokenFields;
  (** [JSON.stringify(attestation)] *)
  stringify_attestation : DeviceAttestation -> string
}.

(** Parsing a token gives back the fields it was made of. *)
Class CodecLaws (C : Codec) : Prop := {
  decode_encode : forall d,
    decode (encode d) = Some {| tf_exp := Some (exp d); tf_did := Some (td_did d) |}
}.

(** The answer of [generateAuthToken]. *)
Record AuthToken := {
  token : string;
  token_expiresAt : Z;
  token_profile : ProfileView
}.

(** The answer of [verifyAuthToken]. *)
Record TokenCheck := {
  token_valid : bool;
  checked_profile : option ProfileView;
  token_error : option string
}.

(** The criteria of [searchProfiles]. *)
Record Criteria := {
  minTrustScore : option Z;
  required_verifications : option (list string);
  createdAfter : option Z
}.

(** [profile.verifications[name]], by truthiness; a name that is not one
    of the six is [undefined]. *)
Definition verification (v : Verifications) (name : string) : bool :=
  if String.eqb name "email" then email v
  else if String.eqb name "phone" then phone v
  else if String.eqb name "identity" then identity v
  else if String.eqb name "address" then address_verified v
  else if String.eqb name "income" then income v
  else if String.eqb name "employment" then employment v
  else false.

(** [searchProfiles(criteria)] *)
Definition searchProfiles (st : Profiles) (criteria : Criteria)
    : list UnyIDProfile :=
  let values := omap (fun e => heap st !! snd e) (entries st) in
  List.filter
    (fun profile =>
       negb (match minTrustScore criteria with
             | Some m => negb (m =? 0) && (trustScore profile <? m)
             | None => false
             end)
       && match required_verifications criteria with
          | Some names => forallb (verification (verifications profile)) names
          | None => true
          end
       && negb (match createdAfter criteria with
                | Some c => negb (c =? 0) && (createdAt profile <? c)
                | None => false
                end))
    (List.filter (fun p => negb (String.eqb (did p) "")) values).

Section Methods.
Context `{R : Issuer.Runtime} `{C : Codec}.
(** [this.vcIssuer] *)
Variable vcIssuer : Issuer.VCIssuer.

(** [addProofOfFunds(userDID, pofData)]: the state afterwards and the
    error thrown, if any. *)
Definition addProofOfFunds (st : Profiles) (now : Z) (userDID : string)
    (pofData : Issuer.POFData) : Profiles * option string :=
  match get_ref st userDID with
  | None => (st, Some "Profile not found")
  | Some (ref, profile) =>
      match Issuer.issueProofOfFunds vcIssuer now now userDID pofData with
      | None => (st, Some "Invalid time value")
      | Some vc =>
          let p := set_credentials (credentials profile ++ [vc]) profile in
          let p := set_verifications (set_income (verifications p)) p in
          let p := if Issuer.kycCompliant pofData
                   then set_verifications (set_identity true (verifications p)) p
                   else p in
          let p := set_trustScore (calculateTrustScore now p) p in
          let p := set_lastActive now p in
          (store st ref p, None)
      end
  end.

(** [addDeviceAttestation(userDID, deviceData)]; the list of devices is
    replaced before the credential is issued. *)
Definition addDeviceAttestation (st : Profiles) (now : Z) (userDID : string)
    (deviceId platform : string) (attestationData : AttestationData)
    : Profiles * option string :=
  match get_ref st userDID with
  | None => (st, Some "Profile not found")
  | Some (ref, profile) =>
      let securityLevel := verifyDeviceAttestation platform attestationData in
      let attestation :=
        {| deviceId := deviceId; platform := platform;
           securityLevel := securityLevel;
           attestedAt := now;
           expiresAt := now + 7 * 24 * 60 * 60 * 1000;
           metadata := extractDeviceMetadata attestationData |} in
      let p :=
        set_devices
          (List.filter (fun d => negb (String.eqb (UnyID.deviceId d) deviceId))
             (devices profile) ++ [attestation])
          profile in
      match Issuer.issueDeviceAttestation vcIssuer now now userDID
              {| Issuer.deviceData_deviceId := deviceId;
                 Issuer.deviceData_platform := platform;
                 Issuer.deviceData_securityLevel := securityLevel;
                 Issuer.deviceData_attestations :=
                   [stringify_attestation attestation];
                 Issuer.deviceData_verifiedAt := now / 1000 |} with
      | None => (store st ref p, Some "Invalid time value")
      | Some vc =>
          let p := set_credentials (credentials p ++ [vc]) p in
          let p := set_trustScore (calculateTrustScore now p) p in
          let p := set_lastActive now p in
          (store st ref p, None)
      end
  end.

(** [verifyIdentity(userDID, kycData)] *)
Definition verifyIdentity (st : Profiles) (now : Z) (userDID : string)
    (kycData : Issuer.KYCData) : Profiles * option string :=
  match get_ref st userDID with
  | None => (st, Some "Profile not found")
  | Some (ref, profile) =>
      match Issuer.issueKYCCredential vcIssuer now now userDID kycData with
      | None => (st, Some "Invalid time value")
      | Some vc =>
          let p := set_credentials (credentials profile ++ [vc]) profile in
          let p := set_verifications
                     (set_identity (Issuer.kycData_approved kycData)
                        (verifications p)) p in
          let p := if Issuer.kycData_approved kycData
                   then set_trustScore (calculateTrustScore now p) p
                   else p in
          let p := set_lastActive now p in
          (store st ref p, None)
      end
  end.

(** [generateAuthToken(userDID, domain, expiryHours)]; [None] is the
    error [Profile not found]. *)
Definition generateAuthToken (st : Profiles) (now : Z) (userDID domain : string)
    (expiryHours : option Z) : option AuthToken :=
  profile ← getProfile st userDID;
  let expiresAt := now + default 24 expiryHours * 60 * 60 * 1000 in
  let tokenData :=
    {| td_did := did profile; td_username := username profile;
       td_trustScore := trustScore profile;
       td_verifications := verifications profile;
       td_domain := domain; iat := now; exp := expiresAt |} in
  Some {| token := encode tokenData;
          token_expiresAt := expiresAt;
          token_profile :=
            {| view_did := did profile; view_username := username profile;
               view_displayName := displayName profile;
               view_avatar := avatar profile;
               view_trustScore := trustScore profile;
               view_verifications := verifications profile |} |}.

(** [verifyAuthToken(token)] *)
Definition verifyAuthToken (st : Profiles) (now : Z) (token : string)
    : TokenCheck :=
  match decode token with
  | None => {| token_valid := false; checked_profile := None;
               token_error := Some "Invalid token format" |}
  | Some tokenData =>
      if match tf_exp tokenData with
         | Some e => e <? now
         | None => false
         end
      then {| token_valid := false; checked_profile := None;
              token_error := Some "Token expired" |}
      else
        match tf_did tokenData ≫= getProfile st with
        | None => {| token_valid := false; checked_profile := None;
                     token_error := Some "Profile not found" |}
        | Some profile =>
            {| token_valid := true;
               checked_profile :=
                 Some {| view_did := did profile;
                         view_username := username profile;
                         view_displayName := displayName profile;
                         view_avatar := None;
                         view_trustScore := trustScore profile;
                         view_verifications := verifications profile |};
               token_error := None |}
        end
  end.

End Methods.

(** A codec for examples: the expiry in binary, least significant bit
    first and closed by a bar, then the DID. *)
Fixpoint plain_bits (p : positive) (rest : string) : string :=
  match p with
  | xO q => String "0" (plain_bits q rest)
  | xI q => String "1" (plain_bits q rest)
  | xH => String "|" rest
  end.

Fixpoint plain_unbits (s : string) : option (positive * string) :=
  match s with
  | String "0" r => (fun x => (xO (fst x), snd x)) <$> plain_unbits r
  | String "1" r => (fun x => (xI (fst x), snd x)) <$> plain_unbits r
  | String "|" r => Some (xH, r)
  | _ => None
  end.

Definition plain_encode (d : TokenData) : string :=
  match exp d with
  | Z0 => String "z" (td_did d)
  | Zpos p => String "+" (plain_bits p (td_did d))
  | Zneg p => String "-" (plain_bits p (td_did d))
  end.

Definition plain_decode (s : string) : option TokenFields :=
  match s with
  | String "z" r => Some {| tf_exp := Some 0; tf_did := Some r |}
  | String "+" r =>
      (fun x => {| tf_exp := Some (Zpos (fst x)); tf_did := Some (snd x) |})
        <$> plain_unbits r
  | String "-" r =>
      (fun x => {| tf_exp := Some (Zneg (fst x)); tf_did := Some (snd x) |})
        <$> plain_unbits r
  | _ => None
  end.

Definition plain_codec : Codec :=
  {| encode := plain_encode;
     decode := plain_decode;
     stringify_attestation := deviceId |}.

(** No criteria. *)
Definition any_profile : Criteria :=
  {| minTrustScore := None; required_verifications := None;
     createdAfter := None |}.

(** The empty [Map]. *)
Definition no_profiles : Profiles := {| heap := []; entries := [] |}.

(** A store for examples: one profile, as [createProfile] enters it. *)
Definition sample_profile : UnyIDProfile :=
  {| did := "did:ethr:0xabc"; address := "0xabc"; username := "alice";
     displayName := "Alice"; avatar := None; trustScore := 0;
     verifications :=
       {| email := false; phone := false; identity := false;
          address_verified := false; income := false; employment := false |};
     credentials := []; devices := [];
     createdAt := 1700000000000; lastActive := 1700000000000 |}.

Definition sample_profiles : Profiles :=
  {| heap := [sample_profile];
     entries := [("did:ethr:0xabc", 0%nat); ("alice", 0%nat)] |}.

End UnyID.

(** * Properties *)

(** ** Generic facts *)

Lemma truthy_Some (o : option string) :
  truthy o = true <-> exists s, o = Some s /\ s <> "".
Proof.
  destruct o as [s|]; simpl.
  - rewrite negb_true_iff. split.
    + intros E. exists s. split; [reflexivity|].
      intros ->. discriminate.
    + intros (s' & [= <-] & Hne). apply String.eqb_neq. exact Hne.
  - split; [discriminate|]. intros (s & E & _). discriminate.
Qed.

Lemma strict_eq_true (a b : option string) : strict_eq a b = true <-> a = b.
Proof. unfold strict_eq. apply bool_decide_eq_true. Qed.

Lemma strict_eq_false (a b : option string) : strict_eq a b = false <-> a <> b.
Proof. unfold strict_eq. apply bool_decide_eq_false. Qed.

(** ** Dual-rail cross-validation (demo server) *)

Section DualRail.
Import Demo.
Variables (vcReg : gmap string VCData) (nftReg : gmap string NFTData).
Variable now : Z.

(** A dual-rail request with both identifiers runs both rails. *)
Lemma verify_dual_runs (req : Request) (vcURI tokenId : string) :
  req_vcURI req = Some vcURI -> vcURI <> "" ->
  req_tokenId req = Some tokenId -> tokenId <> "" ->
  verify_dual vcReg nftReg now req
  = Json (combine now (vc_rail vcReg vcURI) (nft_rail nftReg now tokenId)).
Proof.
  intros Hv Hv' Ht Ht'. unfold verify_dual. rewrite Hv, Ht. simpl.
  apply String.eqb_neq in Hv', Ht'. rewrite Hv', Ht'. reflexivity.
Qed.

(** Whatever the two rail results are, the overall flag is the
    conjunction of the three cross-checks. *)
Lemma combine_valid (vcResult nftResult : RailResult) :
  dual_valid (combine now vcResult nftResult) = true
  <-> valid vcResult = true /\ valid nftResult = true
      /\ amount <$> metadata vcResult = amount <$> metadata nftResult
      /\ currency <$> metadata vcResult = currency <$> metadata nftResult.
Proof.
  unfold combine, cross_validate. simpl.
  rewrite !andb_true_iff, !strict_eq_true. tauto.
Qed.


End DualRail.



(** C8. A dual-rail request in which the credential identifier or the
    token identifier is absent is answered with status 400; neither rail
    is verified and the request does not fall back to the rail that was
    supplied. *)
Theorem dual_rail_incomplete
    (vcReg : gmap string Demo.VCData) (nftReg : gmap string Demo.NFTData)
    (now : Z) (req : Demo.Request)
    (Habsent : Demo.req_vcURI req = None \/ Demo.req_tokenId req = None) :
  Demo.verify_dual vcReg nftReg now req
  = Status 400 "Both vcURI and tokenId required for dual verification"
  /\ forall r, Demo.verify_dual vcReg nftReg now req <> Json r.
Proof.
  assert (E : Demo.verify_dual vcReg nftReg now req
              = Status 400 "Both vcURI and tokenId required for dual verification").
  { unfold Demo.verify_dual.
    destruct Habsent as [-> | ->]; simpl; [reflexivity|].
    rewrite orb_true_r. reflexivity. }
  split; [exact E|]. intros r. rewrite E. discriminate.
Qed.

(** A request that carries only the token of the starting registry. *)
Lemma dual_rail_incomplete_witness :
  Demo.verify_dual (Demo.mockVCRegistry 0) (Demo.mockNFTRegistry 0) 1
    {| Demo.req_vcURI := None; Demo.req_tokenId := Some "42";
       Demo.req_requiredAsset := None; Demo.req_minAmount := None |}
  = Status 400 "Both vcURI and tokenId required for dual verification".
Proof.
  apply (dual_rail_incomplete (Demo.mockVCRegistry 0) (Demo.mockNFTRegistry 0) 1
           {| Demo.req_vcURI := None; Demo.req_tokenId := Some "42";
              Demo.req_requiredAsset := None; Demo.req_minAmount := None |}).
  left. reflexivity.
Defined.

(** ** Consent store *)

Section Consent.
Import Api.

Lemma array_includes_In (l : list string) (x : string) :
  array_includes l x = true <-> In x l.
Proof.
  unfold array_includes. rewrite existsb_exists. split.
  - intros (y & Hy & E). apply String.eqb_eq in E. subst. exact Hy.
  - intros H. exists x. split; [exact H|]. apply String.eqb_refl.
Qed.

(** Two scope lists overlap when a scope of the first is in the grant. *)
Lemma overlaps_true (scopes : list string) (c : ConsentGrant) :
  overlaps scopes c = true <-> exists s, In s scopes /\ In s (Api.scopes c).
Proof.
  unfold overlaps. rewrite existsb_exists.
  split; intros (s & Hs & H); exists s; (split; [exact Hs|]);
    apply array_includes_In; exact H.
Qed.

Lemma checkConsent_existsb (store : gmap string (list ConsentGrant))
    (now : Z) (u r s : string) :
  checkConsent store now u r s
  = existsb (covers now r s) (default [] (store !! u)).
Proof.
  unfold checkConsent.
  induction (default [] (store !! u)) as [|c l IH]; simpl; [reflexivity|].
  destruct (covers now r s c); [reflexivity|exact IH].
Qed.

End Consent.

Section ConsentGrantRevoke.
Import Api.
Variable store : gmap string (list ConsentGrant).

(** The handler on a body whose [expiresIn] is a number or is absent:
    the validator passes and the expiry is a sum. *)
Lemma grant_numeric (now : Z) (req : GrantRequest) :
  grant store now req
  = let consent :=
      {| userId := grant_userId req; grantedTo := grant_grantedTo req;
         scopes := grant_scopes req;
         expiresAt := Num (now + default (30 * 24 * 60 * 60 * 1000)
                                   (grant_expiresIn req)) |} in
    (<[grant_userId req :=
         List.filter
           (fun c => negb (String.eqb (grantedTo c) (grant_grantedTo req)
                           && overlaps (grant_scopes req) c))
           (default [] (store !! grant_userId req)) ++ [consent]]> store,
     Json {| grant_success := true;
             consentId := (grant_userId req, grant_grantedTo req, now);
             grant_expiresAt := expiresAt consent |}).
Proof.
  unfold grant, consent_grant. cbn [body_expiresIn body_userId body_grantedTo
                                    body_scopes].
  destruct (grant_expiresIn req); reflexivity.
Qed.

(** The list of grants of a user after [grant]. *)
Lemma grant_lookup (now : Z) (req : GrantRequest) :
  (grant store now req).1 !! grant_userId req
  = Some (List.filter
            (fun c => negb (String.eqb (grantedTo c) (grant_grantedTo req)
                            && overlaps (grant_scopes req) c))
            (default [] (store !! grant_userId req))
          ++ [ {| userId := grant_userId req;
                  grantedTo := grant_grantedTo req;
                  scopes := grant_scopes req;
                  expiresAt :=
                    Num (now + default (30 * 24 * 60 * 60 * 1000)
                                 (grant_expiresIn req)) |} ]).
Proof. rewrite grant_numeric. simpl. apply lookup_insert_eq. Qed.

(** No grant that [grant] keeps covers a scope of the new grant for the
    same requester. *)
Lemma grant_kept_not_covering (req : GrantRequest) (t : Z) (s : string)
    (l : list ConsentGrant) :
  In s (grant_scopes req) ->
  existsb (covers t (grant_grantedTo req) s)
    (List.filter
       (fun c => negb (String.eqb (grantedTo c) (grant_grantedTo req)
                       && overlaps (grant_scopes req) c)) l) = false.
Proof.
  intros Hs. apply not_true_is_false. intros H.
  apply existsb_exists in H as (c & Hc & Hcov).
  apply filter_In in Hc as [_ Hkeep].
  unfold covers in Hcov. apply andb_true_iff in Hcov as [Hcov _].
  apply andb_true_iff in Hcov as [Hg Hin].
  rewrite Hg in Hkeep. simpl in Hkeep.
  apply negb_true_iff in Hkeep.
  assert (Hov : overlaps (grant_scopes req) c = true).
  { apply overlaps_true. exists s. split; [exact Hs|].
    apply array_includes_In. exact Hin. }
  congruence.
Qed.

(** Deleting the expired grants does not change any consent check made
    at that time. *)
Lemma checkConsent_drop_expired (now : Z) (u r s : string) :
  checkConsent (drop_expired now store) now u r s
  = checkConsent store now u r s.
Proof.
  rewrite !checkConsent_existsb. unfold drop_expired.
  rewrite lookup_fmap.
  destruct (store !! u) as [l|]; simpl; [|reflexivity].
  induction l as [|c l IH]; simpl; [reflexivity|].
  unfold covers at 2.
  destruct (greater (expiresAt c) now) eqn:E; simpl.
  - unfold covers at 1. rewrite E, IH. reflexivity.
  - rewrite andb_false_r. simpl. exact IH.
Qed.

End ConsentGrantRevoke.

Lemma existsb_filter_false {A : Type} (P Q : A -> bool) (l : list A) :
  existsb P l = false -> existsb P (List.filter Q l) = false.
Proof.
  intros H. apply not_true_is_false. intros H'.
  apply existsb_exists in H' as (x & Hx & HP).
  apply filter_In in Hx as [Hx _].
  assert (existsb P l = true) by (apply existsb_exists; eauto).
  congruence.
Qed.

(** After a grant, the check for one of its scopes is decided by the
    clock and the new grant's expiry alone. *)
Lemma checkConsent_after_grant
    (store : gmap string (list Api.ConsentGrant)) (now : Z)
    (req : Api.GrantRequest) (s : string) (t : Z) :
  In s (Api.grant_scopes req) ->
  Api.checkConsent (Api.grant store now req).1 t
    (Api.grant_userId req) (Api.grant_grantedTo req) s
  = (t <? now + default (30 * 24 * 60 * 60 * 1000) (Api.grant_expiresIn req)).
Proof.
  intros Hs. rewrite checkConsent_existsb, grant_lookup. simpl.
  rewrite existsb_app, grant_kept_not_covering by exact Hs. simpl.
  unfold Api.covers. simpl. rewrite String.eqb_refl.
  apply array_includes_In in Hs. rewrite Hs. simpl.
  apply orb_false_r.
Qed.

(** Lazy expiry, for a ttl sent as a number.  After
    [grant(subject, requester, scopes, ttl)] at time [now], the consent
    check for each granted scope is true exactly while the clock is
    before [expiresAt = now + ttl], and false from then on without any
    revoke; a store in which the expired grants had been deleted answers
    every check in the same way, so no clean-up pass is needed. *)
Theorem consent_holds_until_expiry
    (store : gmap string (list Api.ConsentGrant)) (now : Z)
    (req : Api.GrantRequest) (s : string) (t : Z)
    (Hs : In s (Api.grant_scopes req)) :
  let store' := (Api.grant store now req).1 in
  let expiresAt :=
    now + default (30 * 24 * 60 * 60 * 1000) (Api.grant_expiresIn req) in
  Api.checkConsent store' t (Api.grant_userId req) (Api.grant_grantedTo req) s
  = (t <? expiresAt)
  /\ (t < expiresAt ->
      Api.checkConsent store' t (Api.grant_userId req)
        (Api.grant_grantedTo req) s = true)
  /\ (expiresAt <= t ->
      Api.checkConsent store' t (Api.grant_userId req)
        (Api.grant_grantedTo req) s = false)
  /\ (forall st u r s',
        Api.checkConsent (Api.drop_expired t st) t u r s'
        = Api.checkConsent st t u r s').
Proof.
  cbn zeta.
  assert (E : Api.checkConsent (Api.grant store now req).1 t
                (Api.grant_userId req) (Api.grant_grantedTo req) s
              = (t <? now + default (30 * 24 * 60 * 60 * 1000)
                                (Api.grant_expiresIn req))).
  { apply checkConsent_after_grant. exact Hs. }
  split; [exact E|]. split; [|split].
  - intros H. rewrite E. apply Z.ltb_lt. exact H.
  - intros H. rewrite E. apply Z.ltb_ge. exact H.
  - intros st u r s'. apply checkConsent_drop_expired.
Qed.

(** One hour of consent for [kyc_status], checked after half an hour. *)
Lemma consent_holds_until_expiry_witness :
  Api.checkConsent
    (Api.grant ∅ 0 {| Api.grant_userId := "alice";
                      Api.grant_grantedTo := "demo-key-123";
                      Api.grant_scopes := ["kyc_status"];
                      Api.grant_expiresIn := Some 3600000 |}).1
    1800000 "alice" "demo-key-123" "kyc_status"
  = (1800000 <? 0 + 3600000).
Proof.
  refine (proj1 (consent_holds_until_expiry ∅ 0
                   {| Api.grant_userId := "alice";
                      Api.grant_grantedTo := "demo-key-123";
                      Api.grant_scopes := ["kyc_status"];
                      Api.grant_expiresIn := Some 3600000 |}
                   "kyc_status" 1800000 _)).
  simpl. left. reflexivity.
Defined.

(** C5 (what the code does). After [grant(subject, requester, {a, b})],
    revoking scope [a] alone deletes the whole grant: the consent check
    for [b], true before the revoke while the grant has not expired, is
    false after it at every time. *)
Theorem revoke_scope_drops_whole_grant
    (store : gmap string (list Api.ConsentGrant)) (now now' t ttl : Z)
    (subject requester a b : string) :
  let granted :=
    (Api.grant store now {| Api.grant_userId := subject;
                            Api.grant_grantedTo := requester;
                            Api.grant_scopes := [a; b];
                            Api.grant_expiresIn := Some ttl |}).1 in
  let revoked :=
    (Api.revoke granted now' {| Api.revoke_userId := subject;
                                Api.revokeFrom := requester;
                                Api.revoke_scopes := Some [a] |}).1 in
  Api.checkConsent granted t subject requester b = (t <? now + ttl)
  /\ Api.checkConsent revoked t subject requester b = false.
Proof.
  cbn zeta. split.
  - apply (checkConsent_after_grant store now
             {| Api.grant_userId := subject; Api.grant_grantedTo := requester;
                Api.grant_scopes := [a; b]; Api.grant_expiresIn := Some ttl |}
             b t).
    simpl. right. left. reflexivity.
  - rewrite checkConsent_existsb. unfold Api.revoke. simpl.
    rewrite lookup_insert_eq. simpl. rewrite lookup_insert_eq. simpl.
    rewrite List.filter_app, existsb_app. simpl.
    rewrite !String.eqb_refl. simpl. rewrite orb_false_r.
    apply existsb_filter_false.
    apply (grant_kept_not_covering
             {| Api.grant_userId := subject; Api.grant_grantedTo := requester;
                Api.grant_scopes := [a; b]; Api.grant_expiresIn := Some ttl |}).
    simpl. right. left. reflexivity.
Qed.

(** ** Credential verification *)

Lemma plain_runtime_laws : Issuer.RuntimeLaws Issuer.plain_runtime.
Proof. split; [reflexivity|discriminate]. Qed.

Section Verification.
Import Issuer JSDate.
Context `{R : Runtime}.
Variable self : VCIssuer.

(** Attaching the proof does not change the value that is signed. *)
Lemma typed_value_signVC (created : Z) (vc : VerifiableCredential) :
  typed_value (signVC self created vc) = typed_value vc.
Proof. reflexivity. Qed.

(** A credential signed by this issuer passes the signature check. *)
Lemma verifyVCSignature_signVC `{!RuntimeLaws R} (created : Z)
    (vc : VerifiableCredential) :
  verifyVCSignature self (signVC self created vc) = true.
Proof.
  unfold verifyVCSignature. rewrite typed_value_signVC. simpl.
  destruct (String.eqb_spec
              (signTypedData (signingKey (config self))
                 (credential_domain self) (typed_value vc)) "") as [E|_].
  - exfalso. exact (sign_nonempty _ _ _ E).
  - rewrite verify_sign. apply String.eqb_refl.
Qed.

(** The outcome of [verifyCredential], step by step. *)
Lemma verifyCredential_cases (now : Z) (vc : VerifiableCredential) :
  verifyCredential self now vc
  = if verifyVCSignature self vc
    then if expired now vc
         then {| verified := false; error := Some "Credential expired";
                 details := None |}
         else {| verified := true; error := None;
                 details := Some (vc_issuer vc, vc_type vc) |}
    else {| verified := false; error := Some "Invalid signature";
            details := None |}.
Proof.
  unfold verifyCredential.
  destruct (verifyVCSignature self vc); simpl; [|reflexivity].
  destruct (expired now vc); [reflexivity|].
  unfold checkRevocationStatus.
  destruct (credentialStatus vc); reflexivity.
Qed.

Lemma expired_ISO (now t : Z) (vc : VerifiableCredential) :
  expirationDate vc = Some (ISO t) -> expired now vc = (t <? now).
Proof. intros E. unfold expired. rewrite E. reflexivity. Qed.

End Verification.

(** C3 (what the code does). [checkRevocationStatus] answers [false] for
    every credential, with or without a status pointer, so
    [verifyCredential] never answers [Credential revoked]: its outcome is
    decided by the signature and the expiry alone. *)
Theorem revocation_never_reported
    (R : Issuer.Runtime) (self : Issuer.VCIssuer) (now : Z)
    (vc : Issuer.VerifiableCredential) :
  Issuer.checkRevocationStatus vc = false
  /\ Issuer.error (Issuer.verifyCredential self now vc)
     <> Some "Credential revoked"
  /\ Issuer.verified (Issuer.verifyCredential self now vc)
     = Issuer.verifyVCSignature self vc && negb (Issuer.expired now vc).
Proof.
  split; [|split].
  - unfold Issuer.checkRevocationStatus.
    destruct (Issuer.credentialStatus vc); reflexivity.
  - rewrite verifyCredential_cases.
    destruct (Issuer.verifyVCSignature self vc), (Issuer.expired now vc);
      discriminate.
  - rewrite verifyCredential_cases.
    destruct (Issuer.verifyVCSignature self vc), (Issuer.expired now vc);
      reflexivity.
Qed.

(** C4 (as stated) fails: a credential without a proof whose expiration
    date has passed is answered with [Invalid signature], since the
    signature is checked first. *)
Lemma expired_regardless_of_signature_counterexample :
  ~ (forall (R : Issuer.Runtime) (self : Issuer.VCIssuer) (now t : Z)
            (vc : Issuer.VerifiableCredential),
       Issuer.expirationDate vc = Some (JSDate.ISO t) -> t < now ->
       Issuer.verified (Issuer.verifyCredential self now vc) = false
       /\ Issuer.error (Issuer.verifyCredential self now vc)
          = Some "Credential expired").
Proof.
  intros H.
  destruct (H Issuer.plain_runtime Issuer.sample_issuer 1000 1
              (Issuer.unsigned_credential 1) eq_refl eq_refl) as [_ E].
  discriminate E.
Qed.

(** C4 (amended). A credential whose expiration date is in the past is
    never verified; the reason is [Credential expired] when its signature
    is valid and [Invalid signature] when it is not. *)
Theorem expired_credential_rejected
    (R : Issuer.Runtime) (self : Issuer.VCIssuer) (now t : Z)
    (vc : Issuer.VerifiableCredential)
    (Hexp : Issuer.expirationDate vc = Some (JSDate.ISO t))
    (Hpast : t < now) :
  Issuer.verified (Issuer.verifyCredential self now vc) = false
  /\ Issuer.error (Issuer.verifyCredential self now vc)
     = Some (if Issuer.verifyVCSignature self vc
             then "Credential expired" else "Invalid signature").
Proof.
  rewrite verifyCredential_cases, (expired_ISO now t vc Hexp).
  apply Z.ltb_lt in Hpast. rewrite Hpast.
  destruct (Issuer.verifyVCSignature self vc); split; reflexivity.
Qed.

(** A credential issued with an expiry of one second after the epoch and
    verified two seconds after it. *)
Lemma expired_credential_rejected_witness :
  Issuer.error
    (Issuer.verifyCredential (R := Issuer.plain_runtime)
       Issuer.sample_issuer 2000 (Issuer.sample_credential 1))
  = Some "Credential expired".
Proof.
  exact (proj2 (expired_credential_rejected Issuer.plain_runtime
                  Issuer.sample_issuer 2000 1000 (Issuer.sample_credential 1)
                  eq_refl eq_refl)).
Defined.

(** ** Issuing a proof-of-funds credential twice *)

(** C6 (as stated) fails: the subject payload carries the time of issue
    in [compliance.verifiedAt], so two issues of the same data at
    different times do not have identical subjects. *)
Lemma reissued_subject_counterexample :
  ~ (forall (R : Issuer.Runtime) (self : Issuer.VCIssuer)
            (holderDID : string) (pofData : Issuer.POFData)
            (now1 created1 now2 created2 : Z)
            (vc1 vc2 : Issuer.VerifiableCredential),
       Issuer.issueProofOfFunds self now1 created1 holderDID pofData = Some vc1 ->
       Issuer.issueProofOfFunds self now2 created2 holderDID pofData = Some vc2 ->
       Issuer.credentialSubject vc1 = Issuer.credentialSubject vc2).
Proof.
  intros H.
  specialize (H Issuer.plain_runtime Issuer.sample_issuer "did:ethr:0xabc"
                (Issuer.sample_pof 4102444800) 0 0 1 1 _ _ eq_refl eq_refl).
  discriminate H.
Qed.

(** C6 (amended). For fixed input data and signing key, whenever two
    issues of a proof-of-funds credential return documents, the subjects
    of the two are the same except for [compliance.verifiedAt], which is
    the time of issue; the documents agree on context, type, issuer,
    expiration date and status, and differ at most in the issuance date,
    that field and the proof.  Either document is verified by the issuer
    as long as the expiry of the input has not passed. *)
Theorem reissue_same_claims
    (R : Issuer.Runtime) (L : Issuer.RuntimeLaws R) (self : Issuer.VCIssuer)
    (holderDID : string) (pofData : Issuer.POFData)
    (now1 created1 now2 created2 : Z)
    (vc1 vc2 : Issuer.VerifiableCredential)
    (H1 : Issuer.issueProofOfFunds self now1 created1 holderDID pofData
          = Some vc1)
    (H2 : Issuer.issueProofOfFunds self now2 created2 holderDID pofData
          = Some vc2) :
  (exists (hasAsset : Issuer.HasAsset) (proofOfFunds : Issuer.ProofOfFunds),
     Issuer.credentialSubject vc1
     = Issuer.ProofOfFundsSubject holderDID hasAsset proofOfFunds
         {| Issuer.kycApproved := Issuer.kycCompliant pofData;
            Issuer.compliance_sanctionsCleared := Issuer.sanctionsCleared pofData;
            Issuer.compliance_verifiedAt := JSDate.ISO now1 |}
     /\ Issuer.credentialSubject vc2
        = Issuer.ProofOfFundsSubject holderDID hasAsset proofOfFunds
            {| Issuer.kycApproved := Issuer.kycCompliant pofData;
               Issuer.compliance_sanctionsCleared :=
                 Issuer.sanctionsCleared pofData;
               Issuer.compliance_verifiedAt := JSDate.ISO now2 |})
  /\ Issuer.issuanceDate vc1 = JSDate.ISO now1
  /\ Issuer.issuanceDate vc2 = JSDate.ISO now2
  /\ Issuer.vc_context vc1 = Issuer.vc_context vc2
  /\ Issuer.vc_type vc1 = Issuer.vc_type vc2
  /\ Issuer.vc_issuer vc1 = Issuer.vc_issuer vc2
  /\ Issuer.expirationDate vc1 = Issuer.expirationDate vc2
  /\ Issuer.credentialStatus vc1 = Issuer.credentialStatus vc2
  /\ (forall t,
        t <= Issuer.expiry pofData * 1000 ->
        Issuer.verified (Issuer.verifyCredential self t vc1) = true
        /\ Issuer.verified (Issuer.verifyCredential self t vc2) = true).
Proof.
  unfold Issuer.issueProofOfFunds, JSDate.toISOString in H1, H2.
  destruct (Z.abs (Issuer.expiry pofData * 1000) <=? JSDate.max_time);
    [|discriminate H1].
  simpl in H1, H2. injection H1 as <-. injection H2 as <-.
  split; [do 2 eexists; split; reflexivity|].
  do 7 (split; [reflexivity|]).
  intros t Hlive.
  assert (Hnot : (Issuer.expiry pofData * 1000 <? t) = false)
    by (apply Z.ltb_ge; exact Hlive).
  split; rewrite verifyCredential_cases, verifyVCSignature_signVC by exact L;
    unfold Issuer.expired; simpl; unfold JSDate.before; simpl;
    rewrite Hnot; reflexivity.
Qed.

(** Two issues, a millisecond apart, of a token that expires in 2100,
    verified in between. *)
Lemma reissue_same_claims_witness :
  Issuer.verified
    (Issuer.verifyCredential (R := Issuer.plain_runtime) Issuer.sample_issuer
       1000 (Issuer.sample_credential 4102444800)) = true.
Proof.
  refine (proj1 (proj2 (proj2 (proj2 (proj2 (proj2 (proj2 (proj2 (proj2
            (reissue_same_claims Issuer.plain_runtime plain_runtime_laws
               Issuer.sample_issuer "did:ethr:0xabc"
               (Issuer.sample_pof 4102444800) 0 0 1 1
               (Issuer.sample_credential 4102444800) _
               eq_refl eq_refl)))))))) 1000 _)).
  vm_compute. discriminate.
Defined.

(** ** Single-rail verification (API) *)



(** ** Token-rail verification *)

(** C2 (what the code does). Neither token verifier makes all the checks.
    [verifyPOFToken] of the API never looks at the expiry: a token that
    expired in 1970, with both compliance flags set, is reported valid.
    The token branch of the demo server never looks at the compliance
    flags: a live token with both flags cleared is reported valid.
    In general the answer of [verifyPOFToken] is the same at every time. *)
Theorem token_rail_missing_checks :
  let now := 1700000000000 in
  let expired := Issuer.sample_pof 1 in
  let flagged :=
    {| Demo.nft_tokenId := "7"; Demo.nft_amount := "50000.00";
       Demo.nft_asset := "USDC"; Demo.nft_holderAddress := "0xabc";
       Demo.nft_expiry := 4102444800;
       Demo.nft_kycCompliant := false; Demo.nft_sanctionsCleared := false;
       Demo.nft_custodian := "self-custody"; Demo.nft_auditHash := "0x00";
       Demo.nft_valid := true |} in
  (Issuer.expiry expired * 1000 < now
   /\ Api.valid (Api.verifyPOFToken {[ "42" := expired ]} now "42"
                   {| Api.req_requiredAsset := Some "USDC";
                      Api.req_minAmount := None |}) = true)
  /\ (exists r,
        Demo.verify ∅ {[ "7" := flagged ]} now
          {| Demo.req_vcURI := None; Demo.req_tokenId := Some "7";
             Demo.req_requiredAsset := Some "USDC";
             Demo.req_minAmount := None |} = Json r
        /\ Demo.res_valid r = true)
  /\ (forall (store : gmap string Issuer.POFData) (t t' : Z) (tokenId : string)
             (requirements : Api.Requirements),
        Api.valid (Api.verifyPOFToken store t tokenId requirements)
        = Api.valid (Api.verifyPOFToken store t' tokenId requirements)).
Proof.
  cbn zeta. split; [|split].
  - split; [reflexivity|]. vm_compute. reflexivity.
  - eexists. split; vm_compute; reflexivity.
  - intros store t t' tokenId requirements. unfold Api.verifyPOFToken.
    destruct (store !! tokenId) as [pofData|]; [|reflexivity].
    destruct (JSDate.toISOString (Issuer.expiry pofData * 1000)); reflexivity.
Qed.

(** * Further properties of the code *)

(** ** Comparison of numbers *)

(** Away from [NaN], [a < b] is the negation of [a >= b]. *)
Lemma lt_negb_ge (a b : JSNumber.number) :
  a <> JSNumber.NaN -> b <> JSNumber.NaN ->
  JSNumber.lt a b = negb (JSNumber.ge a b).
Proof.
  intros Ha Hb. destruct a as [|na|m1 e1], b as [|nb|m2 e2];
    try congruence; simpl.
  - destruct na, nb; reflexivity.
  - destruct na; reflexivity.
  - destruct nb; reflexivity.
  - apply Z.ltb_antisym.
Qed.

(** A comparison with [NaN] is false on both sides. *)
Lemma lt_NaN_l (b : JSNumber.number) : JSNumber.lt JSNumber.NaN b = false.
Proof. reflexivity. Qed.

Lemma ge_NaN_l (b : JSNumber.number) : JSNumber.ge JSNumber.NaN b = false.
Proof. reflexivity. Qed.

(** [===] on two strings. *)
Lemma strict_eq_Some (a b : string) :
  strict_eq (Some a) (Some b) = String.eqb a b.
Proof.
  unfold strict_eq. destruct (String.eqb_spec a b) as [->|Hne].
  - apply bool_decide_eq_true. reflexivity.
  - apply bool_decide_eq_false. congruence.
Qed.

(** ** Single-rail verification of the demo server *)

Section DemoSingleRail.
Import Demo.
Variables (vcReg : gmap string VCData) (nftReg : gmap string NFTData).
Variable now : Z.

(** The two requirement tests of the demo server, as conditions. *)
Lemma check_requirements_valid (req : Request) (asset amount : string)
    (result : Result) :
  res_valid (check_requirements req asset amount result)
  = res_valid result
    && (negb (truthy (req_requiredAsset req))
        || strict_eq (Some asset) (req_requiredAsset req))
    && (negb (numeric_truthy (req_minAmount req))
        || negb (JSNumber.lt (JSNumber.parseFloat amount)
                   (default (JSNumber.Finite 0 0)
                      (Demo.parseFloat <$> req_minAmount req)))).
Proof.
  unfold check_requirements.
  destruct (req_requiredAsset req) as [ra|], (req_minAmount req) as [m|];
    rewrite ?strict_eq_Some; cbn [fmap option_fmap option_map default]; unfold id;
    try destruct (truthy (Some ra));
    try destruct (String.eqb asset ra);
    try destruct (numeric_truthy (Some m));
    try destruct (JSNumber.lt (JSNumber.parseFloat amount) (Demo.parseFloat m));
    cbn [negb andb orb fail res_valid truthy numeric_truthy];
    destruct (res_valid result); reflexivity.
Qed.


End DemoSingleRail.




(** X2. [POST /api/verify] with an identifier that is neither held by
    its registry nor a property name of [Object.prototype] is answered
    with a body, not an error status: valid is false, the reason says
    which registry, and no claim or metadata is given.  A missing [vcURI]
    entry is final: the token is not tried, whatever [tokenId] the
    request carries.  A [tokenId] that the registry does not hold and
    that names a property of [Object.prototype] is answered with
    status 500. *)
Theorem demo_unknown_identifier
    (vcReg : gmap string Demo.VCData) (nftReg : gmap string Demo.NFTData)
    (now : Z) (req : Demo.Request) (id : string) (Hne : id <> "")
    (Hown : Demo.inherited id = false) :
  let not_found text :=
    Json {| Demo.res_valid := false; Demo.res_reason := Demo.Message text;
            Demo.res_claims := []; Demo.res_issuedBy := None;
            Demo.res_expiresAt := None; Demo.res_verifiedAt := now;
            Demo.res_metadata := Demo.EmptyMetadata |} in
  (Demo.req_vcURI req = Some id -> vcReg !! id = None ->
   Demo.verify vcReg nftReg now req = not_found "VC not found in registry")
  /\ (truthy (Demo.req_vcURI req) = false ->
      Demo.req_tokenId req = Some id -> nftReg !! id = None ->
      Demo.verify vcReg nftReg now req = not_found "NFT token not found")
  /\ (truthy (Demo.req_vcURI req) = false ->
      truthy (Demo.req_tokenId req) = false ->
      Demo.verify vcReg nftReg now req
      = not_found "No verification method provided")
  /\ (forall name,
        truthy (Demo.req_vcURI req) = false ->
        Demo.req_tokenId req = Some name -> nftReg !! name = None ->
        Demo.inherited name = true ->
        Demo.verify vcReg nftReg now req = Status 500 "Internal server error").
Proof.
  cbn zeta. apply String.eqb_neq in Hne. unfold Demo.verify.
  split; [|split; [|split]].
  - intros Hu Hnone. rewrite Hu. simpl. rewrite Hne. simpl.
    unfold Demo.verify_vc. rewrite Hnone. reflexivity.
  - intros Hu Ht Hnone. rewrite Hu, Ht. simpl. rewrite Hne. simpl.
    unfold Demo.verify_nft. rewrite Hnone, Hown. reflexivity.
  - intros Hu Ht. rewrite Hu, Ht. reflexivity.
  - intros name Hu Ht Hnone Hin. rewrite Hu, Ht.
    assert (Hname : truthy (Some name) = true)
      by (destruct name; [discriminate Hin|reflexivity]).
    rewrite Hname. simpl.
    unfold Demo.verify_nft. rewrite Hnone, Hin. reflexivity.
Qed.

(** An unknown credential next to the token of the starting registry. *)
Lemma demo_unknown_identifier_witness :
  Demo.verify (Demo.mockVCRegistry 0) (Demo.mockNFTRegistry 0) 1
    {| Demo.req_vcURI := Some "did:ethr:0xabc/vc/none";
       Demo.req_tokenId := Some "42";
       Demo.req_requiredAsset := None; Demo.req_minAmount := None |}
  = Json {| Demo.res_valid := false;
            Demo.res_reason := Demo.Message "VC not found in registry";
            Demo.res_claims := []; Demo.res_issuedBy := None;
            Demo.res_expiresAt := None; Demo.res_verifiedAt := 1;
            Demo.res_metadata := Demo.EmptyMetadata |}.
Proof.
  refine (proj1 (demo_unknown_identifier (Demo.mockVCRegistry 0)
                   (Demo.mockNFTRegistry 0) 1
                   {| Demo.req_vcURI := Some "did:ethr:0xabc/vc/none";
                      Demo.req_tokenId := Some "42";
                      Demo.req_requiredAsset := None;
                      Demo.req_minAmount := None |}
                   "did:ethr:0xabc/vc/none" _ eq_refl) eq_refl eq_refl).
  discriminate.
Defined.

(** The name [constructor] in place of a token of the starting registry. *)
Example demo_inherited_token :
  Demo.verify (Demo.mockVCRegistry 0) (Demo.mockNFTRegistry 0) 1
    {| Demo.req_vcURI := None; Demo.req_tokenId := Some "constructor";
       Demo.req_requiredAsset := None; Demo.req_minAmount := None |}
  = Status 500 "Internal server error".
Proof. reflexivity. Qed.

(** X3. An amount that [parseFloat] cannot read is judged differently by
    the two rails: the demo server tests [amount < minAmount], which is
    false of [NaN], so the amount passes every minimum; the API tests
    [amount >= minAmount], which is false too, so it fails every minimum. *)
Theorem unparsable_amount_rails_disagree (amount : string)
    (Hnan : JSNumber.parseFloat amount = JSNumber.NaN) :
  (forall (req : Demo.Request) (asset : string) (result : Demo.Result),
     Demo.req_requiredAsset req = None ->
     Demo.res_valid (Demo.check_requirements req asset amount result)
     = Demo.res_valid result)
  /\ (forall (pofData : Issuer.POFData) (requirements : Api.Requirements)
             (minAmount : JSNumber.number),
        Issuer.amount pofData = amount ->
        Api.req_minAmount requirements = Some minAmount ->
        JSNumber.truthy minAmount = true ->
        Api.amount_ok pofData requirements = false
        /\ Api.meetsRequirements pofData requirements = false).
Proof.
  split.
  - intros req asset result Hra.
    rewrite check_requirements_valid, Hra, Hnan. simpl.
    rewrite orb_true_r, !andb_true_r. reflexivity.
  - intros pofData requirements minAmount Ha Hm Ht.
    assert (E : Api.amount_ok pofData requirements = false).
    { unfold Api.amount_ok. rewrite Hm, Ht, Ha, Hnan. reflexivity. }
    split; [exact E|]. unfold Api.meetsRequirements. rewrite E.
    apply andb_false_r.
Qed.

(** The amount [n/a] against a minimum of 10000. *)
Lemma unparsable_amount_rails_disagree_witness :
  Api.amount_ok
    {| Issuer.tokenId := "42"; Issuer.asset := "USDC"; Issuer.amount := "n/a";
       Issuer.expiry := 4102444800; Issuer.holderAddress := "0xabc";
       Issuer.kycCompliant := true; Issuer.sanctionsCleared := true;
       Issuer.custodian := None; Issuer.auditHash := None |}
    {| Api.req_requiredAsset := None;
       Api.req_minAmount := Some (JSNumber.Finite 10000 0) |} = false.
Proof.
  exact (proj1 (proj2 (unparsable_amount_rails_disagree "n/a" eq_refl)
                  {| Issuer.tokenId := "42"; Issuer.asset := "USDC";
                     Issuer.amount := "n/a"; Issuer.expiry := 4102444800;
                     Issuer.holderAddress := "0xabc";
                     Issuer.kycCompliant := true;
                     Issuer.sanctionsCleared := true;
                     Issuer.custodian := None; Issuer.auditHash := None |}
                  {| Api.req_requiredAsset := None;
                     Api.req_minAmount := Some (JSNumber.Finite 10000 0) |}
                  (JSNumber.Finite 10000 0) eq_refl eq_refl eq_refl)).
Defined.

(** X4. A token whose expiry, in milliseconds, exceeds the range of
    [Date] makes [POST /api/verify] answer with status 500, because the
    result prints the expiry with [toISOString]; the dual-rail endpoint,
    which does not print it, counts the same token as unexpired. *)
Theorem demo_expiry_out_of_range
    (vcReg : gmap string Demo.VCData) (nftReg : gmap string Demo.NFTData)
    (now : Z) (req : Demo.Request) (tokenId : string) (nftData : Demo.NFTData)
    (Hvc : truthy (Demo.req_vcURI req) = false)
    (Hid : Demo.req_tokenId req = Some tokenId) (Hne : tokenId <> "")
    (Hfound : nftReg !! tokenId = Some nftData)
    (Hnow : now <= JSDate.max_time)
    (Hfar : JSDate.max_time < Demo.nft_expiry nftData * 1000) :
  Demo.verify vcReg nftReg now req = Status 500 "Internal server error"
  /\ Demo.valid (Demo.nft_rail nftReg now tokenId) = Demo.nft_valid nftData.
Proof.
  split.
  - unfold Demo.verify. rewrite Hvc, Hid. simpl.
    apply String.eqb_neq in Hne. rewrite Hne. simpl.
    unfold Demo.verify_nft. rewrite Hfound. unfold JSDate.toISOString.
    replace (Z.abs (Demo.nft_expiry nftData * 1000) <=? JSDate.max_time)
      with false; [reflexivity|].
    symmetry. apply Z.leb_gt. unfold JSDate.max_time in *. lia.
  - unfold Demo.nft_rail. rewrite Hfound. simpl. unfold Demo.not_expired.
    replace (now <? Demo.nft_expiry nftData * 1000) with true;
      [apply andb_true_r|].
    symmetry. apply Z.ltb_lt. lia.
Qed.

(** A token whose expiry is one second past the range of [Date]. *)
Lemma demo_expiry_out_of_range_witness :
  let token :=
    {| Demo.nft_tokenId := "9"; Demo.nft_amount := "1.00";
       Demo.nft_asset := "USDC"; Demo.nft_holderAddress := "0xabc";
       Demo.nft_expiry := 8640000000001;
       Demo.nft_kycCompliant := true; Demo.nft_sanctionsCleared := true;
       Demo.nft_custodian := "self-custody";
       Demo.nft_auditHash := "0x00"; Demo.nft_valid := true |} in
  Demo.verify ∅ {[ "9" := token ]} 1700000000000
    {| Demo.req_vcURI := None; Demo.req_tokenId := Some "9";
       Demo.req_requiredAsset := None; Demo.req_minAmount := None |}
  = Status 500 "Internal server error".
Proof.
  intros token.
  refine (proj1 (demo_expiry_out_of_range ∅ {[ "9" := token ]} 1700000000000
                   {| Demo.req_vcURI := None; Demo.req_tokenId := Some "9";
                      Demo.req_requiredAsset := None;
                      Demo.req_minAmount := None |}
                   "9" token eq_refl eq_refl _ _ _ _)).
  - discriminate.
  - vm_compute. reflexivity.
  - vm_compute. discriminate.
  - reflexivity.
Defined.

(** ** Dual-rail verification of the demo server *)

(** X5. A dual-rail request whose credential or token is not in its
    registry is answered valid: false with the reason that a method
    failed.  When both are missing the three cross-checks nevertheless
    read true, since the two missing metadata are equal. *)
Theorem dual_rail_unknown_identifier
    (vcReg : gmap string Demo.VCData) (nftReg : gmap string Demo.NFTData)
    (now : Z) (req : Demo.Request) (vcURI tokenId : string)
    (Hu : Demo.req_vcURI req = Some vcURI) (Hu' : vcURI <> "")
    (Ht : Demo.req_tokenId req = Some tokenId) (Ht' : tokenId <> "")
    (Hmissing : vcReg !! vcURI = None \/ nftReg !! tokenId = None) :
  exists r,
    Demo.verify_dual vcReg nftReg now req = Json r
    /\ Demo.dual_valid r = false
    /\ Demo.dual_reason r = "One or both verification methods failed"
    /\ (vcReg !! vcURI = None -> nftReg !! tokenId = None ->
        Demo.amountMatch (Demo.crossValidation r) = true
        /\ Demo.currencyMatch (Demo.crossValidation r) = true
        /\ Demo.tokenIdMatch (Demo.crossValidation r) = true).
Proof.
  rewrite (verify_dual_runs vcReg nftReg now req vcURI tokenId Hu Hu' Ht Ht').
  eexists. split; [reflexivity|].
  assert (Hb : Demo.valid (Demo.vc_rail vcReg vcURI)
               && Demo.valid (Demo.nft_rail nftReg now tokenId) = false).
  { unfold Demo.vc_rail, Demo.nft_rail.
    destruct Hmissing as [H|H]; rewrite H; simpl;
      [reflexivity|apply andb_false_r]. }
  unfold Demo.combine, Demo.cross_validate. simpl. rewrite Hb. simpl.
  split; [reflexivity|]. split; [reflexivity|].
  intros Hv Hn. unfold Demo.vc_rail, Demo.nft_rail. rewrite Hv, Hn.
  repeat split.
Qed.

(** The credential of the starting registry with a token it does not hold. *)
Lemma dual_rail_unknown_identifier_witness :
  exists r,
    Demo.verify_dual (Demo.mockVCRegistry 0) (Demo.mockNFTRegistry 0) 1
      {| Demo.req_vcURI := Some Demo.pof42; Demo.req_tokenId := Some "43";
         Demo.req_requiredAsset := None; Demo.req_minAmount := None |}
    = Json r
    /\ Demo.dual_valid r = false.
Proof.
  destruct (dual_rail_unknown_identifier (Demo.mockVCRegistry 0)
              (Demo.mockNFTRegistry 0) 1
              {| Demo.req_vcURI := Some Demo.pof42;
                 Demo.req_tokenId := Some "43";
                 Demo.req_requiredAsset := None; Demo.req_minAmount := None |}
              Demo.pof42 "43" eq_refl)
    as (r & Hr & Hv & _).
  - discriminate.
  - reflexivity.
  - discriminate.
  - right. vm_compute. reflexivity.
  - exists r. split; assumption.
Defined.

(** X6. The overall flag of a dual-rail verification does not take
    [tokenIdMatch] into account: a valid credential and a valid token
    that agree on amount and currency pass, though the credential names
    another token than the one presented. *)
Theorem dual_rail_ignores_token_identity
    (vcReg : gmap string Demo.VCData) (nftReg : gmap string Demo.NFTData)
    (now : Z) (req : Demo.Request) (vcURI tokenId : string)
    (vcData : Demo.VCData) (nftData : Demo.NFTData)
    (Hu : Demo.req_vcURI req = Some vcURI) (Hu' : vcURI <> "")
    (Ht : Demo.req_tokenId req = Some tokenId) (Ht' : tokenId <> "")
    (Hvc : vcReg !! vcURI = Some vcData)
    (Hnft : nftReg !! tokenId = Some nftData)
    (Hv : Demo.vc_valid vcData = true)
    (Hn : Demo.nft_valid nftData = true)
    (Hlive : now < Demo.nft_expiry nftData * 1000)
    (Ha : Demo.amount (Demo.vc_metadata vcData) = Demo.nft_amount nftData)
    (Hc : Demo.currency (Demo.vc_metadata vcData) = Demo.nft_asset nftData)
    (Hother : Demo.tokenId (Demo.vc_metadata vcData) <> Demo.nft_tokenId nftData) :
  exists r,
    Demo.verify_dual vcReg nftReg now req = Json r
    /\ Demo.tokenIdMatch (Demo.crossValidation r) = false
    /\ Demo.dual_valid r = true
    /\ Demo.dual_reason r = "Dual verification successful with cross-validation".
Proof.
  rewrite (verify_dual_runs vcReg nftReg now req vcURI tokenId Hu Hu' Ht Ht').
  eexists. split; [reflexivity|].
  unfold Demo.combine, Demo.cross_validate, Demo.vc_rail, Demo.nft_rail.
  rewrite Hvc, Hnft. simpl. rewrite Hv, Hn, Ha, Hc.
  unfold Demo.not_expired. apply Z.ltb_lt in Hlive. rewrite Hlive. simpl.
  assert (E : forall x : option string, strict_eq x x = true)
    by (intros x; apply strict_eq_true; reflexivity).
  rewrite !E. simpl. split; [|split; reflexivity].
  apply strict_eq_false. congruence.
Qed.

(** The credential for token 42 presented with token 7 of equal amount. *)
Lemma dual_rail_ignores_token_identity_witness :
  let token :=
    {| Demo.nft_tokenId := "7"; Demo.nft_amount := "50000.00";
       Demo.nft_asset := "USDC"; Demo.nft_holderAddress := "0xdef";
       Demo.nft_expiry := 4102444800;
       Demo.nft_kycCompliant := true; Demo.nft_sanctionsCleared := true;
       Demo.nft_custodian := "self-custody";
       Demo.nft_auditHash := "0x00"; Demo.nft_valid := true |} in
  exists r,
    Demo.verify_dual (Demo.mockVCRegistry 0) {[ "7" := token ]} 1
      {| Demo.req_vcURI := Some Demo.pof42; Demo.req_tokenId := Some "7";
         Demo.req_requiredAsset := None; Demo.req_minAmount := None |}
    = Json r
    /\ Demo.tokenIdMatch (Demo.crossValidation r) = false
    /\ Demo.dual_valid r = true.
Proof.
  intros token.
  destruct (dual_rail_ignores_token_identity (Demo.mockVCRegistry 0)
              {[ "7" := token ]} 1
              {| Demo.req_vcURI := Some Demo.pof42; Demo.req_tokenId := Some "7";
                 Demo.req_requiredAsset := None; Demo.req_minAmount := None |}
              Demo.pof42 "7"
              {| Demo.vc_vcURI := Demo.pof42;
                 Demo.vc_valid := true;
                 Demo.vc_claims := ["ProofOfFunds"; "KYCCompliant"; "SanctionsCleared"];
                 Demo.vc_issuedBy := "UnyKorn Proof of Funds Service";
                 Demo.vc_expiresAt := JSDate.ISO (0 + 30 * 24 * 60 * 60 * 1000);
                 Demo.vc_verifiedAt := 0;
                 Demo.vc_metadata :=
                   {| Demo.amount := "50000.00"; Demo.currency := "USDC";
                      Demo.tokenId := "42";
                      Demo.holderDID :=
                        Some "did:ethr:0x742d35Cc6634C0532925a3b8D93C7E8F476C4578" |} |}
              token eq_refl)
    as (r & Hr & Hm & Hv & _);
    [try (vm_compute; reflexivity); discriminate .. |].
  exists r. repeat split; assumption.
Defined.

(** X7. The dual-rail endpoint applies no requirement: a request whose
    credential is below [minAmount] is rejected by [POST /api/verify]
    for its amount and, sent as it is to [POST /api/verify/dual], is
    accepted when the two rails agree. *)
Theorem dual_rail_skips_requirements
    (vcReg : gmap string Demo.VCData) (nftReg : gmap string Demo.NFTData)
    (now : Z) (req : Demo.Request) (vcURI tokenId : string)
    (vcData : Demo.VCData) (nftData : Demo.NFTData) (minAmount : Demo.numeric)
    (Hu : Demo.req_vcURI req = Some vcURI) (Hu' : vcURI <> "")
    (Ht : Demo.req_tokenId req = Some tokenId) (Ht' : tokenId <> "")
    (Hvc : vcReg !! vcURI = Some vcData)
    (Hnft : nftReg !! tokenId = Some nftData)
    (Hv : Demo.vc_valid vcData = true)
    (Hn : Demo.nft_valid nftData = true)
    (Hlive : now < Demo.nft_expiry nftData * 1000)
    (Ha : Demo.amount (Demo.vc_metadata vcData) = Demo.nft_amount nftData)
    (Hc : Demo.currency (Demo.vc_metadata vcData) = Demo.nft_asset nftData)
    (Hmin : Demo.req_minAmount req = Some minAmount)
    (Hset : Demo.numeric_truthy (Some minAmount) = true)
    (Hbelow : JSNumber.lt
                (JSNumber.parseFloat (Demo.amount (Demo.vc_metadata vcData)))
                (Demo.parseFloat minAmount) = true) :
  exists single dual,
    Demo.verify vcReg nftReg now req = Json single
    /\ Demo.res_valid single = false
    /\ Demo.res_reason single
       = Demo.InsufficientAmount minAmount (Demo.amount (Demo.vc_metadata vcData))
    /\ Demo.verify_dual vcReg nftReg now req = Json dual
    /\ Demo.dual_valid dual = true.
Proof.
  rewrite (verify_dual_runs vcReg nftReg now req vcURI tokenId Hu Hu' Ht Ht').
  unfold Demo.verify. rewrite Hu. simpl.
  pose proof Hu' as Hu''. apply String.eqb_neq in Hu''. rewrite Hu''. simpl.
  unfold Demo.verify_vc. rewrite Hvc.
  do 2 eexists. split; [reflexivity|].
  split; [|split; [|split; [reflexivity|]]].
  - rewrite check_requirements_valid, Hmin, Hset.
    cbn [fmap option_fmap option_map default]. unfold id.
    rewrite Hbelow. simpl. apply andb_false_r.
  - unfold Demo.check_requirements. rewrite Hmin, Hset, Hbelow. reflexivity.
  - apply combine_valid. unfold Demo.vc_rail, Demo.nft_rail.
    rewrite Hvc, Hnft. simpl. rewrite Hv, Hn, Ha, Hc.
    unfold Demo.not_expired. apply Z.ltb_lt in Hlive. rewrite Hlive.
    repeat split.
Qed.

(** The starting registries and a minimum of 60000. *)
Lemma dual_rail_skips_requirements_witness :
  let req :=
    {| Demo.req_vcURI := Some Demo.pof42; Demo.req_tokenId := Some "42";
       Demo.req_requiredAsset := None;
       Demo.req_minAmount := Some (Demo.Num (JSNumber.Finite 60000 0)) |} in
  exists single dual,
    Demo.verify (Demo.mockVCRegistry 0) (Demo.mockNFTRegistry 0) 1 req = Json single
    /\ Demo.res_valid single = false
    /\ Demo.verify_dual (Demo.mockVCRegistry 0) (Demo.mockNFTRegistry 0) 1 req
       = Json dual
    /\ Demo.dual_valid dual = true.
Proof.
  intros req.
  destruct (dual_rail_skips_requirements (Demo.mockVCRegistry 0)
              (Demo.mockNFTRegistry 0) 1 req Demo.pof42 "42"
              {| Demo.vc_vcURI := Demo.pof42;
                 Demo.vc_valid := true;
                 Demo.vc_claims := ["ProofOfFunds"; "KYCCompliant"; "SanctionsCleared"];
                 Demo.vc_issuedBy := "UnyKorn Proof of Funds Service";
                 Demo.vc_expiresAt := JSDate.ISO (0 + 30 * 24 * 60 * 60 * 1000);
                 Demo.vc_verifiedAt := 0;
                 Demo.vc_metadata :=
                   {| Demo.amount := "50000.00"; Demo.currency := "USDC";
                      Demo.tokenId := "42";
                      Demo.holderDID :=
                        Some "did:ethr:0x742d35Cc6634C0532925a3b8D93C7E8F476C4578" |} |}
              {| Demo.nft_tokenId := "42";
                 Demo.nft_amount := "50000.00";
                 Demo.nft_asset := "USDC";
                 Demo.nft_holderAddress := "0x742d35Cc6634C0532925a3b8D93C7E8F476C4578";
                 Demo.nft_expiry := 0 / 1000 + 30 * 24 * 60 * 60;
                 Demo.nft_kycCompliant := true;
                 Demo.nft_sanctionsCleared := true;
                 Demo.nft_custodian := "Coinbase Custody";
                 Demo.nft_auditHash :=
                   "0x8f3b4e9a7c1d6f2e5b8a9c4d7e1f6a2b5c8e1a4b7c2d5e8f1a4b7c2d5e8f1a4b";
                 Demo.nft_valid := true |}
              (Demo.Num (JSNumber.Finite 60000 0)) eq_refl)
    as (single & dual & Hs & Hsv & _ & Hd & Hdv);
    [try (vm_compute; reflexivity); discriminate .. |].
  exists single, dual. repeat split; assumption.
Defined.

(** ** The issuer: what is signed, and for how long *)

Section Signed.
Import Issuer JSDate.
Context `{R : Runtime}.
Variable self : VCIssuer.

(** A credential signed by this issuer is verified until it expires. *)
Lemma verifyCredential_signVC (L : RuntimeLaws R) (t created : Z)
    (vc : VerifiableCredential) :
  verifyCredential self t (signVC self created vc)
  = if expired t vc
    then {| verified := false; error := Some "Credential expired";
            details := None |}
    else {| verified := true; error := None;
            details := Some (vc_issuer vc, vc_type vc) |}.
Proof.
  rewrite verifyCredential_cases, verifyVCSignature_signVC by exact L.
  reflexivity.
Qed.

(** The typed value leaves out the status pointer, the issuer's name and
    the proof block. *)
Lemma typed_value_redress (status : option CredentialStatus)
    (name proof_type : string) (created : DateString)
    (verificationMethod proofPurpose : string) (vc : VerifiableCredential) :
  typed_value (redress status name proof_type created verificationMethod
                 proofPurpose vc)
  = typed_value vc.
Proof.
  unfold typed_value, redress. simpl. destruct (vc_issuer vc); reflexivity.
Qed.

End Signed.

(** X8. The signature of a credential covers its context, type, issuer
    id, dates and subject only.  Replacing the status pointer (the
    revocation pointer), the issuer's display name, or the proof block
    around the same [proofValue] changes neither the verdict nor the
    error of [verifyCredential]. *)
Theorem verification_ignores_unsigned_parts
    (R : Issuer.Runtime) (self : Issuer.VCIssuer) (now : Z)
    (status : option Issuer.CredentialStatus) (name proof_type : string)
    (created : JSDate.DateString) (verificationMethod proofPurpose : string)
    (vc : Issuer.VerifiableCredential) :
  let vc' := Issuer.redress status name proof_type created verificationMethod
               proofPurpose vc in
  Issuer.verified (Issuer.verifyCredential self now vc')
  = Issuer.verified (Issuer.verifyCredential self now vc)
  /\ Issuer.error (Issuer.verifyCredential self now vc')
     = Issuer.error (Issuer.verifyCredential self now vc).
Proof.
  cbn zeta. rewrite !verifyCredential_cases.
  assert (Hs : Issuer.verifyVCSignature self
                 (Issuer.redress status name proof_type created
                    verificationMethod proofPurpose vc)
               = Issuer.verifyVCSignature self vc).
  { unfold Issuer.verifyVCSignature. rewrite typed_value_redress.
    unfold Issuer.redress. simpl. destruct (Issuer.proof vc); reflexivity. }
  rewrite Hs.
  change (Issuer.expired now
            (Issuer.redress status name proof_type created verificationMethod
               proofPurpose vc))
    with (Issuer.expired now vc).
  destruct (Issuer.verifyVCSignature self vc), (Issuer.expired now vc);
    split; reflexivity.
Qed.

(** A date that was printed is the date of its time value. *)
Lemma toISOString_Some (t : Z) (d : JSDate.DateString) :
  JSDate.toISOString t = Some d -> d = JSDate.ISO t.
Proof.
  unfold JSDate.toISOString.
  destruct (Z.abs t <=? JSDate.max_time); [|discriminate].
  intros [= <-]. reflexivity.
Qed.

(** X9. A KYC credential that the issuer returns expires 365 days after
    its issue and a device attestation 7 days after it: the issuer
    verifies each exactly until then, and answers [Credential expired]
    afterwards. *)
Theorem issued_credentials_expire
    (R : Issuer.Runtime) (L : Issuer.RuntimeLaws R) (self : Issuer.VCIssuer)
    (now created t : Z) (holderDID : string)
    (kycData : Issuer.KYCData) (deviceData : Issuer.DeviceData)
    (kyc device : Issuer.VerifiableCredential)
    (Hkyc : Issuer.issueKYCCredential self now created holderDID kycData
            = Some kyc)
    (Hdev : Issuer.issueDeviceAttestation self now created holderDID deviceData
            = Some device) :
  Issuer.expirationDate kyc = Some (JSDate.ISO (now + 31536000000))
  /\ Issuer.expirationDate device = Some (JSDate.ISO (now + 604800000))
  /\ Issuer.verified (Issuer.verifyCredential self t kyc)
     = (t <=? now + 31536000000)
  /\ Issuer.verified (Issuer.verifyCredential self t device)
     = (t <=? now + 604800000)
  /\ (now + 31536000000 < t ->
      Issuer.error (Issuer.verifyCredential self t kyc)
      = Some "Credential expired")
  /\ (now + 604800000 < t ->
      Issuer.error (Issuer.verifyCredential self t device)
      = Some "Credential expired").
Proof.
  unfold Issuer.issueKYCCredential in Hkyc.
  unfold Issuer.issueDeviceAttestation in Hdev.
  change (365 * 24 * 60 * 60 * 1000) with 31536000000 in Hkyc.
  change (7 * 24 * 60 * 60 * 1000) with 604800000 in Hdev.
  destruct (JSDate.toISOString (now + 31536000000)) as [e1|] eqn:E1;
    [|discriminate Hkyc].
  destruct (JSDate.toISOString (Issuer.kycData_verifiedAt kycData * 1000))
    as [v1|]; [|discriminate Hkyc].
  destruct (JSDate.toISOString (now + 604800000)) as [e2|] eqn:E2;
    [|discriminate Hdev].
  destruct (JSDate.toISOString (Issuer.deviceData_verifiedAt deviceData * 1000))
    as [v2|]; [|discriminate Hdev].
  apply toISOString_Some in E1, E2. subst e1 e2.
  simpl in Hkyc, Hdev. injection Hkyc as <-. injection Hdev as <-.
  do 2 (split; [reflexivity|]).
  rewrite !(verifyCredential_signVC self L).
  unfold Issuer.expired, JSDate.before. simpl.
  rewrite !(Z.leb_antisym _ t).
  split; [|split; [|split]].
  - destruct (now + 31536000000 <? t); reflexivity.
  - destruct (now + 604800000 <? t); reflexivity.
  - intros H. apply Z.ltb_lt in H. rewrite H. reflexivity.
  - intros H. apply Z.ltb_lt in H. rewrite H. reflexivity.
Qed.

(** Credentials issued on 2023-11-14 and checked a day later. *)
Lemma issued_credentials_expire_witness :
  exists kyc,
    Issuer.issueKYCCredential (R := Issuer.plain_runtime) Issuer.sample_issuer
      1700000000000 1700000000000 "did:ethr:0xabc"
      {| Issuer.kycData_userId := "alice"; Issuer.kycData_provider := "UnyKorn KYC";
         Issuer.kycData_level := "standard"; Issuer.kycData_approved := true;
         Issuer.kycData_verifiedAt := 1700000000 |} = Some kyc
    /\ Issuer.verified
         (Issuer.verifyCredential (R := Issuer.plain_runtime)
            Issuer.sample_issuer 1700086400000 kyc) = true.
Proof.
  destruct (Issuer.issueKYCCredential (R := Issuer.plain_runtime)
              Issuer.sample_issuer 1700000000000 1700000000000 "did:ethr:0xabc"
              {| Issuer.kycData_userId := "alice";
                 Issuer.kycData_provider := "UnyKorn KYC";
                 Issuer.kycData_level := "standard";
                 Issuer.kycData_approved := true;
                 Issuer.kycData_verifiedAt := 1700000000 |})
    as [kyc|] eqn:Hk; [|discriminate Hk].
  destruct (Issuer.issueDeviceAttestation (R := Issuer.plain_runtime)
              Issuer.sample_issuer 1700000000000 1700000000000 "did:ethr:0xabc"
              {| Issuer.deviceData_deviceId := "phone";
                 Issuer.deviceData_platform := "ios";
                 Issuer.deviceData_securityLevel := "hardware";
                 Issuer.deviceData_attestations := [];
                 Issuer.deviceData_verifiedAt := 1700000000 |})
    as [device|] eqn:Hd; [|discriminate Hd].
  exists kyc. split; [reflexivity|].
  rewrite (proj1 (proj2 (proj2
             (issued_credentials_expire Issuer.plain_runtime plain_runtime_laws
                Issuer.sample_issuer 1700000000000 1700000000000 1700086400000
                "did:ethr:0xabc" _ _ kyc device Hk Hd)))).
  reflexivity.
Defined.

(** X10. A credential signed by another key is rejected: an issuer on
    the same registry and chain whose wallet address differs from the
    signer's (letter case apart) answers [Invalid signature], whatever
    the dates of the credential. *)
Theorem foreign_signature_rejected
    (R : Issuer.Runtime) (L : Issuer.RuntimeLaws R)
    (signer verifier : Issuer.VCIssuer) (now created : Z)
    (vc : Issuer.VerifiableCredential)
    (Hreg : Issuer.registryContract (Issuer.config signer)
            = Issuer.registryContract (Issuer.config verifier))
    (Hchain : Issuer.network_chainId signer = Issuer.network_chainId verifier)
    (Hkey : Issuer.toLowerCase
              (Issuer.walletAddress (Issuer.signingKey (Issuer.config signer)))
            <> Issuer.toLowerCase
                 (Issuer.walletAddress (Issuer.signingKey (Issuer.config verifier)))) :
  Issuer.verifyCredential verifier now (Issuer.signVC signer created vc)
  = {| Issuer.verified := false; Issuer.error := Some "Invalid signature";
       Issuer.details := None |}.
Proof.
  rewrite verifyCredential_cases.
  assert (Hd : Issuer.credential_domain verifier = Issuer.credential_domain signer).
  { unfold Issuer.credential_domain. rewrite Hreg, Hchain. reflexivity. }
  assert (Hs : Issuer.verifyVCSignature verifier (Issuer.signVC signer created vc)
               = false).
  { unfold Issuer.verifyVCSignature. rewrite Hd.
    change (Issuer.typed_value (Issuer.signVC signer created vc))
      with (Issuer.typed_value vc).
    simpl.
    destruct (String.eqb _ ""); [reflexivity|].
    rewrite Issuer.verify_sign. apply String.eqb_neq. exact Hkey. }
  rewrite Hs. reflexivity.
Qed.

(** The sample credential checked by an issuer that holds another key. *)
Lemma foreign_signature_rejected_witness :
  let verifier :=
    {| Issuer.config :=
         {| Issuer.issuerDID := "did:ethr:0x456";
            Issuer.signingKey :=
              "0x1111111111111111111111111111111111111111111111111111111111111111";
            Issuer.registryContract := "0xa1207f3bba224e2c9c3c6d5af63d0eb1582ce587";
            Issuer.rpcUrl := "http://localhost:8545" |};
       Issuer.network_chainId := 1 |} in
  Issuer.error
    (Issuer.verifyCredential (R := Issuer.plain_runtime) verifier 1000
       (Issuer.signVC (R := Issuer.plain_runtime) Issuer.sample_issuer 0
          (Issuer.unsigned_credential 4102444800000)))
  = Some "Invalid signature".
Proof.
  intros verifier.
  rewrite (foreign_signature_rejected Issuer.plain_runtime plain_runtime_laws
             Issuer.sample_issuer verifier 1000 0
             (Issuer.unsigned_credential 4102444800000) eq_refl eq_refl).
  - reflexivity.
  - vm_compute. discriminate.
Defined.

(** The branches of [extractCurrency]. *)
Lemma extractCurrency_cases (asset : string) :
  (Issuer.includes asset "USDC" = true /\ Issuer.extractCurrency asset = "USDC")
  \/ (Issuer.includes asset "USDC" = false
      /\ Issuer.includes asset "USDT" = true
      /\ Issuer.extractCurrency asset = "USDT")
  \/ (Issuer.includes asset "USDC" = false
      /\ Issuer.includes asset "USDT" = false
      /\ Issuer.includes asset "ETH" = true
      /\ Issuer.extractCurrency asset = "ETH")
  \/ (Issuer.includes asset "USDC" = false
      /\ Issuer.includes asset "USDT" = false
      /\ Issuer.includes asset "ETH" = false
      /\ Issuer.includes asset "BTC" = true
      /\ Issuer.extractCurrency asset = "BTC")
  \/ (Issuer.includes asset "USDC" = false
      /\ Issuer.includes asset "USDT" = false
      /\ Issuer.includes asset "ETH" = false
      /\ Issuer.includes asset "BTC" = false
      /\ Issuer.extractCurrency asset = "USD").
Proof.
  unfold Issuer.extractCurrency.
  destruct (Issuer.includes asset "USDC"); [tauto|].
  destruct (Issuer.includes asset "USDT"); [tauto|].
  destruct (Issuer.includes asset "ETH"); [tauto|].
  destruct (Issuer.includes asset "BTC"); tauto.
Qed.

(** X11. [extractCurrency] answers one of five codes, and answers a code
    with itself; the tests are tried in order, so an asset name that
    contains [USDC] is a USDC asset even when it names another coin too. *)
Theorem extractCurrency_codes (asset : string) :
  In (Issuer.extractCurrency asset) ["USDC"; "USDT"; "ETH"; "BTC"; "USD"]
  /\ Issuer.extractCurrency (Issuer.extractCurrency asset)
     = Issuer.extractCurrency asset
  /\ (Issuer.includes asset "USDC" = true ->
      Issuer.extractCurrency asset = "USDC")
  /\ (Issuer.extractCurrency asset = "USD" <->
      Issuer.includes asset "USDC" = false
      /\ Issuer.includes asset "USDT" = false
      /\ Issuer.includes asset "ETH" = false
      /\ Issuer.includes asset "BTC" = false).
Proof.
  destruct (extractCurrency_cases asset)
    as [(H1 & E)|[(H1 & H2 & E)|[(H1 & H2 & H3 & E)|
        [(H1 & H2 & H3 & H4 & E)|(H1 & H2 & H3 & H4 & E)]]]];
    rewrite E, H1;
    (split; [simpl; tauto|]);
    (split; [reflexivity|]);
    (split; [intros H; try reflexivity; discriminate H|]);
    (split; [intros H; try discriminate H; repeat split; assumption
            |intros (G1 & G2 & G3 & G4); try reflexivity; congruence]).
Qed.

(** X12. What an issued proof-of-funds credential says of its input: the
    claims the API extracts from it are the single line
    [Verified funds: <amount> <currency>], its status pointer is
    [<registry>#<tokenId>], and it expires with the token.  For a token
    whose expiry is outside the range of [Date] no credential is issued. *)
Theorem issued_pof_reflects_input
    (R : Issuer.Runtime) (self : Issuer.VCIssuer) (now created : Z)
    (holderDID : string) (pofData : Issuer.POFData) :
  (JSDate.max_time < Z.abs (Issuer.expiry pofData * 1000) ->
   Issuer.issueProofOfFunds self now created holderDID pofData = None)
  /\ forall vc,
       Issuer.issueProofOfFunds self now created holderDID pofData = Some vc ->
       Api.extractCredentialClaims vc
       = [("Verified funds: " ++ Issuer.amount pofData ++ " "
           ++ Issuer.extractCurrency (Issuer.asset pofData))%string]
       /\ (Issuer.status_id <$> Issuer.credentialStatus vc)
          = Some (Issuer.registryContract (Issuer.config self) ++ "#"
                  ++ Issuer.tokenId pofData)%string
       /\ Issuer.expirationDate vc
          = Some (JSDate.ISO (Issuer.expiry pofData * 1000))
       /\ Issuer.issuanceDate vc = JSDate.ISO now.
Proof.
  unfold Issuer.issueProofOfFunds, JSDate.toISOString.
  destruct (Z.leb_spec (Z.abs (Issuer.expiry pofData * 1000)) JSDate.max_time)
    as [Hle|Hgt]; simpl.
  - split; [lia|].
    intros vc [= <-]. repeat split.
  - split; [reflexivity|].
    intros vc [=].
Qed.

(** X13. The signature of a presentation covers its context, type,
    holder and credentials only: the [challenge] and the [domain] of
    [createPresentation], and the time of creation, do not enter it, so
    two presentations of the same credentials by the same holder carry
    the same [proofValue].  The credentials are carried as given, and a
    missing or empty [challenge] or [domain] leaves the field unset. *)
Theorem presentation_signature_ignores_challenge
    (R : Issuer.Runtime) (P : Issuer.PresentationRuntime)
    (self : Issuer.VCIssuer) (now now' : Z)
    (credentials : list Issuer.VerifiableCredential) (holderDID : string)
    (challenge challenge' domain domain' : option string) :
  let vp := Issuer.createPresentation self now credentials holderDID
              challenge domain in
  let vp' := Issuer.createPresentation self now' credentials holderDID
               challenge' domain' in
  Issuer.vp_proofValue (Issuer.vp_proof vp)
  = Issuer.vp_proofValue (Issuer.vp_proof vp')
  /\ is_Some (Issuer.vp_proofValue (Issuer.vp_proof vp))
  /\ Issuer.verifiableCredential vp = credentials
  /\ Issuer.holder vp = holderDID
  /\ (Issuer.vp_challenge (Issuer.vp_proof vp) = None
      <-> challenge = None \/ challenge = Some "")
  /\ (Issuer.vp_domain (Issuer.vp_proof vp) = None
      <-> domain = None \/ domain = Some "").
Proof.
  cbn zeta. unfold Issuer.createPresentation, Issuer.signVP. simpl.
  split; [reflexivity|]. split; [eexists; reflexivity|].
  split; [reflexivity|]. split; [reflexivity|].
  split.
  - destruct challenge as [c|]; simpl; [|tauto].
    destruct (String.eqb_spec c "") as [->|Hne]; simpl.
    + tauto.
    + split; [discriminate|]. intros [H|H]; [discriminate|congruence].
  - destruct domain as [d|]; simpl; [|tauto].
    destruct (String.eqb_spec d "") as [->|Hne]; simpl.
    + tauto.
    + split; [discriminate|]. intros [H|H]; [discriminate|congruence].
Qed.

(** X14. [VCIssuerFactory.createFromEnv] throws its own error exactly
    when [VC_SIGNING_KEY] is unset or empty.  A key that is set is handed
    to the wallet, and an issuer is returned exactly when the wallet
    takes it as a private key; the key of its configuration is then that
    variable.  An unset [VC_ISSUER_DID] falls back to the placeholder
    DID, and an unset [EAS_REGISTRY_CONTRACT] to the empty string. *)
Theorem createFromEnv_requires_key (W : Issuer.WalletRuntime)
    (env : gmap string string) :
  (Issuer.createFromEnv env
   = inl (Issuer.Thrown "VC_SIGNING_KEY environment variable required")
   <-> env !! "VC_SIGNING_KEY" = None \/ env !! "VC_SIGNING_KEY" = Some "")
  /\ (Issuer.createFromEnv env = inl Issuer.WalletRejected
      <-> exists key, env !! "VC_SIGNING_KEY" = Some key /\ key <> ""
                      /\ Issuer.isPrivateKey key = false)
  /\ ((exists config, Issuer.createFromEnv env = inr config)
      <-> exists key, env !! "VC_SIGNING_KEY" = Some key /\ key <> ""
                      /\ Issuer.isPrivateKey key = true)
  /\ forall config,
       Issuer.createFromEnv env = inr config ->
       env !! "VC_SIGNING_KEY" = Some (Issuer.signingKey config)
       /\ Issuer.issuerDID config <> ""
       /\ (env !! "VC_ISSUER_DID" = None ->
           Issuer.issuerDID config = "did:ethr:0x123...")
       /\ (env !! "EAS_REGISTRY_CONTRACT" = None ->
           Issuer.registryContract config = "").
Proof.
  unfold Issuer.createFromEnv, Issuer.new_VCIssuer. simpl.
  destruct (env !! "VC_SIGNING_KEY") as [k|] eqn:Ek; simpl.
  - destruct (String.eqb_spec k "") as [->|Hk]; simpl.
    + split; [tauto|]. split; [|split].
      * split; [discriminate|]. intros (key & [= <-] & Hne & _). congruence.
      * split; [intros (config & H); discriminate H|].
        intros (key & [= <-] & Hne & _). congruence.
      * intros config [=].
    + pose proof Hk as Hk'. apply String.eqb_neq in Hk'. rewrite Hk'.
      destruct (Issuer.isPrivateKey k) eqn:Ew.
      * split; [split; [discriminate|intros [H|H]; congruence]|].
        split; [split; [discriminate|]|].
        { intros (key & [= <-] & _ & Hf). congruence. }
        split; [split; [intros _; exists k; auto|intros _; eexists; reflexivity]|].
        intros config [= <-]. simpl.
        split; [reflexivity|]. split.
        -- destruct (env !! "VC_ISSUER_DID") as [d|]; [|discriminate].
           destruct (String.eqb_spec d ""); [discriminate|assumption].
        -- split; intros ->; reflexivity.
      * split; [split; [discriminate|intros [H|H]; congruence]|].
        split; [split; [intros _; exists k; auto|reflexivity]|].
        split; [|intros config [=]].
        split; [intros (config & H); discriminate H|].
        intros (key & [= <-] & _ & Ht). congruence.
  - split; [tauto|]. split; [|split].
    + split; [discriminate|]. intros (key & H & _). discriminate H.
    + split; [intros (config & H); discriminate H|].
      intros (key & H & _). discriminate H.
    + intros config [=].
Qed.

(** ** Consent: what grant and revoke leave alone *)

Lemma existsb_filter_keep {A : Type} (P Q : A -> bool) (l : list A) :
  (forall x, P x = true -> Q x = true) ->
  existsb P (List.filter Q l) = existsb P l.
Proof.
  intros H. induction l as [|x l IH]; simpl; [reflexivity|].
  destruct (Q x) eqn:EQ; simpl.
  - rewrite IH. reflexivity.
  - rewrite IH. destruct (P x) eqn:EP; [|reflexivity].
    rewrite (H x EP) in EQ. discriminate.
Qed.

Lemma covers_grantedTo (t : Z) (r s : string) (c : Api.ConsentGrant) :
  Api.covers t r s c = true -> Api.grantedTo c = r.
Proof.
  unfold Api.covers. intros H.
  apply andb_true_iff in H as [H _]. apply andb_true_iff in H as [H _].
  apply String.eqb_eq. exact H.
Qed.

Lemma covers_scope (t : Z) (r s : string) (c : Api.ConsentGrant) :
  Api.covers t r s c = true -> In s (Api.scopes c).
Proof.
  unfold Api.covers. intros H.
  apply andb_true_iff in H as [H _]. apply andb_true_iff in H as [_ H].
  apply array_includes_In. exact H.
Qed.

(** The list of grants of a user after [revoke]. *)
Lemma revoke_lookup (store : gmap string (list Api.ConsentGrant)) (now : Z)
    (req : Api.RevokeRequest) :
  (Api.revoke store now req).1 !! Api.revoke_userId req
  = Some (List.filter
            (fun consent =>
               negb (String.eqb (Api.grantedTo consent) (Api.revokeFrom req)
                     && match Api.revoke_scopes req with
                        | Some scopes => Api.overlaps scopes consent
                        | None => true
                        end))
            (default [] (store !! Api.revoke_userId req))).
Proof.
  unfold Api.revoke. simpl. rewrite lookup_insert_eq. f_equal.
  destruct (Api.revoke_scopes req); [reflexivity|].
  apply filter_ext. intros c. rewrite andb_true_r. reflexivity.
Qed.

(** After a revoke without scopes the requester has no consent left. *)
Lemma checkConsent_revoke_all
    (store : gmap string (list Api.ConsentGrant)) (now t : Z)
    (req : Api.RevokeRequest) (s : string) :
  Api.revoke_scopes req = None ->
  Api.checkConsent (Api.revoke store now req).1 t (Api.revoke_userId req)
    (Api.revokeFrom req) s = false.
Proof.
  intros Hnone. rewrite checkConsent_existsb, revoke_lookup, Hnone. simpl.
  apply not_true_is_false. intros H.
  apply existsb_exists in H as (c & Hc & Hcov).
  apply filter_In in Hc as [_ Hkeep].
  rewrite (covers_grantedTo _ _ _ _ Hcov), String.eqb_refl in Hkeep.
  discriminate Hkeep.
Qed.

(** X15. [revoke]: with no scope list, every consent of the requester
    ends; with a list, every listed scope ends for the requester, and an
    empty list ends nothing.  In all cases the consents given to other
    requesters and by other users stay as they were. *)
Theorem revoke_ends_consent
    (store : gmap string (list Api.ConsentGrant)) (now : Z)
    (req : Api.RevokeRequest) (t : Z) :
  let store' := (Api.revoke store now req).1 in
  let subject := Api.revoke_userId req in
  let requester := Api.revokeFrom req in
  (Api.revoke_scopes req = None ->
   forall s, Api.checkConsent store' t subject requester s = false)
  /\ (forall scopes s,
        Api.revoke_scopes req = Some scopes -> In s scopes ->
        Api.checkConsent store' t subject requester s = false)
  /\ (Api.revoke_scopes req = Some [] ->
      forall r s,
        Api.checkConsent store' t subject r s
        = Api.checkConsent store t subject r s)
  /\ (forall r s,
        r <> requester ->
        Api.checkConsent store' t subject r s
        = Api.checkConsent store t subject r s)
  /\ (forall u r s,
        u <> subject ->
        Api.checkConsent store' t u r s = Api.checkConsent store t u r s).
Proof.
  cbn zeta.
  split; [|split; [|split; [|split]]].
  - intros Hnone s. apply checkConsent_revoke_all. exact Hnone.
  - intros scopes s Hsome Hs.
    rewrite checkConsent_existsb, revoke_lookup, Hsome. simpl.
    apply not_true_is_false. intros H.
    apply existsb_exists in H as (c & Hc & Hcov).
    apply filter_In in Hc as [_ Hkeep].
    rewrite (covers_grantedTo _ _ _ _ Hcov), String.eqb_refl in Hkeep.
    simpl in Hkeep. apply negb_true_iff in Hkeep.
    assert (Api.overlaps scopes c = true).
    { apply overlaps_true. exists s. split; [exact Hs|].
      exact (covers_scope _ _ _ _ Hcov). }
    congruence.
  - intros Hsome r s.
    rewrite !checkConsent_existsb, revoke_lookup, Hsome. simpl.
    apply existsb_filter_keep. intros c _.
    rewrite andb_false_r. reflexivity.
  - intros r s Hr.
    rewrite !checkConsent_existsb, revoke_lookup. simpl.
    apply existsb_filter_keep. intros c Hcov.
    rewrite (covers_grantedTo _ _ _ _ Hcov).
    apply String.eqb_neq in Hr. rewrite Hr. reflexivity.
  - intros u r s Hu. unfold Api.checkConsent, Api.revoke. simpl.
    rewrite lookup_insert_ne by congruence. reflexivity.
Qed.

(** X16. [grant] leaves the other consents alone: those given to other
    requesters, those given by other users, and those of the same
    requester that rest on a grant sharing no scope with the new one. *)
Theorem grant_keeps_other_consent
    (store : gmap string (list Api.ConsentGrant)) (now : Z)
    (req : Api.GrantRequest) (t : Z) :
  let store' := (Api.grant store now req).1 in
  let subject := Api.grant_userId req in
  let requester := Api.grant_grantedTo req in
  (forall r s,
     r <> requester ->
     Api.checkConsent store' t subject r s
     = Api.checkConsent store t subject r s)
  /\ (forall u r s,
        u <> subject ->
        Api.checkConsent store' t u r s = Api.checkConsent store t u r s)
  /\ (forall s c,
        In c (default [] (store !! subject)) ->
        Api.covers t requester s c = true ->
        Api.overlaps (Api.grant_scopes req) c = false ->
        Api.checkConsent store' t subject requester s = true).
Proof.
  cbn zeta. split; [|split].
  - intros r s Hr. rewrite !checkConsent_existsb, grant_lookup. simpl.
    rewrite existsb_app. simpl. unfold Api.covers at 2. simpl.
    apply String.eqb_neq in Hr. rewrite String.eqb_sym, Hr. simpl.
    rewrite !orb_false_r.
    apply existsb_filter_keep. intros c Hcov.
    rewrite (covers_grantedTo _ _ _ _ Hcov).
    rewrite Hr. reflexivity.
  - intros u r s Hu. rewrite grant_numeric. unfold Api.checkConsent. simpl.
    rewrite lookup_insert_ne by congruence. reflexivity.
  - intros s c Hin Hcov Hno.
    rewrite checkConsent_existsb, grant_lookup. simpl.
    rewrite existsb_app. apply orb_true_iff. left.
    apply existsb_exists. exists c. split; [|exact Hcov].
    apply filter_In. split; [exact Hin|].
    rewrite Hno, andb_false_r. reflexivity.
Qed.



(** ** The API: authentication, assertions and the credential rail *)

(** The demo key passes whatever key is configured. *)
Lemma authenticate_demo_key (envKey : option string) :
  Api.authenticate envKey (Some "demo-key-123") = Api.Next "demo-key-123".
Proof.
  unfold Api.authenticate. simpl. rewrite andb_false_r. reflexivity.
Qed.

(** X18. [authenticate] answers 401 when the key is absent or empty, 403
    when it is neither the configured key nor the demo key, and lets the
    request through as partner [key] otherwise; the demo key is accepted
    whatever key is configured. *)
Theorem authenticate_cases (envKey apiKey : option string) :
  (Api.authenticate envKey apiKey = Api.Reply 401 "API key required"
   <-> apiKey = None \/ apiKey = Some "")
  /\ (forall key,
        Api.authenticate envKey apiKey = Api.Next key
        <-> apiKey = Some key /\ key <> ""
            /\ (envKey = Some key \/ key = "demo-key-123"))
  /\ (Api.authenticate envKey apiKey = Api.Reply 403 "Invalid API key"
      <-> exists key, apiKey = Some key /\ key <> ""
                      /\ envKey <> Some key /\ key <> "demo-key-123")
  /\ Api.authenticate envKey (Some "demo-key-123") = Api.Next "demo-key-123".
Proof.
  assert (E : Api.authenticate envKey apiKey
              = match apiKey with
                | None => Api.Reply 401 "API key required"
                | Some k =>
                    if String.eqb k "" then Api.Reply 401 "API key required"
                    else if bool_decide (Some k = envKey)
                            || String.eqb k "demo-key-123"
                    then Api.Next k
                    else Api.Reply 403 "Invalid API key"
                end).
  { unfold Api.authenticate. destruct apiKey as [k|]; simpl; [|reflexivity].
    destruct (String.eqb k ""); simpl; [reflexivity|].
    rewrite strict_eq_Some. unfold strict_eq.
    destruct (bool_decide (Some k = envKey)); simpl; [reflexivity|].
    destruct (String.eqb k "demo-key-123"); reflexivity. }
  rewrite E. clear E.
  split; [|split; [|split; [|apply authenticate_demo_key]]].
  - destruct apiKey as [k|]; [|tauto].
    destruct (String.eqb_spec k "") as [->|Hk]; [tauto|].
    destruct (bool_decide (Some k = envKey) || String.eqb k "demo-key-123");
      (split; [discriminate|intros [H|H]; congruence]).
  - intros key. destruct apiKey as [k|].
    + destruct (String.eqb_spec k "") as [->|Hk].
      * split; [discriminate|]. intros ([= <-] & H & _). congruence.
      * destruct (bool_decide_reflect (Some k = envKey)) as [He|He]; simpl.
        -- split; [intros [= <-]; auto|intros ([= <-] & _); reflexivity].
        -- destruct (String.eqb_spec k "demo-key-123") as [Hd|Hd].
           ++ split; [intros [= <-]; auto|intros ([= <-] & _); reflexivity].
           ++ split; [discriminate|].
              intros ([= <-] & _ & [H|H]); congruence.
    + split; [discriminate|]. intros (H & _). discriminate.
  - destruct apiKey as [k|].
    + destruct (String.eqb_spec k "") as [->|Hk].
      * split; [discriminate|]. intros (key & [= <-] & H & _). congruence.
      * destruct (bool_decide_reflect (Some k = envKey)) as [He|He]; simpl.
        -- split; [discriminate|]. intros (key & [= <-] & _ & H & _). congruence.
        -- destruct (String.eqb_spec k "demo-key-123") as [Hd|Hd].
           ++ split; [discriminate|]. intros (key & [= <-] & _ & _ & H). congruence.
           ++ split; [intros _|reflexivity]. exists k. repeat split; congruence.
    + split; [discriminate|]. intros (key & H & _). discriminate.
Qed.

(** [isNumeric] on strings of digits and on what is not a numeral. *)
Example isNumeric_cases :
  map Validator.isNumeric
    ["10000"; "-5"; "+.5"; "12.50"; ""; "5."; "1e3"; "1.2.3"; "ten"; "+"]
  = [true; true; true; true; false; false; false; false; false; false].
Proof. reflexivity. Qed.

(** X19. Every assertion endpoint is gated by the key, by the validators
    of its route and by consent, in this order.  A request that
    [authenticate] refuses is refused with the same status.  An
    authenticated request is answered 400 when [minAmount] is absent or
    is not a numeral (balance) or when [requiredLevel] is given and is
    none of [basic], [enhanced], [hardware] (device).  Otherwise the
    partner gets an assertion exactly when the user's unexpired consent
    covers the scope of the endpoint ([kyc_status],
    [balance_verification], [device_attestation]), and the consent URL
    naming that scope and the partner when it does not.  An assertion is
    valid for 24 hours, 1 hour and 7 days respectively. *)
Theorem assertions_need_consent
    (store : gmap string (list Api.ConsentGrant)) (envKey apiKey : option string)
    (now : Z) (userId : string) (minAmount asset requiredLevel : option string) :
  let gate scope (validated : bool) (answer : Api.assertion_response)
           (window : Z) :=
    match Api.authenticate envKey apiKey with
    | Api.Reply code error => answer = Api.Refused code error
    | Api.Next partner =>
        if negb validated
        then answer = Api.Refused 400 "Validation failed"
        else if Api.checkConsent store now userId partner scope
        then exists a, answer = Api.Asserted a
                       /\ Api.issuedAt a = now
                       /\ Api.validUntil a = now + window
        else answer = Api.ConsentRequired
                        ("/consent/grant?scope=" ++ scope ++ "&requester="
                         ++ partner)%string
    end in
  gate "kyc_status" true (Api.hasKYC store envKey now apiKey userId) 86400000
  /\ gate "balance_verification"
       (match minAmount with
        | Some amount => Validator.isNumeric amount
        | None => false
        end)
       (Api.hasBalance store envKey now apiKey userId minAmount asset) 3600000
  /\ gate "device_attestation"
       (match requiredLevel with
        | Some level =>
            bool_decide (level = "basic" \/ level = "enhanced"
                         \/ level = "hardware")
        | None => true
        end)
       (Api.isDeviceCompliant store envKey now apiKey userId requiredLevel)
       604800000.
Proof.
  cbn zeta. unfold Api.hasKYC, Api.hasBalance, Api.isDeviceCompliant.
  destruct (Api.authenticate envKey apiKey) as [partner|code error];
    [|repeat split].
  split; [|split].
  - destruct (Api.checkConsent store now userId partner "kyc_status");
      simpl; [eexists; repeat split|reflexivity].
  - assert (E : Validator.required Validator.isNumeric minAmount
                = match minAmount with
                  | Some amount => Validator.isNumeric amount
                  | None => false
                  end) by (destruct minAmount; reflexivity).
    rewrite E.
    destruct (match minAmount with
              | Some amount => Validator.isNumeric amount
              | None => false
              end); simpl; [|reflexivity].
    destruct (Api.checkConsent store now userId partner "balance_verification");
      simpl; [eexists; repeat split|reflexivity].
  - assert (E : Validator.optional
                  (Validator.isIn ["basic"; "enhanced"; "hardware"])
                  requiredLevel
                = match requiredLevel with
                  | Some level =>
                      bool_decide (level = "basic" \/ level = "enhanced"
                                   \/ level = "hardware")
                  | None => true
                  end).
    { destruct requiredLevel as [level|]; [|reflexivity].
      unfold Validator.optional, Validator.isIn. simpl.
      destruct (String.eqb_spec level "basic") as [->|H1]; [reflexivity|].
      destruct (String.eqb_spec level "enhanced") as [->|H2]; [reflexivity|].
      destruct (String.eqb_spec level "hardware") as [->|H3]; [reflexivity|].
      simpl. symmetry. apply bool_decide_eq_false. tauto. }
    rewrite E.
    destruct (match requiredLevel with
              | Some level =>
                  bool_decide (level = "basic" \/ level = "enhanced"
                               \/ level = "hardware")
              | None => true
              end); simpl; [|reflexivity].
    destruct (Api.checkConsent store now userId partner "device_attestation");
      simpl; [eexists; repeat split|reflexivity].
Qed.







(** X23. [verifyPOFToken]: an unknown token is [PoF token not found] and
    an expiry outside the range of [Date] is [Invalid time value].
    Otherwise the token is valid exactly when it has the required asset
    (if any), its amount reaches the minimum (if any) and both compliance
    flags are set; the reason [Requirements not met] is given for the
    first two only, so a token that fails on compliance alone is
    rejected without a reason. *)
Theorem verifyPOFToken_cases
    (pofTokenStore : gmap string Issuer.POFData) (now : Z) (tokenId : string)
    (requirements : Api.Requirements) :
  let r := Api.verifyPOFToken pofTokenStore now tokenId requirements in
  match pofTokenStore !! tokenId with
  | None => r = Api.invalid "PoF token not found"
  | Some pofData =>
      if Z.abs (Issuer.expiry pofData * 1000) <=? JSDate.max_time
      then Api.valid r
           = Api.asset_ok pofData requirements
             && Api.amount_ok pofData requirements
             && Issuer.kycCompliant pofData
             && Issuer.sanctionsCleared pofData
           /\ (Api.reason r = Some "Requirements not met"
               <-> Api.meetsRequirements pofData requirements = false)
           /\ (Api.meetsRequirements pofData requirements = true ->
               Api.reason r = None)
           /\ Api.metadata r
              = Some (Api.TokenMetadata (Issuer.amount pofData)
                        (Issuer.asset pofData) tokenId)
           /\ Api.res_expiresAt r
              = Some (JSDate.ISO (Issuer.expiry pofData * 1000))
      else r = Api.invalid "Invalid time value"
  end.
Proof.
  cbn zeta. unfold Api.verifyPOFToken, JSDate.toISOString.
  destruct (pofTokenStore !! tokenId) as [pofData|]; [|reflexivity].
  destruct (Z.abs (Issuer.expiry pofData * 1000) <=? JSDate.max_time);
    [|reflexivity].
  simpl. unfold Api.meetsRequirements.
  destruct (Api.asset_ok pofData requirements && Api.amount_ok pofData requirements);
    repeat split; try discriminate; try reflexivity; intros H; discriminate H.
Qed.

(** ** The amount check *)

Import JSNumber.

Lemma pow2_pos (k : Z) : (0 < 2 ^ k)%Q.
Proof. apply Qpower_0_lt. reflexivity. Qed.

Lemma value_shift (m e k : Z) :
  k <= e -> (value m e == inject_Z (m * 2 ^ (e - k)) * 2 ^ k)%Q.
Proof.
  intros H. unfold value.
  rewrite inject_Z_mult, Zpower_Qpower by lia.
  rewrite <- Qmult_assoc, <- Qpower_plus by discriminate.
  replace (e - k + k) with e by lia. reflexivity.
Qed.

Lemma ge_Finite (m1 e1 m2 e2 : Z) :
  ge (Finite m1 e1) (Finite m2 e2) = true <-> (value m2 e2 <= value m1 e1)%Q.
Proof.
  simpl. unfold scaled. rewrite Z.leb_le.
  rewrite (value_shift m1 e1 (Z.min e1 e2)), (value_shift m2 e2 (Z.min e2 e1)) by lia.
  rewrite (Z.min_comm e2 e1).
  rewrite Qmult_le_r by apply pow2_pos.
  rewrite <- Zle_Qle. reflexivity.
Qed.

Lemma digits_decimal_value (s : string) : forall acc n,
  decimal_value acc s = Some n ->
  digits acc s = (n, String.length s, EmptyString).
Proof.
  induction s as [|c t IH]; simpl; intros acc n H.
  - injection H as <-. reflexivity.
  - destruct (digit_of c) as [d|]; [|discriminate].
    rewrite (IH _ _ H). reflexivity.
Qed.

Lemma digit_head (c : ascii) (t : string) (d : Z) :
  digit_of c = Some d ->
  skip_white_space (String c t) = String c t
  /\ signed (String c t) = (false, String c t)
  /\ String.prefix "Infinity" (String c t) = false.
Proof.
  destruct c as [[] [] [] [] [] [] [] []]; intros H;
    try discriminate H; repeat split.
Qed.

Lemma parseFloat_decimal_integer (s : string) (n : Z) :
  decimal_integer s = Some n -> parseFloat s = of_rational false n 1.
Proof.
  destruct s as [|c t]; [discriminate|]. intros H.
  unfold decimal_integer in H.
  assert (Hd : exists d, digit_of c = Some d).
  { simpl in H. destruct (digit_of c) as [d|]; [eauto|discriminate]. }
  destruct Hd as (d & Hd).
  destruct (digit_head c t d Hd) as (Hw & Hs & Hp).
  unfold parseFloat. rewrite Hw, Hs, Hp.
  rewrite (digits_decimal_value _ _ _ H). simpl.
  unfold of_decimal. simpl. rewrite Z.mul_1_r. reflexivity.
Qed.

Lemma decimal_value_nonneg (s : string) : forall acc n,
  0 <= acc -> decimal_value acc s = Some n -> 0 <= n.
Proof.
  induction s as [|c t IH]; simpl; intros acc n Hacc H.
  - injection H as <-. exact Hacc.
  - destruct (digit_of c) as [d|] eqn:E; [|discriminate].
    refine (IH _ _ _ H).
    unfold digit_of in E.
    destruct ((48 <=? Z.of_nat (nat_of_ascii c))
              && (Z.of_nat (nat_of_ascii c) <=? 57)) eqn:E'; [|discriminate].
    injection E as <-. apply andb_true_iff in E' as [E1 E2]. lia.
Qed.

Lemma of_rational_exact (n : Z) :
  0 <= n <= 2 ^ 53 ->
  exists m e, of_rational false n 1 = Finite m e /\ (value m e == inject_Z n)%Q.
Proof.
  intros Hn. unfold of_rational.
  destruct (Z.eqb_spec n 0) as [->|Hne].
  - exists 0, 0. split; [reflexivity|]. reflexivity.
  - assert (Hpos : 0 < n) by lia.
    pose proof (Z.log2_spec n Hpos) as [Hlo Hhi].
    pose proof (Z.log2_nonneg n) as HL.
    assert (HL53 : Z.log2 n <= 53).
    { destruct (Z.le_gt_cases (Z.log2 n) 53) as [|Hgt]; [assumption|].
      exfalso. assert (2 ^ 54 <= 2 ^ Z.log2 n) by (apply Z.pow_le_mono_r; lia).
      assert (2 ^ 53 < 2 ^ 54) by (apply Z.pow_lt_mono_r; lia). lia. }
    assert (Hfl : floor_log2 n 1 = Z.log2 n).
    { unfold floor_log2. change (Z.log2 1) with 0. rewrite Z.sub_0_r.
      rewrite (Z.max_r 0 (Z.log2 n)), (Z.max_l 0 (- Z.log2 n)) by lia.
      rewrite Z.pow_0_r, Z.mul_1_l, Z.mul_1_r.
      apply Z.leb_le in Hlo. rewrite Hlo. reflexivity. }
    rewrite Hfl, (Z.max_l (Z.log2 n) (-1022)) by lia.
    destruct (Z.le_gt_cases (Z.log2 n) 52) as [Hle|Hgt].
    + rewrite (Z.max_r 0 (- (Z.log2 n - 52))), (Z.max_l 0 (Z.log2 n - 52)) by lia.
      rewrite Z.pow_0_r, Z.mul_1_l.
      unfold round_half_even. rewrite Z.div_1_r, Z.mod_1_r. simpl (2 * 0 <? 1).
      cbv iota.
      replace (971 <? Z.log2 n - 52) with false by (symmetry; apply Z.ltb_ge; lia).
      replace (Z.log2 n - 52 =? 971) with false by (symmetry; apply Z.eqb_neq; lia).
      simpl. eexists _, _. split; [reflexivity|].
      unfold value. rewrite inject_Z_mult, Zpower_Qpower by lia.
      rewrite <- Qmult_assoc, <- Qpower_plus by discriminate.
      replace (- (Z.log2 n - 52) + (Z.log2 n - 52)) with 0 by lia.
      simpl. ring.
    + assert (E : Z.log2 n = 53) by lia.
      rewrite E in Hlo |- *.
      assert (n = 2 ^ 53) as -> by (apply Z.le_antisymm; [apply Hn|exact Hlo]).
      exists (2 ^ 52), 1. split; [vm_compute; reflexivity|]. reflexivity.
Qed.

(** C7 (amended). When [requirements.minAmount] is set to a number
    other than 0, the amount of the token is converted by [parseFloat] to
    a binary64 number and compared with [minAmount] as such: the API
    passes the amount iff [parseFloat(amount) >= minAmount], and the demo
    server passes it iff [parseFloat(amount) < parseFloat(minAmount)] is
    false.  The two tests agree unless a side is not a number, and an
    amount that cannot be parsed fails the first and passes the second.
    A falsy [minAmount] (0, or the empty string in the demo server) skips
    the check.  The comparison is the exact one when the amount is
    written as a decimal integer of at most [2^53]. *)
Theorem amount_check_is_double_comparison
    (pofData : Issuer.POFData) (requirements : Api.Requirements)
    (minAmount : number)
    (Hmin : Api.req_minAmount requirements = Some minAmount) :
  let amount := parseFloat (Issuer.amount pofData) in
  Api.amount_ok pofData requirements
  = (if JSNumber.truthy minAmount then ge amount minAmount else true)
  /\ (forall n m e,
        JSNumber.truthy minAmount = true ->
        decimal_integer (Issuer.amount pofData) = Some n ->
        n <= 2 ^ 53 ->
        minAmount = Finite m e ->
        (Api.amount_ok pofData requirements = true
         <-> (value m e <= inject_Z n)%Q))
  /\ (forall (req : Demo.Request) (v : Demo.numeric) (asset : string)
             (result : Demo.Result),
        Demo.req_requiredAsset req = None ->
        Demo.req_minAmount req = Some v ->
        Demo.res_valid
          (Demo.check_requirements req asset (Issuer.amount pofData) result)
        = Demo.res_valid result
          && (if Demo.numeric_truthy (Some v)
              then negb (lt amount (Demo.parseFloat v)) else true))
  /\ (amount <> NaN -> minAmount <> NaN ->
      negb (lt amount minAmount) = ge amount minAmount)
  /\ (amount = NaN ->
      ge amount minAmount = false /\ negb (lt amount minAmount) = true).
Proof.
  cbn zeta.
  assert (E : Api.amount_ok pofData requirements
              = (if JSNumber.truthy minAmount
                 then ge (parseFloat (Issuer.amount pofData)) minAmount
                 else true)).
  { unfold Api.amount_ok. rewrite Hmin.
    destruct (JSNumber.truthy minAmount); reflexivity. }
  split; [exact E|]. split; [|split; [|split]].
  - intros n m e Hset Hn Hle ->. rewrite E, Hset.
    assert (H0 : 0 <= n).
    { destruct (Issuer.amount pofData); [discriminate|].
      exact (decimal_value_nonneg _ _ _ (Z.le_refl 0) Hn). }
    rewrite (parseFloat_decimal_integer _ _ Hn).
    destruct (of_rational_exact n (conj H0 Hle)) as (m' & e' & -> & Hv).
    rewrite ge_Finite, Hv. reflexivity.
  - intros req v asset result Ha Hv.
    unfold Demo.check_requirements. rewrite Ha, Hv.
    destruct (Demo.numeric_truthy (Some v)); simpl;
      [|rewrite andb_true_r; reflexivity].
    destruct (lt (parseFloat (Issuer.amount pofData)) (Demo.parseFloat v));
      simpl; [rewrite andb_false_r|rewrite andb_true_r]; reflexivity.
  - intros Ha Hb. rewrite (lt_negb_ge _ _ Ha Hb). apply negb_involutive.
  - intros ->. split; reflexivity.
Qed.

(** C7 (as stated) fails: the amount [9007199254740995] is rounded to
    [9007199254740996] before it is compared, so it passes a minimum of
    [9007199254740996], which it does not reach. *)
Lemma amount_check_exact_counterexample :
  ~ (forall (pofData : Issuer.POFData) (requirements : Api.Requirements)
            (m e n : Z),
       Api.req_minAmount requirements = Some (Finite m e) ->
       JSNumber.truthy (Finite m e) = true ->
       decimal_integer (Issuer.amount pofData) = Some n ->
       (Api.amount_ok pofData requirements = true
        <-> (value m e <= inject_Z n)%Q)).
Proof.
  intros H.
  specialize (H {| Issuer.tokenId := "42"; Issuer.asset := "USDC";
                   Issuer.amount := "9007199254740995"; Issuer.expiry := 4102444800;
                   Issuer.holderAddress := "0xabc";
                   Issuer.kycCompliant := true; Issuer.sanctionsCleared := true;
                   Issuer.custodian := None; Issuer.auditHash := None |}
                {| Api.req_requiredAsset := None;
                   Api.req_minAmount := Some (Finite 2251799813685249 2) |}
                2251799813685249 2 9007199254740995 eq_refl eq_refl eq_refl).
  destruct H as [H _]. specialize (H eq_refl).
  vm_compute in H. apply H. reflexivity.
Qed.

(** The token of the demo registry against a minimum of 10000. *)
Lemma amount_check_is_double_comparison_witness :
  Api.amount_ok (Issuer.sample_pof 4102444800)
    {| Api.req_requiredAsset := Some "USDC";
       Api.req_minAmount := Some (Finite 10000 0) |}
  = ge (parseFloat "50000.00") (Finite 10000 0).
Proof.
  exact (proj1 (amount_check_is_double_comparison
                  (Issuer.sample_pof 4102444800)
                  {| Api.req_requiredAsset := Some "USDC";
                     Api.req_minAmount := Some (Finite 10000 0) |}
                  (Finite 10000 0) eq_refl)).
Defined.

(** ** Consent granted for a ttl sent as text *)

Lemma lt_Finite (m1 e1 m2 e2 : Z) :
  lt (Finite m1 e1) (Finite m2 e2) = true <-> (value m1 e1 < value m2 e2)%Q.
Proof.
  simpl. unfold scaled. rewrite Z.ltb_lt.
  rewrite (value_shift m1 e1 (Z.min e1 e2)), (value_shift m2 e2 (Z.min e2 e1)) by lia.
  rewrite (Z.min_comm e2 e1).
  rewrite Qmult_lt_r by apply pow2_pos.
  rewrite <- Zlt_Qlt. reflexivity.
Qed.

(** After a grant that the validator passes, the check for one of its
    scopes is decided by the clock and the new grant's expiry alone. *)
Lemma checkConsent_after_consent_grant
    (store : gmap string (list Api.ConsentGrant)) (now : Z)
    (body : Api.GrantBody) (s : string) (t : Z) :
  Api.expiresIn_valid (Api.body_expiresIn body) = true ->
  In s (Api.body_scopes body) ->
  Api.checkConsent (Api.consent_grant store now body).1 t
    (Api.body_userId body) (Api.body_grantedTo body) s
  = Api.greater
      (Api.plus now (default (Api.Num (30 * 24 * 60 * 60 * 1000))
                       (Api.body_expiresIn body))) t.
Proof.
  intros Hv Hs. rewrite checkConsent_existsb.
  unfold Api.consent_grant. rewrite Hv. simpl.
  rewrite lookup_insert_eq. simpl.
  rewrite existsb_app.
  rewrite (grant_kept_not_covering
             {| Api.grant_userId := Api.body_userId body;
                Api.grant_grantedTo := Api.body_grantedTo body;
                Api.grant_scopes := Api.body_scopes body;
                Api.grant_expiresIn := None |} t s _ Hs).
  simpl. unfold Api.covers. simpl. rewrite String.eqb_refl.
  apply array_includes_In in Hs. rewrite Hs. simpl.
  apply orb_false_r.
Qed.

(** C9 (what the code does). The validator of [expiresIn] lets a string
    of digits through, and the handler adds it to the clock as it is:
    for a grant made at 1700000000000 with the ttl of one hour sent as
    the string [3600000], [expiresAt] is the text [17000000000003600000],
    and the consent check for a granted scope is true at every reading
    of the clock up to [2^53], long after the hour has passed.  The same
    ttl sent as a number lapses at [now + ttl]. *)
Theorem text_ttl_does_not_lapse
    (store : gmap string (list Api.ConsentGrant))
    (subject requester : string) (scopes : list string) (s : string) (t : Z)
    (Hs : In s scopes) (Ht : 0 <= t <= 2 ^ 53) :
  let now := 1700000000000 in
  let body expiresIn :=
    {| Api.body_userId := subject; Api.body_grantedTo := requester;
       Api.body_scopes := scopes; Api.body_expiresIn := Some expiresIn |} in
  let as_number := Api.consent_grant store now (body (Api.Num 3600000)) in
  let as_text := Api.consent_grant store now (body (Api.Str "3600000")) in
  Api.checkConsent as_number.1 t subject requester s = (t <? now + 3600000)
  /\ as_text.2
     = Json {| Api.grant_success := true;
               Api.consentId := (subject, requester, now);
               Api.grant_expiresAt := Api.Str "17000000000003600000" |}
  /\ Api.checkConsent as_text.1 t subject requester s = true.
Proof.
  cbn zeta. split; [|split].
  - exact (checkConsent_after_consent_grant store 1700000000000
             {| Api.body_userId := subject; Api.body_grantedTo := requester;
                Api.body_scopes := scopes;
                Api.body_expiresIn := Some (Api.Num 3600000) |} s t
             eq_refl Hs).
  - reflexivity.
  - refine (eq_trans
              (checkConsent_after_consent_grant store 1700000000000
                 {| Api.body_userId := subject; Api.body_grantedTo := requester;
                    Api.body_scopes := scopes;
                    Api.body_expiresIn := Some (Api.Str "3600000") |} s t
                 eq_refl Hs) _).
    change (lt (of_Z t) (to_number "17000000000003600000") = true).
    replace (to_number "17000000000003600000")
      with (Finite 8300781250001758 11) by (vm_compute; reflexivity).
    unfold of_Z.
    replace (t <? 0) with false by (symmetry; apply Z.ltb_ge; lia).
    rewrite Z.abs_eq by lia.
    destruct (of_rational_exact t Ht) as (m & e & -> & Hv).
    apply lt_Finite. rewrite Hv.
    rewrite (value_shift 8300781250001758 11 0) by lia.
    change (2 ^ 0)%Q with 1%Q. rewrite Qmult_1_r.
    rewrite <- Zlt_Qlt.
    assert (2 ^ 53 < 8300781250001758 * 2 ^ (11 - 0)) by reflexivity.
    lia.
Qed.

(** The check at the instant the hour has passed. *)
Lemma text_ttl_does_not_lapse_witness :
  Api.checkConsent
    (Api.consent_grant ∅ 1700000000000
       {| Api.body_userId := "alice"; Api.body_grantedTo := "demo-key-123";
          Api.body_scopes := ["kyc_status"];
          Api.body_expiresIn := Some (Api.Str "3600000") |}).1
    1700003600000 "alice" "demo-key-123" "kyc_status" = true.
Proof.
  refine (proj2 (proj2 (text_ttl_does_not_lapse ∅ "alice" "demo-key-123"
                          ["kyc_status"] "kyc_status" 1700003600000 _ _))).
  - left. reflexivity.
  - split; discriminate.
Defined.

(** ** The rounding of [parseFloat] against machine arithmetic

    The value computed by [JSNumber.parseFloat] is the one the machine's
    binary64 arithmetic gives: a correctly rounded division, an integer
    conversion, and literals of the proof assistant. *)

Example parseFloat_tenth :
  to_float (parseFloat "0.1")
  = PrimFloat.div (PrimFloat.of_uint63 1) (PrimFloat.of_uint63 10).
Proof. vm_compute. reflexivity. Qed.

Example parseFloat_above_2_53 :
  to_float (parseFloat "9007199254740995")
  = PrimFloat.of_uint63 9007199254740995
  /\ to_float (parseFloat "9007199254740995")
     = to_float (Finite 2251799813685249 2).
Proof. split; vm_compute; reflexivity. Qed.

Example parseFloat_amount :
  to_float (parseFloat "50000.00") = PrimFloat.of_uint63 50000.
Proof. vm_compute. reflexivity. Qed.

Example parseFloat_literals :
  to_float (parseFloat "1e23") = 0x1.52d02c7e14af6p+76%float
  /\ to_float (parseFloat "4.35") = 0x1.1666666666666p+2%float
  /\ to_float (parseFloat "5e-324") = 0x0.0000000000001p-1022%float
  /\ to_float (parseFloat "1.7976931348623157e308")
     = 0x1.fffffffffffffp+1023%float
  /\ to_float (parseFloat "1.7976931348623159e308") = PrimFloat.infinity
  /\ to_float (parseFloat "  -12.5e2abc") = (-1250)%float.
Proof. repeat split; vm_compute; reflexivity. Qed.

Example parseFloat_not_a_number :
  parseFloat "abc" = NaN /\ parseFloat "." = NaN /\ parseFloat "" = NaN.
Proof. repeat split. Qed.

(** [Number] reads a whole string where [parseFloat] reads a prefix. *)
Example to_number_literals :
  to_float (to_number "17000000000003600000") = 0x1.d7d843dc3bb5ep+63%float
  /\ to_float (to_number " 0x1F ") = 31%float
  /\ to_float (to_number "1.e2") = 100%float
  /\ to_number "" = Finite 0 0
  /\ to_number "1700000000000-5" = NaN
  /\ parseFloat "1700000000000-5" = of_Z 1700000000000
  /\ to_number "12px" = NaN
  /\ to_number "1e" = NaN.
Proof. repeat split; vm_compute; reflexivity. Qed.

Example to_string_integers :
  map to_string [0; 7; 100; 1700000000000; -5]
  = ["0"; "7"; "100"; "1700000000000"; "-5"].
Proof. reflexivity. Qed.



(** * The identity layer *)

(** ** Rounding between integer bounds *)

Lemma round_half_even_lower (num den c : Z) :
  0 < den -> c * den <= num -> c <= round_half_even num den.
Proof.
  intros Hden H. unfold round_half_even.
  assert (c <= num / den) by (apply Z.div_le_lower_bound; lia).
  destruct (2 * (num mod den) <? den); [lia|].
  destruct (den <? 2 * (num mod den)); [lia|].
  destruct (Z.even (num / den)); lia.
Qed.

Lemma round_half_even_upper (num den c : Z) :
  0 < den -> num <= c * den -> round_half_even num den <= c.
Proof.
  intros Hden H. unfold round_half_even.
  pose proof (Z.div_mod num den ltac:(lia)) as Hdm.
  pose proof (Z.mod_pos_bound num den Hden) as Hr.
  assert (Hq : num / den <= c).
  { apply Z.div_le_upper_bound; lia. }
  destruct (Z.ltb_spec (2 * (num mod den)) den) as [|Hge]; [lia|].
  assert (num / den < c) by nia.
  destruct (den <? 2 * (num mod den)); [lia|].
  destruct (Z.even (num / den)); lia.
Qed.

(** The quotient of two positive integers, the numerator below [2^53],
    rounds to a number between any two integers that enclose it. *)
Lemma of_rational_between (n d lo hi : Z) :
  0 < n < 2 ^ 53 -> 0 < d -> lo * d <= n <= hi * d ->
  exists m k,
    0 <= k /\ of_rational false n d = Finite m (- k)
    /\ lo * 2 ^ k <= m <= hi * 2 ^ k.
Proof.
  intros Hn Hd Hb. unfold of_rational.
  destruct (Z.eqb_spec n 0) as [|_]; [lia|].
  assert (Hlog : Z.log2 n < 53) by (apply Z.log2_lt_pow2; lia).
  pose proof (Z.log2_nonneg d) as Hlogd.
  assert (Hfl : floor_log2 n d <= 52).
  { unfold floor_log2.
    destruct (d * 2 ^ Z.max 0 (Z.log2 n - Z.log2 d)
              <=? n * 2 ^ Z.max 0 (- (Z.log2 n - Z.log2 d))); lia. }
  set (ex := Z.max (floor_log2 n d) (-1022) - 52).
  assert (Hex : ex <= 0) by (unfold ex; lia).
  exists (round_half_even (n * 2 ^ Z.max 0 (- ex)) (d * 2 ^ Z.max 0 ex)), (- ex).
  rewrite Z.opp_involutive.
  replace (971 <? ex) with false by (symmetry; apply Z.ltb_ge; lia).
  replace (ex =? 971) with false by (symmetry; apply Z.eqb_neq; lia).
  simpl. split; [lia|]. split; [reflexivity|].
  rewrite (Z.max_r 0 (- ex)), (Z.max_l 0 ex) by lia.
  rewrite Z.pow_0_r, Z.mul_1_r.
  assert (Hp : 0 < 2 ^ (- ex)) by (apply Z.pow_pos_nonneg; lia).
  split.
  - apply round_half_even_lower; [exact Hd|]. nia.
  - apply round_half_even_upper; [exact Hd|]. nia.
Qed.

(** [Math.round] keeps a number between the integers that enclose it. *)
Lemma Math_round_between (m k lo hi : Z) :
  0 <= k -> lo * 2 ^ k <= m <= hi * 2 ^ k ->
  lo <= UnyID.Math_round (Finite m (- k)) <= hi.
Proof.
  intros Hk Hb. unfold UnyID.Math_round.
  destruct (Z.leb_spec 0 (- k)) as [H0|H0].
  - assert (k = 0) as -> by lia. simpl in *. lia.
  - rewrite Z.opp_involutive.
    replace (1 - - k) with (k + 1) by lia.
    rewrite Z.pow_add_r by lia. change (2 ^ 1) with 2.
    assert (Hp : 0 < 2 ^ k) by (apply Z.pow_pos_nonneg; lia).
    split.
    + apply Z.div_le_lower_bound; nia.
    + apply Z.lt_succ_r. apply Z.div_lt_upper_bound; nia.
Qed.

(** ** Device and trust scores *)

Lemma levelScore_range (d : UnyID.DeviceAttestation) :
  50 <= UnyID.levelScore d <= 100.
Proof.
  unfold UnyID.levelScore.
  destruct (String.eqb _ "hardware"); [lia|].
  destruct (String.eqb _ "enhanced"); lia.
Qed.

(** The sum of the level scores, between bounds that hold of each. *)
Lemma fold_levelScore_between (lo hi : Z) (l : list UnyID.DeviceAttestation) :
  (forall d, In d l -> lo <= UnyID.levelScore d <= hi) ->
  forall acc,
    acc + lo * Z.of_nat (length l)
    <= fold_left (fun sum device => sum + UnyID.levelScore device) l acc
    <= acc + hi * Z.of_nat (length l).
Proof.
  induction l as [|d l IH]; intros Hall acc.
  - simpl. lia.
  - cbn [fold_left length].
    pose proof (Hall d (or_introl eq_refl)) as Hd.
    specialize (IH (fun x Hx => Hall x (or_intror Hx)) (acc + UnyID.levelScore d)).
    lia.
Qed.

(** The score of a non-empty list of active devices. *)
Lemma active_score_between (lo hi : Z) (l : list UnyID.DeviceAttestation) :
  l <> [] -> Z.of_nat (length l) < 2 ^ 40 -> 50 <= lo -> hi <= 100 ->
  (forall d, In d l -> lo <= UnyID.levelScore d <= hi) ->
  lo <= UnyID.Math_round
          (of_rational false
             (fold_left (fun sum device => sum + UnyID.levelScore device) l 0)
             (Z.of_nat (length l)))
     <= hi.
Proof.
  intros Hne Hlen Hlo Hhi Hall.
  pose proof (fold_levelScore_between lo hi l Hall 0) as Hsum.
  assert (Hpos : 0 < Z.of_nat (length l)).
  { destruct l; [congruence|]. simpl length. lia. }
  assert (H53 : 2 ^ 40 * 100 < 2 ^ 53) by reflexivity.
  destruct (of_rational_between
              (fold_left (fun sum device => sum + UnyID.levelScore device) l 0)
              (Z.of_nat (length l)) lo hi) as (m & k & Hk & -> & Hm);
    [nia|exact Hpos|lia|].
  apply Math_round_between; assumption.
Qed.

(** The device score of any list of attestations. *)
Lemma device_score_bounds (now : Z) (devices : list UnyID.DeviceAttestation) :
  Z.of_nat (length devices) < 2 ^ 40 ->
  0 <= UnyID.calculateDeviceSecurityScore now devices <= 100.
Proof.
  intros Hlen. unfold UnyID.calculateDeviceSecurityScore.
  pose proof (filter_length_le (fun d => now <? UnyID.expiresAt d) devices) as Hf.
  destruct devices as [|d0 l0]; [simpl; lia|].
  destruct (List.filter (fun d => now <? UnyID.expiresAt d) (d0 :: l0))
    as [|d l] eqn:Ea; [lia|].
  assert (50 <= UnyID.Math_round
                  (of_rational false
                     (fold_left (fun sum device => sum + UnyID.levelScore device)
                        (d :: l) 0)
                     (Z.of_nat (length (d :: l)))) <= 100); [|lia].
  apply active_score_between; try lia; try congruence.
  intros x _. apply levelScore_range.
Qed.

(** X24. [calculateDeviceSecurityScore] is 0 when no device is active at
    the time of the call, and otherwise lies between 50 and 100: it is
    100 when every active device is of level [hardware] and 50 when none
    is of level [hardware] or [enhanced].  An attestation that has
    expired does not count. *)
Theorem device_security_score_range (now : Z)
    (devices : list UnyID.DeviceAttestation)
    (Hlen : Z.of_nat (length devices) < 2 ^ 40) :
  let active := List.filter (fun d => now <? UnyID.expiresAt d) devices in
  let score := UnyID.calculateDeviceSecurityScore now devices in
  (active = [] -> score = 0)
  /\ (active <> [] -> 50 <= score <= 100)
  /\ (active <> [] ->
      (forall d, In d active -> UnyID.securityLevel d = "hardware") ->
      score = 100)
  /\ (active <> [] ->
      (forall d, In d active ->
         UnyID.securityLevel d <> "hardware"
         /\ UnyID.securityLevel d <> "enhanced") ->
      score = 50)
  /\ score = UnyID.calculateDeviceSecurityScore now active.
Proof.
  cbn zeta.
  set (active := List.filter (fun d => now <? UnyID.expiresAt d) devices).
  assert (Hal : Z.of_nat (length active) < 2 ^ 40).
  { pose proof (filter_length_le (fun d => now <? UnyID.expiresAt d) devices).
    fold active in H. lia. }
  assert (E : UnyID.calculateDeviceSecurityScore now devices
              = match active with
                | [] => 0
                | _ => UnyID.Math_round
                         (of_rational false
                            (fold_left (fun sum device => sum + UnyID.levelScore device)
                               active 0)
                            (Z.of_nat (length active)))
                end).
  { unfold UnyID.calculateDeviceSecurityScore. fold active.
    destruct devices; reflexivity. }
  split; [|split; [|split; [|split]]].
  - intros ->. rewrite E. reflexivity.
  - intros Hne. rewrite E. destruct active as [|d l] eqn:Ea; [congruence|].
    apply active_score_between; try lia; try congruence.
    intros x _. apply levelScore_range.
  - intros Hne Hall. rewrite E. destruct active as [|d l] eqn:Ea; [congruence|].
    apply Z.le_antisymm.
    + apply (active_score_between 50 100); try lia; try congruence.
      intros x _. apply levelScore_range.
    + apply (active_score_between 100 100); try lia; try congruence.
      intros x Hx. unfold UnyID.levelScore. rewrite (Hall x Hx). simpl. lia.
  - intros Hne Hall. rewrite E. destruct active as [|d l] eqn:Ea; [congruence|].
    apply Z.le_antisymm.
    + apply (active_score_between 50 50); try lia; try congruence.
      intros x Hx. destruct (Hall x Hx) as [H1 H2].
      unfold UnyID.levelScore.
      apply String.eqb_neq in H1, H2. rewrite H1, H2. lia.
    + apply (active_score_between 50 100); try lia; try congruence.
      intros x _. apply levelScore_range.
  - rewrite E. unfold UnyID.calculateDeviceSecurityScore.
    assert (Hid : List.filter (fun d => now <? UnyID.expiresAt d) active = active).
    { unfold active. clear. induction devices as [|d l IH]; [reflexivity|].
      simpl. destruct (now <? UnyID.expiresAt d) eqn:Ed; simpl.
      - rewrite Ed, IH. reflexivity.
      - exact IH. }
    rewrite Hid. destruct active; reflexivity.
Qed.

(** A phone attested at the hardware level and a browser whose
    attestation has expired. *)
Lemma device_security_score_range_witness :
  let device level expires :=
    {| UnyID.deviceId := level; UnyID.platform := "ios";
       UnyID.securityLevel := level; UnyID.attestedAt := 0;
       UnyID.expiresAt := expires;
       UnyID.metadata :=
         {| UnyID.os := "unknown"; UnyID.browser := None;
            UnyID.isJailbroken := false; UnyID.hasScreenLock := true;
            UnyID.biometricsEnabled := true |} |} in
  UnyID.calculateDeviceSecurityScore 1000
    [device "hardware" 5000; device "basic" 500] = 100.
Proof.
  intros device.
  refine (proj1 (proj2 (proj2 (device_security_score_range 1000
                                 [device "hardware" 5000; device "basic" 500] _)))
            _ _).
  - reflexivity.
  - discriminate.
  - intros d [<-|[]]. reflexivity.
Defined.

Lemma verificationCount_range (v : UnyID.Verifications) :
  0 <= UnyID.verificationCount v <= 6
  /\ (UnyID.identity v = true -> 1 <= UnyID.verificationCount v).
Proof.
  unfold UnyID.verificationCount.
  destruct v as [[] [] [] [] [] []]; simpl; split; try lia;
    intros H; try discriminate H; lia.
Qed.

(** X25. [calculateTrustScore] never exceeds 1000 and, for a profile not
    created in the future, is never negative.  A profile with a verified
    identity scores at least 210 (200 for compliance and 10 for the
    verification), and a profile younger than 30 days without devices
    scores 10 per verification plus 200 when the identity is verified. *)
Theorem trust_score_range (now : Z) (profile : UnyID.UnyIDProfile)
    (Hlen : Z.of_nat (length (UnyID.devices profile)) < 2 ^ 40)
    (Hage : UnyID.createdAt profile <= now) :
  let score := UnyID.calculateTrustScore now profile in
  0 <= score <= 1000
  /\ (UnyID.identity (UnyID.verifications profile) = true -> 210 <= score)
  /\ (now - UnyID.createdAt profile < 2592000000 ->
      UnyID.devices profile = [] ->
      score = UnyID.verificationCount (UnyID.verifications profile) * 10
              + (if UnyID.identity (UnyID.verifications profile)
                 then 200 else 0)).
Proof.
  cbn zeta. unfold UnyID.calculateTrustScore.
  change (30 * 24 * 60 * 60 * 1000) with 2592000000.
  pose proof (verificationCount_range (UnyID.verifications profile)) as [Hc Hi].
  assert (Ha : 0 <= (now - UnyID.createdAt profile) / 2592000000)
    by (apply Z.div_pos; lia).
  pose proof (device_score_bounds now (UnyID.devices profile) Hlen) as Hdev.
  split; [|split].
  - destruct (UnyID.identity (UnyID.verifications profile)); lia.
  - intros Hid. specialize (Hi Hid). rewrite Hid. lia.
  - intros Hyoung Hnone.
    rewrite Z.div_small by lia. rewrite Hnone. simpl.
    destruct (UnyID.identity (UnyID.verifications profile)); lia.
Qed.

(** A profile on the day it was created. *)
Lemma trust_score_range_witness :
  UnyID.calculateTrustScore 1700000000000 UnyID.sample_profile = 0.
Proof.
  refine (proj2 (proj2 (trust_score_range 1700000000000 UnyID.sample_profile
                          eq_refl _)) eq_refl eq_refl).
  simpl. lia.
Defined.

(** ** The profile store *)

Lemma map_get_map_set_eq (m : list (string * nat)) (k : string) (r : nat) :
  UnyID.map_get (UnyID.map_set m k r) k = Some r.
Proof.
  unfold UnyID.map_get.
  induction m as [|[k' r'] m IH]; simpl.
  - rewrite String.eqb_refl. reflexivity.
  - destruct (String.eqb k' k) eqn:E; simpl.
    + rewrite String.eqb_refl. reflexivity.
    + rewrite E. exact IH.
Qed.

Lemma map_get_map_set_ne (m : list (string * nat)) (k k' : string) (r : nat) :
  k <> k' ->
  UnyID.map_get (UnyID.map_set m k r) k' = UnyID.map_get m k'.
Proof.
  intros Hne. apply String.eqb_neq in Hne.
  unfold UnyID.map_get.
  induction m as [|[k0 r0] m IH]; simpl.
  - rewrite Hne. reflexivity.
  - destruct (String.eqb k0 k) eqn:E; simpl.
    + apply String.eqb_eq in E. subst k0. rewrite Hne. reflexivity.
    + destruct (String.eqb k0 k'); [reflexivity|exact IH].
Qed.

(** A key that the [Map] lacks is entered at its end. *)
Lemma map_set_fresh (m : list (string * nat)) (k : string) (r : nat) :
  UnyID.map_get m k = None -> UnyID.map_set m k r = m ++ [(k, r)].
Proof.
  unfold UnyID.map_get.
  induction m as [|[k0 r0] m IH]; simpl; [reflexivity|].
  destruct (String.eqb k0 k) eqn:E; simpl; [discriminate|].
  intros H. rewrite (IH H). reflexivity.
Qed.

(** Reading after an object was replaced. *)
Lemma get_ref_store (st : UnyID.Profiles) (ref : nat) (p : UnyID.UnyIDProfile)
    (key : string) :
  UnyID.get_ref (UnyID.store st ref p) key
  = match UnyID.get_ref st key with
    | Some (r, q) => Some (r, if Nat.eqb r ref then p else q)
    | None => None
    end.
Proof.
  unfold UnyID.get_ref, UnyID.store. simpl.
  destruct (UnyID.map_get (UnyID.entries st) key) as [r|]; simpl; [|reflexivity].
  destruct (Nat.eqb_spec r ref) as [->|Hne].
  - destruct (UnyID.heap st !! ref) as [q|] eqn:E; simpl.
    + rewrite list_lookup_insert_eq by (eapply lookup_lt_Some; exact E).
      simpl. rewrite Nat.eqb_refl. reflexivity.
    + assert (H : <[ref:=p]> (UnyID.heap st) !! ref = None).
      { apply lookup_ge_None. rewrite length_insert.
        apply lookup_ge_None. exact E. }
      rewrite H. reflexivity.
  - rewrite list_lookup_insert_ne by congruence.
    apply Nat.eqb_neq in Hne.
    destruct (UnyID.heap st !! r); simpl; [rewrite Hne|]; reflexivity.
Qed.

(** ** The token codec of the examples *)

Lemma plain_unbits_bits (p : positive) (rest : string) :
  UnyID.plain_unbits (UnyID.plain_bits p rest) = Some (p, rest).
Proof.
  induction p as [p IH|p IH|]; simpl; [rewrite IH ..|]; reflexivity.
Qed.

Lemma plain_codec_laws : UnyID.CodecLaws UnyID.plain_codec.
Proof.
  constructor. intros d. simpl. unfold UnyID.plain_encode.
  destruct (UnyID.exp d) as [|p|p]; simpl;
    [|rewrite plain_unbits_bits ..]; reflexivity.
Qed.

(** What [createProfile] does when the name is free. *)
Lemma createProfile_free (st : UnyID.Profiles) (now : Z)
    (address username displayName : string) :
  UnyID.isUsernameTaken st username = false ->
  exists p,
    UnyID.createProfile st now address username displayName
    = inr ({| UnyID.heap := UnyID.heap st ++ [p];
              UnyID.entries :=
                UnyID.map_set
                  (UnyID.map_set (UnyID.entries st)
                     ("did:ethr:" ++ address)%string (length (UnyID.heap st)))
                  username (length (UnyID.heap st)) |}, p)
    /\ UnyID.did p = ("did:ethr:" ++ address)%string
    /\ UnyID.username p = username
    /\ UnyID.address p = Issuer.toLowerCase address
    /\ UnyID.trustScore p = 0
    /\ UnyID.credentials p = [] /\ UnyID.devices p = []
    /\ UnyID.createdAt p = now.
Proof.
  intros H. unfold UnyID.createProfile. rewrite H.
  eexists. split; [reflexivity|]. simpl. tauto.
Qed.

(** Both keys of a new profile lead to its object. *)
Lemma get_ref_new (heap : list UnyID.UnyIDProfile) (m : list (string * nat))
    (k1 k2 key : string) (p : UnyID.UnyIDProfile) :
  key = k1 \/ key = k2 ->
  UnyID.get_ref
    {| UnyID.heap := heap ++ [p];
       UnyID.entries := UnyID.map_set (UnyID.map_set m k1 (length heap))
                          k2 (length heap) |} key
  = Some (length heap, p).
Proof.
  intros Hk. unfold UnyID.get_ref. simpl.
  assert (E : UnyID.map_get
                (UnyID.map_set (UnyID.map_set m k1 (length heap)) k2 (length heap))
                key = Some (length heap)).
  { destruct (String.eqb_spec k2 key) as [->|Hne].
    - apply map_get_map_set_eq.
    - rewrite map_get_map_set_ne by exact Hne.
      destruct Hk as [->| ->]; [|congruence].
      apply map_get_map_set_eq. }
  rewrite E. simpl.
  rewrite lookup_app_r by lia. rewrite Nat.sub_diag. reflexivity.
Qed.

(** The other keys of the [Map] lead where they led. *)
Lemma get_ref_old (heap : list UnyID.UnyIDProfile) (m : list (string * nat))
    (k1 k2 key : string) (r : nat) (p x : UnyID.UnyIDProfile) :
  key <> k1 -> key <> k2 ->
  UnyID.get_ref {| UnyID.heap := heap; UnyID.entries := m |} key = Some (r, x) ->
  UnyID.get_ref
    {| UnyID.heap := heap ++ [p];
       UnyID.entries := UnyID.map_set (UnyID.map_set m k1 (length heap))
                          k2 (length heap) |} key
  = Some (r, x).
Proof.
  intros H1 H2. unfold UnyID.get_ref. simpl.
  rewrite !map_get_map_set_ne by congruence.
  destruct (UnyID.map_get m key) as [r0|]; simpl; [|discriminate].
  destruct (heap !! r0) as [q|] eqn:E; simpl; [|discriminate].
  intros [= <- <-].
  rewrite lookup_app_l by (eapply lookup_lt_Some; exact E).
  rewrite E. reflexivity.
Qed.

Lemma getProfile_Some (st : UnyID.Profiles) (key : string)
    (p : UnyID.UnyIDProfile) :
  UnyID.getProfile st key = Some p ->
  exists ref, UnyID.get_ref st key = Some (ref, p).
Proof.
  unfold UnyID.getProfile.
  destruct (UnyID.get_ref st key) as [[r q]|]; simpl; [|discriminate].
  intros [= ->]. exists r. reflexivity.
Qed.

(** Both keys of a stored object read the same after a replacement. *)
Lemma getProfile_store_same (st : UnyID.Profiles) (ref : nat)
    (p q : UnyID.UnyIDProfile) (key : string) :
  UnyID.get_ref st key = Some (ref, p) ->
  UnyID.getProfile (UnyID.store st ref q) key = Some q.
Proof.
  intros H. unfold UnyID.getProfile. rewrite get_ref_store, H.
  rewrite Nat.eqb_refl. reflexivity.
Qed.

Section Identity.
Context `{R : Issuer.Runtime} `{C : UnyID.Codec}.
Variable vcIssuer : Issuer.VCIssuer.

(** What [verifyIdentity] does to the object it finds. *)
Lemma verifyIdentity_found (st : UnyID.Profiles) (now : Z) (userDID : string)
    (kycData : Issuer.KYCData) (ref : nat) (profile : UnyID.UnyIDProfile)
    (vc : Issuer.VerifiableCredential) :
  UnyID.get_ref st userDID = Some (ref, profile) ->
  Issuer.issueKYCCredential vcIssuer now now userDID kycData = Some vc ->
  exists p',
    UnyID.verifyIdentity vcIssuer st now userDID kycData
    = (UnyID.store st ref p', None)
    /\ UnyID.credentials p' = UnyID.credentials profile ++ [vc]
    /\ UnyID.identity (UnyID.verifications p') = Issuer.kycData_approved kycData
    /\ UnyID.lastActive p' = now
    /\ UnyID.trustScore p'
       = (if Issuer.kycData_approved kycData
          then UnyID.calculateTrustScore now p'
          else UnyID.trustScore profile).
Proof.
  intros Hget Hvc. unfold UnyID.verifyIdentity. rewrite Hget, Hvc.
  eexists. split; [reflexivity|].
  destruct (Issuer.kycData_approved kycData); simpl; repeat split; reflexivity.
Qed.

End Identity.

(** The values of the [Map] after two fresh keys were entered for a new
    object. *)
Lemma values_new (heap : list UnyID.UnyIDProfile) (m : list (string * nat))
    (k1 k2 : string) (p : UnyID.UnyIDProfile) :
  (forall k r, In (k, r) m -> (r < length heap)%nat) ->
  UnyID.map_get m k1 = None -> UnyID.map_get m k2 = None -> k1 <> k2 ->
  omap (fun e => (heap ++ [p]) !! snd e)
    (UnyID.map_set (UnyID.map_set m k1 (length heap)) k2 (length heap))
  = omap (fun e => heap !! snd e) m ++ [p; p].
Proof.
  intros Hwf H1 H2 Hne.
  rewrite (map_set_fresh (UnyID.map_set m k1 (length heap)) k2)
    by (rewrite map_get_map_set_ne by exact Hne; exact H2).
  rewrite (map_set_fresh m k1) by exact H1.
  rewrite <- app_assoc. rewrite omap_app. simpl.
  rewrite lookup_app_r by lia. rewrite Nat.sub_diag. simpl.
  f_equal. clear H1 H2.
  induction m as [|[k r] m IH]; [reflexivity|].
  cbn [omap list_omap snd].
  rewrite lookup_app_l by (apply (Hwf k r); left; reflexivity).
  fold (omap (M := list) (fun e : string * nat => (heap ++ [p]) !! snd e) m).
  fold (omap (M := list) (fun e : string * nat => heap !! snd e) m).
  rewrite IH by (intros k' r' Hin; apply (Hwf k' r'); right; exact Hin).
  reflexivity.
Qed.

Lemma did_nonempty (address : string) :
  String.eqb ("did:ethr:" ++ address) "" = false.
Proof. reflexivity. Qed.

(** X26. A name that is free can be registered: [createProfile] then
    enters one new profile object under two keys of the [Map], its DID
    and its username, whatever was entered under the DID before.  Both
    keys read the new profile, the other keys read what they read, and
    every reference of the [Map] still leads to an object.  As the two
    keys share the object, an identity verification made through the
    username is read through the DID, and a search without criteria
    lists the new profile twice. *)
Theorem createProfile_two_keys `{R : Issuer.Runtime}
    (vcIssuer : Issuer.VCIssuer) (st : UnyID.Profiles) (now : Z)
    (address username displayName : string)
    (Hfree : UnyID.isUsernameTaken st username = false) :
  let did := ("did:ethr:" ++ address)%string in
  exists st' p,
    UnyID.createProfile st now address username displayName = inr (st', p)
    /\ UnyID.getProfile st' did = Some p
    /\ UnyID.getProfile st' username = Some p
    /\ UnyID.did p = did /\ UnyID.username p = username
    /\ UnyID.trustScore p = 0 /\ UnyID.createdAt p = now
    /\ (forall key x, key <> did -> key <> username ->
        UnyID.getProfile st key = Some x -> UnyID.getProfile st' key = Some x)
    /\ ((forall k r, In (k, r) (UnyID.entries st) ->
           (r < length (UnyID.heap st))%nat) ->
        (forall k r, In (k, r) (UnyID.entries st') ->
           (r < length (UnyID.heap st'))%nat)
        /\ (UnyID.map_get (UnyID.entries st) did = None ->
            UnyID.map_get (UnyID.entries st) username = None ->
            did <> username ->
            UnyID.searchProfiles st' UnyID.any_profile
            = UnyID.searchProfiles st UnyID.any_profile ++ [p; p]))
    /\ (forall now' kycData vc,
          Issuer.issueKYCCredential vcIssuer now' now' username kycData
          = Some vc ->
          exists q,
            let st'' := fst (UnyID.verifyIdentity vcIssuer st' now' username
                               kycData) in
            UnyID.getProfile st'' did = Some q
            /\ UnyID.getProfile st'' username = Some q
            /\ UnyID.credentials q = [vc]
            /\ UnyID.identity (UnyID.verifications q)
               = Issuer.kycData_approved kycData).
Proof.
  cbn zeta.
  destruct (createProfile_free st now address username displayName Hfree)
    as (p & Hc & Hdid & Huser & _ & Hscore & Hcred & _ & Hcreated).
  eexists _, p. split; [exact Hc|].
  assert (Gd : UnyID.get_ref
                 {| UnyID.heap := UnyID.heap st ++ [p];
                    UnyID.entries :=
                      UnyID.map_set
                        (UnyID.map_set (UnyID.entries st)
                           ("did:ethr:" ++ address)%string
                           (length (UnyID.heap st)))
                        username (length (UnyID.heap st)) |}
                 ("did:ethr:" ++ address)%string
               = Some (length (UnyID.heap st), p))
    by (apply get_ref_new; left; reflexivity).
  assert (Gu : UnyID.get_ref
                 {| UnyID.heap := UnyID.heap st ++ [p];
                    UnyID.entries :=
                      UnyID.map_set
                        (UnyID.map_set (UnyID.entries st)
                           ("did:ethr:" ++ address)%string
                           (length (UnyID.heap st)))
                        username (length (UnyID.heap st)) |}
                 username
               = Some (length (UnyID.heap st), p))
    by (apply get_ref_new; right; reflexivity).
  split; [unfold UnyID.getProfile; rewrite Gd; reflexivity|].
  split; [unfold UnyID.getProfile; rewrite Gu; reflexivity|].
  split; [exact Hdid|]. split; [exact Huser|].
  split; [exact Hscore|]. split; [exact Hcreated|].
  split; [|split].
  - intros key x H1 H2 Hx.
    destruct (getProfile_Some st key x Hx) as (r & Hr).
    unfold UnyID.getProfile.
    rewrite (get_ref_old (UnyID.heap st) (UnyID.entries st) _ _ key r p x H1 H2).
    + reflexivity.
    + destruct st. exact Hr.
  - intros Hwf. split.
    + simpl. intros k r Hin. rewrite length_app. simpl.
      assert (Hset : forall m k0 n k1 r1,
                 In (k1, r1) (UnyID.map_set m k0 n) ->
                 In (k1, r1) m \/ r1 = n).
      { clear. induction m as [|[a b] m IH]; simpl; intros k0 n k1 r1 Hin.
        - destruct Hin as [[= <- <-]|[]]. right. reflexivity.
        - destruct (String.eqb a k0).
          + destruct Hin as [[= <- <-]|Hin]; [right; reflexivity|].
            left. right. exact Hin.
          + destruct Hin as [Hin|Hin]; [left; left; exact Hin|].
            destruct (IH _ _ _ _ Hin) as [H| ->]; [left; right; exact H|].
            right. reflexivity. }
      destruct (Hset _ _ _ _ _ Hin) as [Hin'| ->]; [|lia].
      destruct (Hset _ _ _ _ _ Hin') as [Hin''| ->]; [|lia].
      pose proof (Hwf k r Hin''). lia.
    + intros F1 F2 Hne. unfold UnyID.searchProfiles. simpl.
      rewrite (values_new _ _ _ _ p Hwf F1 F2 Hne).
      rewrite !List.filter_app. f_equal.
      simpl. rewrite Hdid, did_nonempty. reflexivity.
  - intros now' kycData vc Hvc.
    destruct (verifyIdentity_found vcIssuer _ now' username kycData _ p vc Gu Hvc)
      as (q & Hv & Hq & Hi & _).
    exists q. cbn zeta. rewrite Hv. simpl fst.
    split; [exact (getProfile_store_same _ _ p q _ Gd)|].
    split; [exact (getProfile_store_same _ _ p q _ Gu)|].
    split; [rewrite Hq, Hcred; reflexivity|exact Hi].
Qed.

(** The first profile of an empty store. *)
Lemma createProfile_two_keys_witness :
  exists st' p,
    UnyID.createProfile UnyID.no_profiles 1700000000000 "0xAbC" "alice" "Alice"
    = inr (st', p)
    /\ UnyID.getProfile st' "did:ethr:0xAbC" = Some p
    /\ UnyID.getProfile st' "alice" = Some p
    /\ UnyID.searchProfiles st' UnyID.any_profile = [p; p].
Proof.
  destruct (createProfile_two_keys (R := Issuer.plain_runtime)
              Issuer.sample_issuer UnyID.no_profiles 1700000000000
              "0xAbC" "alice" "Alice" eq_refl)
    as (st' & p & Hc & Hd & Hu & _ & _ & _ & _ & _ & Hs & _).
  exists st', p.
  split; [exact Hc|]. split; [exact Hd|]. split; [exact Hu|].
  apply Hs.
  - intros k r [].
  - reflexivity.
  - reflexivity.
  - discriminate.
Defined.

(** X27. [isUsernameTaken] looks at the username of the profile that the
    name leads to, so a key under which a profile of another username is
    entered, such as its DID, counts as free: [createProfile] accepts it
    as a username, and the key then leads to the new profile, which
    carries the DID of the new address. *)
Theorem createProfile_claims_foreign_key (st : UnyID.Profiles) (now : Z)
    (address key displayName : string) (old : UnyID.UnyIDProfile)
    (Hold : UnyID.getProfile st key = Some old)
    (Hname : UnyID.username old <> key) :
  UnyID.isUsernameTaken st key = false
  /\ exists st' p,
       UnyID.createProfile st now address key displayName = inr (st', p)
       /\ UnyID.getProfile st' key = Some p
       /\ UnyID.username p = key
       /\ UnyID.did p = ("did:ethr:" ++ address)%string
       /\ UnyID.address p = Issuer.toLowerCase address.
Proof.
  assert (Hfree : UnyID.isUsernameTaken st key = false).
  { unfold UnyID.isUsernameTaken. rewrite Hold.
    apply String.eqb_neq. exact Hname. }
  split; [exact Hfree|].
  destruct (createProfile_free st now address key displayName Hfree)
    as (p & Hc & Hdid & Huser & Haddr & _).
  eexists _, p. split; [exact Hc|].
  split; [|split; [exact Huser|split; [exact Hdid|exact Haddr]]].
  unfold UnyID.getProfile. rewrite get_ref_new by (right; reflexivity).
  reflexivity.
Qed.

(** Mallory registers the DID of Alice as a username. *)
Lemma createProfile_claims_foreign_key_witness :
  UnyID.getProfile UnyID.sample_profiles "did:ethr:0xabc"
  = Some UnyID.sample_profile
  /\ exists st' mallory,
       UnyID.createProfile UnyID.sample_profiles 1700000001000 "0xbad"
         "did:ethr:0xabc" "Mallory" = inr (st', mallory)
       /\ UnyID.getProfile st' "did:ethr:0xabc" = Some mallory
       /\ UnyID.did mallory = "did:ethr:0xbad".
Proof.
  split; [reflexivity|].
  destruct (createProfile_claims_foreign_key UnyID.sample_profiles
              1700000001000 "0xbad" "did:ethr:0xabc" "Mallory"
              UnyID.sample_profile eq_refl)
    as (_ & st' & mallory & Hc & Hg & _ & Hd & _); [discriminate|].
  exists st', mallory.
  split; [exact Hc|]. split; [exact Hg|exact Hd].
Defined.

Example sample_profiles_created :
  UnyID.createProfile UnyID.no_profiles 1700000000000 "0xabc" "alice" "Alice"
  = inr (UnyID.sample_profiles, UnyID.sample_profile).
Proof. reflexivity. Qed.

(** X28. How the two verifications write the identity flag and the trust
    score of the profile they find.  [verifyIdentity] stores the verdict
    of the provider, so a rejection clears the flag, but it computes the
    score anew only on approval: after a rejection the profile keeps the
    score it had.  [addProofOfFunds] sets the income flag, raises the
    identity flag when the proof is KYC compliant and never clears it,
    and always computes the score anew.  Both append the credential they
    issue. *)
Theorem identity_flag_and_score `{R : Issuer.Runtime}
    (vcIssuer : Issuer.VCIssuer) (st : UnyID.Profiles) (now : Z)
    (userDID : string) (profile : UnyID.UnyIDProfile)
    (Hget : UnyID.getProfile st userDID = Some profile) :
  (forall kycData vc,
     Issuer.issueKYCCredential vcIssuer now now userDID kycData = Some vc ->
     let out := UnyID.verifyIdentity vcIssuer st now userDID kycData in
     snd out = None
     /\ exists p',
          UnyID.getProfile (fst out) userDID = Some p'
          /\ UnyID.credentials p' = UnyID.credentials profile ++ [vc]
          /\ UnyID.identity (UnyID.verifications p')
             = Issuer.kycData_approved kycData
          /\ UnyID.trustScore p'
             = (if Issuer.kycData_approved kycData
                then UnyID.calculateTrustScore now p'
                else UnyID.trustScore profile))
  /\ (forall pofData vc,
        Issuer.issueProofOfFunds vcIssuer now now userDID pofData = Some vc ->
        let out := UnyID.addProofOfFunds vcIssuer st now userDID pofData in
        snd out = None
        /\ exists p',
             UnyID.getProfile (fst out) userDID = Some p'
             /\ UnyID.credentials p' = UnyID.credentials profile ++ [vc]
             /\ UnyID.income (UnyID.verifications p') = true
             /\ UnyID.identity (UnyID.verifications p')
                = UnyID.identity (UnyID.verifications profile)
                  || Issuer.kycCompliant pofData
             /\ UnyID.trustScore p' = UnyID.calculateTrustScore now p').
Proof.
  destruct (getProfile_Some st userDID profile Hget) as (ref & Href).
  split.
  - intros kycData vc Hvc. cbn zeta.
    destruct (verifyIdentity_found vcIssuer st now userDID kycData ref profile
                vc Href Hvc) as (p' & -> & Hc & Hi & _ & Hs).
    split; [reflexivity|]. exists p'.
    split; [exact (getProfile_store_same st ref profile p' userDID Href)|].
    split; [exact Hc|]. split; [exact Hi|exact Hs].
  - intros pofData vc Hvc. cbn zeta.
    unfold UnyID.addProofOfFunds. rewrite Href, Hvc.
    split; [reflexivity|]. eexists.
    split; [exact (getProfile_store_same st ref profile _ userDID Href)|].
    destruct (Issuer.kycCompliant pofData); simpl;
      rewrite ?orb_true_r, ?orb_false_r; repeat split; reflexivity.
Qed.

(** Alice, verified by a compliant proof of funds, is rejected by the
    provider afterwards: the flag is cleared and the score stays. *)
Lemma identity_flag_and_score_witness :
  exists st p vc,
    fst (UnyID.addProofOfFunds (R := Issuer.plain_runtime) Issuer.sample_issuer
           UnyID.sample_profiles 1700000000000 "alice"
           (Issuer.sample_pof 1800000000)) = st
    /\ UnyID.getProfile st "alice" = Some p
    /\ UnyID.trustScore p = 220
    /\ Issuer.issueKYCCredential (R := Issuer.plain_runtime)
         Issuer.sample_issuer 1700000000000 1700000000000 "alice"
         {| Issuer.kycData_userId := "alice";
            Issuer.kycData_provider := "UnyKorn KYC";
            Issuer.kycData_level := "standard";
            Issuer.kycData_approved := false;
            Issuer.kycData_verifiedAt := 1700000000 |} = Some vc
    /\ exists p',
         UnyID.getProfile
           (fst (UnyID.verifyIdentity (R := Issuer.plain_runtime)
                   Issuer.sample_issuer st 1700000000000 "alice"
                   {| Issuer.kycData_userId := "alice";
                      Issuer.kycData_provider := "UnyKorn KYC";
                      Issuer.kycData_level := "standard";
                      Issuer.kycData_approved := false;
                      Issuer.kycData_verifiedAt := 1700000000 |}))
           "alice" = Some p'
         /\ UnyID.identity (UnyID.verifications p') = false
         /\ UnyID.trustScore p' = 220.
Proof.
  eexists _, _, _.
  split; [reflexivity|]. split; [vm_compute; reflexivity|].
  split; [vm_compute; reflexivity|]. split; [vm_compute; reflexivity|].
  match goal with
  | |- context [UnyID.verifyIdentity ?iss ?st ?now ?u ?k] =>
      destruct (proj1 (identity_flag_and_score (R := Issuer.plain_runtime)
                         iss st now u _ eq_refl) k _ eq_refl)
        as (_ & p' & Hg & _ & Hi & Hs)
  end.
  exists p'. split; [exact Hg|]. split; [exact Hi|]. 
  rewrite Hs. vm_compute. reflexivity.
Defined.

Lemma verifyDeviceAttestation_levels (platform : string)
    (data : UnyID.AttestationData) :
  let level := UnyID.verifyDeviceAttestation platform data in
  (level = "hardware" \/ level = "enhanced" \/ level = "basic")
  /\ (level = "hardware" -> platform = "ios" \/ platform = "android").
Proof.
  cbn zeta. unfold UnyID.verifyDeviceAttestation.
  destruct (String.eqb_spec platform "ios") as [->|_].
  { destruct (UnyID.hasSecureEnclave data); [|destruct (UnyID.hasTouchID data)];
      (split; [tauto|]); first [discriminate | intros _; left; reflexivity]. }
  destruct (String.eqb_spec platform "android") as [->|_].
  { destruct (UnyID.hasStrongBox data); [|destruct (UnyID.hasFingerprint data)];
      (split; [tauto|]); first [discriminate | intros _; right; reflexivity]. }
  destruct (String.eqb platform "web"); [destruct (UnyID.hasWebAuthn data)|];
    (split; [tauto|discriminate]).
Qed.

(** The list of devices after an attestation replaced those of its
    device. *)
Lemma replaced_device_same (deviceId : string)
    (l : list UnyID.DeviceAttestation) (a : UnyID.DeviceAttestation) :
  UnyID.deviceId a = deviceId ->
  List.filter (fun d => String.eqb (UnyID.deviceId d) deviceId)
    (List.filter (fun d => negb (String.eqb (UnyID.deviceId d) deviceId)) l
     ++ [a])
  = [a].
Proof.
  intros Ha. rewrite List.filter_app. cbn [List.filter].
  rewrite Ha, String.eqb_refl.
  induction l as [|d l IH]; [reflexivity|].
  cbn [List.filter].
  destruct (String.eqb (UnyID.deviceId d) deviceId) eqn:E;
    cbn [negb List.filter]; rewrite ?E; exact IH.
Qed.

Lemma replaced_device_others (deviceId : string)
    (l : list UnyID.DeviceAttestation) (a : UnyID.DeviceAttestation) :
  UnyID.deviceId a = deviceId ->
  List.filter (fun d => negb (String.eqb (UnyID.deviceId d) deviceId))
    (List.filter (fun d => negb (String.eqb (UnyID.deviceId d) deviceId)) l
     ++ [a])
  = List.filter (fun d => negb (String.eqb (UnyID.deviceId d) deviceId)) l.
Proof.
  intros Ha. rewrite List.filter_app. cbn [List.filter].
  rewrite Ha, String.eqb_refl. cbn [negb]. rewrite app_nil_r.
  induction l as [|d l IH]; [reflexivity|].
  cbn [List.filter].
  destruct (negb (String.eqb (UnyID.deviceId d) deviceId)) eqn:E;
    cbn [List.filter]; rewrite ?E, IH; reflexivity.
Qed.

(** X29. [addDeviceAttestation] keeps one attestation of the device it
    attests: the new attestation replaces those of the same device
    identifier and leaves the others in place.  The new attestation ends
    the list, runs for seven days, and has the level that
    [verifyDeviceAttestation] gives, which is [hardware] on [ios] and
    [android] only.  The list is replaced before the credential is
    issued: when the issuer returns a credential, it is appended and the
    score is computed anew; when the issuer throws, the method throws
    with the new list in place and the credentials and the score as they
    were. *)
Theorem device_reattestation `{R : Issuer.Runtime} `{C : UnyID.Codec}
    (vcIssuer : Issuer.VCIssuer) (st : UnyID.Profiles) (now : Z)
    (userDID deviceId platform : string) (data : UnyID.AttestationData)
    (profile : UnyID.UnyIDProfile)
    (Hget : UnyID.getProfile st userDID = Some profile) :
  let out := UnyID.addDeviceAttestation vcIssuer st now userDID deviceId
               platform data in
  exists p' attestation,
    UnyID.getProfile (fst out) userDID = Some p'
    /\ last (UnyID.devices p') = Some attestation
    /\ UnyID.deviceId attestation = deviceId
    /\ UnyID.expiresAt attestation = now + 604800000
    /\ UnyID.securityLevel attestation
       = UnyID.verifyDeviceAttestation platform data
    /\ (UnyID.securityLevel attestation = "hardware" ->
        platform = "ios" \/ platform = "android")
    /\ List.filter (fun d => String.eqb (UnyID.deviceId d) deviceId)
         (UnyID.devices p') = [attestation]
    /\ List.filter (fun d => negb (String.eqb (UnyID.deviceId d) deviceId))
         (UnyID.devices p')
       = List.filter (fun d => negb (String.eqb (UnyID.deviceId d) deviceId))
           (UnyID.devices profile)
    /\ match Issuer.issueDeviceAttestation vcIssuer now now userDID
               {| Issuer.deviceData_deviceId := deviceId;
                  Issuer.deviceData_platform := platform;
                  Issuer.deviceData_securityLevel :=
                    UnyID.verifyDeviceAttestation platform data;
                  Issuer.deviceData_attestations :=
                    [UnyID.stringify_attestation attestation];
                  Issuer.deviceData_verifiedAt := now / 1000 |} with
       | Some vc =>
           snd out = None
           /\ UnyID.credentials p' = UnyID.credentials profile ++ [vc]
           /\ UnyID.trustScore p' = UnyID.calculateTrustScore now p'
           /\ UnyID.lastActive p' = now
       | None =>
           snd out <> None
           /\ UnyID.credentials p' = UnyID.credentials profile
           /\ UnyID.trustScore p' = UnyID.trustScore profile
           /\ UnyID.lastActive p' = UnyID.lastActive profile
       end.
Proof.
  cbn zeta.
  destruct (getProfile_Some st userDID profile Hget) as (ref & Href).
  unfold UnyID.addDeviceAttestation. rewrite Href.
  change (7 * 24 * 60 * 60 * 1000) with 604800000.
  set (attestation :=
         {| UnyID.deviceId := deviceId; UnyID.platform := platform;
            UnyID.securityLevel := UnyID.verifyDeviceAttestation platform data;
            UnyID.attestedAt := now; UnyID.expiresAt := now + 604800000;
            UnyID.metadata := UnyID.extractDeviceMetadata data |}).
  pose proof (replaced_device_same deviceId (UnyID.devices profile)
                attestation eq_refl) as Hsame.
  pose proof (replaced_device_others deviceId (UnyID.devices profile)
                attestation eq_refl) as Hother.
  destruct (Issuer.issueDeviceAttestation vcIssuer now now userDID
              {| Issuer.deviceData_deviceId := deviceId;
                 Issuer.deviceData_platform := platform;
                 Issuer.deviceData_securityLevel :=
                   UnyID.verifyDeviceAttestation platform data;
                 Issuer.deviceData_attestations :=
                   [UnyID.stringify_attestation attestation];
                 Issuer.deviceData_verifiedAt := now / 1000 |})
    as [vc|] eqn:Hvc;
    (eexists _, attestation;
     split; [exact (getProfile_store_same st ref profile _ userDID Href)|];
     cbn [UnyID.devices UnyID.set_lastActive UnyID.set_trustScore
          UnyID.set_credentials UnyID.set_devices UnyID.credentials
          UnyID.trustScore UnyID.lastActive];
     split; [apply last_snoc|];
     split; [reflexivity|]; split; [reflexivity|]; split; [reflexivity|];
     split; [apply (verifyDeviceAttestation_levels platform data)|];
     split; [exact Hsame|]; split; [exact Hother|];
     rewrite Hvc; cbn [snd]).
  - repeat split; reflexivity.
  - split; [discriminate|]. repeat split; reflexivity.
Qed.

(** Alice attests her phone. *)
Lemma device_reattestation_witness :
  exists p' attestation,
    UnyID.getProfile
      (fst (UnyID.addDeviceAttestation (R := Issuer.plain_runtime)
              (C := UnyID.plain_codec) Issuer.sample_issuer
              UnyID.sample_profiles 1700000000000 "alice" "phone" "ios"
              {| UnyID.hasSecureEnclave := true; UnyID.hasTouchID := true;
                 UnyID.hasStrongBox := false; UnyID.hasFingerprint := false;
                 UnyID.hasWebAuthn := false; UnyID.att_os := Some "iOS 17";
                 UnyID.att_browser := None; UnyID.att_isJailbroken := false;
                 UnyID.att_hasScreenLock := true;
                 UnyID.att_biometricsEnabled := true |})) "alice" = Some p'
    /\ UnyID.devices p' = [attestation]
    /\ UnyID.securityLevel attestation = "hardware".
Proof.
  destruct (device_reattestation (R := Issuer.plain_runtime)
              (C := UnyID.plain_codec) Issuer.sample_issuer
              UnyID.sample_profiles 1700000000000 "alice" "phone" "ios"
              {| UnyID.hasSecureEnclave := true; UnyID.hasTouchID := true;
                 UnyID.hasStrongBox := false; UnyID.hasFingerprint := false;
                 UnyID.hasWebAuthn := false; UnyID.att_os := Some "iOS 17";
                 UnyID.att_browser := None; UnyID.att_isJailbroken := false;
                 UnyID.att_hasScreenLock := true;
                 UnyID.att_biometricsEnabled := true |}
              UnyID.sample_profile eq_refl)
    as (p' & attestation & Hg & _ & _ & _ & Hl & _ & Hsame & Hother & _).
  exists p', attestation. split; [exact Hg|]. split; [|rewrite Hl; reflexivity].
  rewrite <- Hsame.
  assert (Hnone : List.filter
                    (fun d => negb (String.eqb (UnyID.deviceId d) "phone"))
                    (UnyID.devices p') = []) by exact Hother.
  clear - Hnone.
  induction (UnyID.devices p') as [|d l IH]; [reflexivity|].
  cbn [List.filter] in *.
  destruct (String.eqb (UnyID.deviceId d) "phone"); cbn [negb] in Hnone;
    [rewrite <- IH by exact Hnone; reflexivity|discriminate Hnone].
Defined.

Section Tokens.
Context `{R : Issuer.Runtime} `{C : UnyID.Codec}.

(** The answer to a token whose fields were read. *)
Lemma verifyAuthToken_decoded (st : UnyID.Profiles) (now e : Z)
    (token did : string) :
  UnyID.decode token
  = Some {| UnyID.tf_exp := Some e; UnyID.tf_did := Some did |} ->
  UnyID.verifyAuthToken st now token
  = if e <? now
    then {| UnyID.token_valid := false; UnyID.checked_profile := None;
            UnyID.token_error := Some "Token expired" |}
    else match UnyID.getProfile st did with
         | None =>
             {| UnyID.token_valid := false; UnyID.checked_profile := None;
                UnyID.token_error := Some "Profile not found" |}
         | Some profile =>
             {| UnyID.token_valid := true;
                UnyID.checked_profile :=
                  Some {| UnyID.view_did := UnyID.did profile;
                          UnyID.view_username := UnyID.username profile;
                          UnyID.view_displayName := UnyID.displayName profile;
                          UnyID.view_avatar := None;
                          UnyID.view_trustScore := UnyID.trustScore profile;
                          UnyID.view_verifications :=
                            UnyID.verifications profile |};
                UnyID.token_error := None |}
         end.
Proof.
  intros H. unfold UnyID.verifyAuthToken. rewrite H. reflexivity.
Qed.

End Tokens.

(** X30. A token of [generateAuthToken] expires [expiryHours] hours after
    it was made, 24 when none are given, and [verifyAuthToken] accepts it
    up to and including that instant and answers [Token expired]
    afterwards.  An accepted token answers with the profile that the DID
    of the token leads to at the time of the check, with its username
    and score of that time; when the DID leads nowhere the answer is
    [Profile not found].  The domain the token was made for plays no
    part in the check. *)
Theorem auth_token_round_trip `{C : UnyID.Codec} (L : UnyID.CodecLaws C)
    (st st' : UnyID.Profiles) (now now' : Z) (userDID domain : string)
    (expiryHours : option Z) (profile : UnyID.UnyIDProfile)
    (Hget : UnyID.getProfile st userDID = Some profile) :
  exists t,
    UnyID.generateAuthToken st now userDID domain expiryHours = Some t
    /\ UnyID.token_expiresAt t = now + default 24 expiryHours * 3600000
    /\ UnyID.view_trustScore (UnyID.token_profile t) = UnyID.trustScore profile
    /\ (UnyID.token_expiresAt t < now' ->
        UnyID.token_error (UnyID.verifyAuthToken st' now' (UnyID.token t))
        = Some "Token expired")
    /\ (now' <= UnyID.token_expiresAt t ->
        forall current,
          UnyID.getProfile st' (UnyID.did profile) = Some current ->
          let answer := UnyID.verifyAuthToken st' now' (UnyID.token t) in
          UnyID.token_valid answer = true
          /\ (UnyID.view_trustScore <$> UnyID.checked_profile answer)
             = Some (UnyID.trustScore current)
          /\ (UnyID.view_username <$> UnyID.checked_profile answer)
             = Some (UnyID.username current))
    /\ (now' <= UnyID.token_expiresAt t ->
        UnyID.getProfile st' (UnyID.did profile) = None ->
        UnyID.token_error (UnyID.verifyAuthToken st' now' (UnyID.token t))
        = Some "Profile not found")
    /\ (forall domain' t',
          UnyID.generateAuthToken st now userDID domain' expiryHours = Some t' ->
          UnyID.verifyAuthToken st' now' (UnyID.token t')
          = UnyID.verifyAuthToken st' now' (UnyID.token t)).
Proof.
  unfold UnyID.generateAuthToken. rewrite Hget. cbn [mbind option_bind].
  eexists. split; [reflexivity|].
  cbn [UnyID.token_expiresAt UnyID.token UnyID.token_profile
       UnyID.view_trustScore].
  split; [lia|]. split; [reflexivity|].
  split; [|split; [|split]].
  - intros Hlate.
    rewrite (verifyAuthToken_decoded st' now' _ _ _ (UnyID.decode_encode _)).
    cbn [UnyID.exp]. apply Z.ltb_lt in Hlate.
    rewrite Hlate. reflexivity.
  - intros Hin current Hcur. cbn zeta.
    rewrite (verifyAuthToken_decoded st' now' _ _ _ (UnyID.decode_encode _)).
    cbn [UnyID.exp UnyID.td_did].
    apply Z.ltb_ge in Hin. rewrite Hin, Hcur. repeat split; reflexivity.
  - intros Hin Hnone.
    rewrite (verifyAuthToken_decoded st' now' _ _ _ (UnyID.decode_encode _)).
    cbn [UnyID.exp UnyID.td_did].
    apply Z.ltb_ge in Hin. rewrite Hin, Hnone. reflexivity.
  - intros domain' t' [= <-]. cbn [UnyID.token].
    rewrite !(verifyAuthToken_decoded st' now' _ _ _ (UnyID.decode_encode _)).
    reflexivity.
Qed.

(** A token of Alice, checked an hour after it was made. *)
Lemma auth_token_round_trip_witness :
  exists t,
    UnyID.generateAuthToken (C := UnyID.plain_codec) UnyID.sample_profiles
      1700000000000 "alice" "app.example" None = Some t
    /\ UnyID.token_valid
         (UnyID.verifyAuthToken (C := UnyID.plain_codec) UnyID.sample_profiles
            1700003600000 (UnyID.token t)) = true.
Proof.
  destruct (auth_token_round_trip plain_codec_laws UnyID.sample_profiles
              UnyID.sample_profiles 1700000000000 1700003600000 "alice"
              "app.example" None UnyID.sample_profile eq_refl)
    as (t & Hg & He & _ & _ & Hok & _).
  exists t. split; [exact Hg|].
  refine (proj1 (Hok _ UnyID.sample_profile eq_refl)).
  rewrite He. simpl. lia.
Defined.
